(** * Verification of the job-orchestration core of the Terraform provisioner

    Shallow embedding of
      - [backend/app/jobs/jobs.py]                 (request normalizer, create and destroy flows),
      - [backend/app/services/db_utils.py]         (status store),
      - [backend/app/services/terraform_utils.py]  (workspace builder, process runner),
    together with the pieces of the Python runtime they call
    ([int], [hash], [textwrap.dedent], [str.strip], [os.path.join]).

    Conventions.
      - A Python [str] is a Rocq [string]; character [c] stands for the code
        point [nat_of_ascii c], so the strings covered are those whose code
        points are below 256 (CPython's one-byte representation).
      - Python integers are [Z]; 64-bit machine words are [Z] with the
        wrap-around written out.
      - Instants and durations are integer microsecond counts (the resolution
        of [datetime] and [timedelta]); the conversion of [total_seconds()] to
        a float is not modelled.
      - Only exceptions deriving from [Exception] are modelled; an exception
        is represented by its message [str(e)].
      - The database, the Redis cache, the file system and the subprocesses
        are a world state [World] driven by an oracle [Env] that decides
        what the code does not: clock readings, faults, subprocess outcomes.
      - Calls of [logger] do not touch that state and are left out; the
        synchronous wrappers of jobs.py and the HTTP layer are outside the
        embedding. *)

From Stdlib Require Import ZArith Ascii String List Bool Lia DecimalString DecimalPos.
From stdpp Require Import base option list strings gmap fin_maps.

Open Scope string_scope.
Open Scope Z_scope.

(* ===================================================================== *)
(** * Python runtime: strings *)
(* ===================================================================== *)

Definition code (c : ascii) : Z := Z.of_nat (nat_of_ascii c).

Definition LF : ascii := ascii_of_nat 10.

(** The line-feed and double-quote characters as one-character strings. *)
Definition nl : string := String LF EmptyString.
Definition dq : string := String (ascii_of_nat 34) EmptyString.

Fixpoint chars (s : string) : list ascii :=
  match s with
  | EmptyString => []
  | String c s' => c :: chars s'
  end.

Fixpoint of_chars (l : list ascii) : string :=
  match l with
  | [] => EmptyString
  | c :: l' => String c (of_chars l')
  end.

(* ===================================================================== *)
(** * Python runtime: [int(str)] *)
(* ===================================================================== *)

Module PyInt.

(** [Py_ISSPACE]: the six ASCII white-space characters. *)
Definition Py_ISSPACE (c : ascii) : bool :=
  let n := code c in ((9 <=? n) && (n <=? 13)) || (n =? 32).

Definition is_ascii (c : ascii) : bool := code c <? 128.

Definition is_digit (c : ascii) : bool := (48 <=? code c) && (code c <=? 57).

Definition digit_value (c : ascii) : Z := code c - 48.

Definition is_underscore (c : ascii) : bool := code c =? 95.

(** [_PyUnicode_TransformDecimalAndSpaceToASCII]: an all-ASCII string is
    returned as it is; otherwise every non-ASCII white-space character
    becomes a space and every other non-ASCII character becomes [?]
    (no character between 128 and 255 is a decimal digit; NEL 0x85 and
    NBSP 0xA0 are the white-space characters of that range). *)
Definition transform_char (c : ascii) : ascii :=
  if is_ascii c then c
  else if (code c =? 133) || (code c =? 160) then " "%char
  else "?"%char.

Definition transform (l : list ascii) : list ascii :=
  if forallb is_ascii l then l else map transform_char l.

Fixpoint skip_space (l : list ascii) : list ascii :=
  match l with
  | c :: l' => if Py_ISSPACE c then skip_space l' else l
  | [] => []
  end.

(** The digit scan of [long_from_string_base]: digits and single
    underscores between digits. [prev_us] tells whether the previous
    character was an underscore. Returns the value read, the number of
    digits and the unread rest; [None] on a doubled or trailing
    underscore. *)
Fixpoint scan (prev_us : bool) (acc : Z) (digits : nat) (l : list ascii)
  : option (Z * nat * list ascii) :=
  match l with
  | c :: l' =>
      if is_digit c then scan false (10 * acc + digit_value c) (S digits) l'
      else if is_underscore c then
        (if prev_us then None else scan true acc digits l')
      else if prev_us then None else Some (acc, digits, l)
  | [] => if prev_us then None else Some (acc, digits, [])
  end.

(** [PyLong_FromString] with base 10. [max_str_digits] is
    [sys.get_int_max_str_digits()], which is 0 (no limit) or at least
    640; the digits counted are those of the numeral, underscores
    excluded, leading zeros included. *)
Definition from_string (max_str_digits : nat) (l : list ascii) : option Z :=
  let l := skip_space l in
  let '(negative, l) :=
    match l with
    | c :: l' =>
        if code c =? 43 then (false, l')
        else if code c =? 45 then (true, l')
        else (false, l)
    | [] => (false, l)
    end in
  match l with
  | c :: _ =>
      if is_underscore c then None
      else
        match scan false 0 0 l with
        | Some (v, digits, rest) =>
            if (digits =? 0)%nat then None
            else if negb (max_str_digits =? 0)%nat && (max_str_digits <? digits)%nat
                 then None
            else
              match skip_space rest with
              | [] => Some (if negative then - v else v)
              | _ :: _ => None
              end
        | None => None
        end
  | [] => None
  end.

(** [int(s)]: [Some n] when the call returns [n], [None] when it raises
    [ValueError]. *)
Definition int (max_str_digits : nat) (s : string) : option Z :=
  from_string max_str_digits (transform (chars s)).

End PyInt.

(* ===================================================================== *)
(** * Python runtime: [hash(str)] (SipHash-1-3, CPython 3.11 and later) *)
(* ===================================================================== *)

Module PyHash.

Definition mask64 : Z := 18446744073709551615.

Definition wrap64 (x : Z) : Z := Z.land x mask64.

Definition rotl64 (x b : Z) : Z :=
  wrap64 (Z.lor (Z.shiftl x b) (Z.shiftr x (64 - b))).

(** The per-process secret [_Py_HashSecret.siphash]. *)
Record secret : Type := { k0 : Z; k1 : Z }.

Record state : Type := { v0 : Z; v1 : Z; v2 : Z; v3 : Z }.

(** [HALF_ROUND(a,b,c,d,s,t)]; returns the new [(a,b,c,d)]. *)
Definition half_round (a b c d s t : Z) : Z * Z * Z * Z :=
  let a := wrap64 (a + b) in
  let c := wrap64 (c + d) in
  let b := Z.lxor (rotl64 b s) a in
  let d := Z.lxor (rotl64 d t) c in
  let a := rotl64 a 32 in
  (a, b, c, d).

(** [SINGLE_ROUND(v0,v1,v2,v3)]. *)
Definition single_round (st : state) : state :=
  let '(a, b, c, d) := half_round (v0 st) (v1 st) (v2 st) (v3 st) 13 16 in
  let '(c', b', a', d') := half_round c b a d 17 21 in
  {| v0 := a'; v1 := b'; v2 := c'; v3 := d' |}.

(** Little-endian value of at most eight bytes. *)
Fixpoint le_bytes (l : list Z) : Z :=
  match l with
  | [] => 0
  | b :: l' => Z.lor b (Z.shiftl (le_bytes l') 8)
  end.

(** One message word: [v3 ^= mi; SINGLE_ROUND; v0 ^= mi]. *)
Definition compress (st : state) (mi : Z) : state :=
  let st := single_round
              {| v0 := v0 st; v1 := v1 st; v2 := v2 st; v3 := Z.lxor (v3 st) mi |} in
  {| v0 := Z.lxor (v0 st) mi; v1 := v1 st; v2 := v2 st; v3 := v3 st |}.

(** The [while (src_sz >= 8)] loop; returns the state and the unread tail
    of fewer than eight bytes. *)
Fixpoint blocks (st : state) (src : list Z) : state * list Z :=
  match src with
  | b0 :: b1 :: b2 :: b3 :: b4 :: b5 :: b6 :: b7 :: rest =>
      blocks (compress st (le_bytes [b0; b1; b2; b3; b4; b5; b6; b7])) rest
  | tail => (st, tail)
  end.

Definition siphash13 (k : secret) (src : list Z) : Z :=
  let b := wrap64 (Z.shiftl (Z.of_nat (length src)) 56) in
  let st := {| v0 := Z.lxor (k0 k) 8317987319222330741;
               v1 := Z.lxor (k1 k) 7237128888997146477;
               v2 := Z.lxor (k0 k) 7816392313619706465;
               v3 := Z.lxor (k1 k) 8387220255154660723 |} in
  let '(st, tail) := blocks st src in
  let b := Z.lor b (le_bytes tail) in
  let st := compress st b in
  let st := {| v0 := v0 st; v1 := v1 st; v2 := Z.lxor (v2 st) 255; v3 := v3 st |} in
  let st := single_round (single_round (single_round st)) in
  Z.lxor (Z.lxor (v0 st) (v1 st)) (Z.lxor (v2 st) (v3 st)).

(** Reinterpretation of a 64-bit word as the signed [Py_hash_t]. *)
Definition to_signed (x : Z) : Z :=
  if x <? 9223372036854775808 then x else x - 18446744073709551616.

(** [_Py_HashBytes] on the one-byte representation of the string. *)
Definition hash (k : secret) (s : string) : Z :=
  match chars s with
  | [] => 0
  | l =>
      let x := to_signed (siphash13 k (map code l)) in
      if x =? -1 then -2 else x
  end.

(** [lcg_urandom]: the bytes derived from a non-zero [PYTHONHASHSEED];
    [x] is a 32-bit unsigned int. *)
Fixpoint lcg_urandom (x : Z) (size : nat) : list Z :=
  match size with
  | O => []
  | S size' =>
      let x := Z.land (x * 214013 + 2531011) 4294967295 in
      Z.land (Z.shiftr x 16) 255 :: lcg_urandom x size'
  end.

(** The secret of a process started with [PYTHONHASHSEED=seed]; seed 0
    disables randomisation (all-zero secret). *)
Definition secret_of_seed (seed : Z) : secret :=
  if seed =? 0 then {| k0 := 0; k1 := 0 |}
  else
    let bytes := lcg_urandom seed 16 in
    {| k0 := le_bytes (firstn 8 bytes); k1 := le_bytes (skipn 8 bytes) |}.

End PyHash.

(** What one Python process fixes at start-up. *)
Record Runtime : Type := {
  hash_secret : PyHash.secret;
  int_max_str_digits : nat
}.

(* ===================================================================== *)
(** * jobs.py: the request normalizer *)
(* ===================================================================== *)

(** [normalize_request_id(device_id)]. *)
Definition normalize_request_id (rt : Runtime) (device_id : string) : Z :=
  match PyInt.int (int_max_str_digits rt) device_id with
  | Some n => n
  | None => Z.abs (PyHash.hash (hash_secret rt) device_id) mod (10 ^ 8)
  end.

(* ===================================================================== *)
(** * Python runtime: text helpers *)
(* ===================================================================== *)

Module PyText.

(** [sep.join(parts)]. *)
Fixpoint join (sep : string) (parts : list string) : string :=
  match parts with
  | [] => ""
  | [p] => p
  | p :: rest => p ++ sep ++ join sep rest
  end.

(** [text.split(sep)] for a one-character separator: the pieces between
    the separators, empty pieces included. *)
Fixpoint split (sep : ascii) (l : list ascii) : list (list ascii) :=
  match l with
  | [] => [[]]
  | c :: l' =>
      if Ascii.eqb c sep then [] :: split sep l'
      else
        match split sep l' with
        | piece :: pieces => (c :: piece) :: pieces
        | [] => [[c]]
        end
  end.

Fixpoint unsplit (sep : ascii) (pieces : list (list ascii)) : list ascii :=
  match pieces with
  | [] => []
  | [p] => p
  | p :: rest => (p ++ sep :: unsplit sep rest)%list
  end.

(** The class [[ \t]] of the regular expressions of [textwrap]. *)
Definition is_blank (c : ascii) : bool := (code c =? 32) || (code c =? 9).

Fixpoint take_blank (l : list ascii) : list ascii :=
  match l with
  | c :: l' => if is_blank c then c :: take_blank l' else []
  | [] => []
  end.

(** [_whitespace_only_re.sub('', text)] on one line. *)
Definition blank_line (l : list ascii) : list ascii :=
  if forallb is_blank l then [] else l.

Fixpoint common_prefix (a b : list ascii) : list ascii :=
  match a, b with
  | x :: a', y :: b' => if Ascii.eqb x y then x :: common_prefix a' b' else []
  | _, _ => []
  end.

(** The [for indent in indents] loop: [margin] is [None] before the
    first line that has text. A line matches [_leading_whitespace_re]
    when a character outside [[ \t\n]] follows its leading blanks. *)
Fixpoint margin_loop (margin : option (list ascii)) (lines : list (list ascii))
  : option (list ascii) :=
  match lines with
  | [] => margin
  | l :: lines' =>
      if forallb is_blank l then margin_loop margin lines'
      else
        let indent := take_blank l in
        match margin with
        | None => margin_loop (Some indent) lines'
        | Some m => margin_loop (Some (common_prefix m indent)) lines'
        end
  end.

Fixpoint strip_prefix (m l : list ascii) : option (list ascii) :=
  match m, l with
  | [], _ => Some l
  | x :: m', y :: l' => if Ascii.eqb x y then strip_prefix m' l' else None
  | _ :: _, [] => None
  end.

(** [re.sub(r'(?m)^' + margin, '', text)] on one line. *)
Definition remove_margin (m l : list ascii) : list ascii :=
  match strip_prefix m l with
  | Some l' => l'
  | None => l
  end.

(** [textwrap.dedent(text)]. *)
Definition dedent_chars (text : list ascii) : list ascii :=
  let lines := map blank_line (split LF text) in
  match margin_loop None lines with
  | Some (c :: m) => unsplit LF (map (remove_margin (c :: m)) lines)
  | _ => unsplit LF lines
  end.

Definition dedent (text : string) : string := of_chars (dedent_chars (chars text)).

(** [str.isspace] on one character below 256. *)
Definition isspace (c : ascii) : bool :=
  let n := code c in
  ((9 <=? n) && (n <=? 13)) || ((28 <=? n) && (n <=? 32)) || (n =? 133) || (n =? 160).

Fixpoint lstrip_chars (l : list ascii) : list ascii :=
  match l with
  | c :: l' => if isspace c then lstrip_chars l' else l
  | [] => []
  end.

Definition rstrip_chars (l : list ascii) : list ascii :=
  rev (lstrip_chars (rev l)).

(** [text.strip()]. *)
Definition strip (text : string) : string :=
  of_chars (rstrip_chars (lstrip_chars (chars text))).

(** [sub in text], decided by trying every position. *)
Fixpoint contains_chars (sub l : list ascii) : bool :=
  match strip_prefix sub l with
  | Some _ => true
  | None =>
      match l with
      | [] => false
      | _ :: l' => contains_chars sub l'
      end
  end.

Definition contains (sub text : string) : bool := contains_chars (chars sub) (chars text).

(** [str(n)] for an integer. *)
Definition str_of_Z (n : Z) : string := DecimalString.NilZero.string_of_int (Z.to_int n).

End PyText.

(* ===================================================================== *)
(** * terraform_utils.py: configuration and templates *)
(* ===================================================================== *)

(** The module-level constants read from the environment at import time.
    [os.getenv] without a default gives [None] for an unset variable. *)
Record Config : Type := {
  AWS_REGION : string;
  TF_STATE_BUCKET : option string;
  DYNAMO_TABLE : option string;
  TERRAFORM_ROOT : string
}.

Definition MODULE_PATH : string := "/worker/modules/ec2".

(** An f-string field holding an optional value: [None] prints as [None]. *)
Definition fmt_opt (o : option string) : string :=
  match o with
  | Some s => s
  | None => "None"
  end.

Module Templates.

(** Each template is the text between the triple quotes, after f-string
    substitution and before [textwrap.dedent]: a leading line feed, the
    lines with the four-space indentation of the function body, and a
    last line of four spaces. *)
Definition main_tf_raw (instance_name device_id : string) : string :=
  PyText.join nl
    [ "";
      "    module " ++ dq ++ "ec2" ++ dq ++ " {";
      "      source        = " ++ dq ++ MODULE_PATH ++ dq;
      "      ami           = " ++ dq ++ "ami-0c02fb55956c7d316" ++ dq;
      "      instance_type = " ++ dq ++ "t3.micro" ++ dq;
      "      instance_name = " ++ dq ++ instance_name ++ dq;
      "      device_id     = " ++ dq ++ device_id ++ dq;
      "    }";
      "    " ].

Definition variables_tf_raw : string :=
  PyText.join nl
    [ "";
      "    variable " ++ dq ++ "device_id" ++ dq ++ " {";
      "      type        = string";
      "      description = " ++ dq ++ "Unique device ID" ++ dq;
      "    }";
      "";
      "    variable " ++ dq ++ "instance_name" ++ dq ++ " {";
      "      type        = string";
      "      description = " ++ dq ++ "EC2 instance name" ++ dq;
      "    }";
      "    " ].

Definition outputs_tf_raw : string :=
  PyText.join nl
    [ "";
      "    output " ++ dq ++ "ec2_instance_id" ++ dq ++ " {";
      "      value = module.ec2.instance_id";
      "    }";
      "";
      "    output " ++ dq ++ "ec2_public_ip" ++ dq ++ " {";
      "      value = module.ec2.public_ip";
      "    }";
      "    " ].

(** The line of the backend block that names the remote state. *)
Definition key_setting (device_id : string) : string :=
  "key            = " ++ dq ++ "state/" ++ device_id ++ ".tfstate" ++ dq.

Definition provider_tf_raw (cfg : Config) (device_id : string) : string :=
  PyText.join nl
    [ "";
      "    terraform {";
      "      required_version = " ++ dq ++ ">= 1.1.0" ++ dq;
      "";
      "      backend " ++ dq ++ "s3" ++ dq ++ " {";
      "        bucket         = " ++ dq ++ fmt_opt (TF_STATE_BUCKET cfg) ++ dq;
      "        " ++ key_setting device_id;
      "        region         = " ++ dq ++ AWS_REGION cfg ++ dq;
      "        dynamodb_table = " ++ dq ++ fmt_opt (DYNAMO_TABLE cfg) ++ dq;
      "        encrypt        = true";
      "      }";
      "    }";
      "";
      "    provider " ++ dq ++ "aws" ++ dq ++ " {";
      "      region = " ++ dq ++ AWS_REGION cfg ++ dq;
      "    }";
      "    " ].

(** [content.strip() + "\n"], what the loop writes for each entry. *)
Definition rendered (content : string) : string := PyText.strip content ++ nl.

(** The dictionary [files], in insertion order. *)
Definition files (cfg : Config) (device_id instance_name : string) : list (string * string) :=
  [ ("main.tf", PyText.dedent (main_tf_raw instance_name device_id));
    ("variables.tf", PyText.dedent variables_tf_raw);
    ("outputs.tf", PyText.dedent outputs_tf_raw);
    ("provider.tf", PyText.dedent (provider_tf_raw cfg device_id)) ].

End Templates.

(* ===================================================================== *)
(** * Python runtime: paths and the file system *)
(* ===================================================================== *)

Module PyPath.

Definition slash : ascii := "/"%char.

Definition starts_with_slash (p : string) : bool :=
  match p with
  | String c _ => Ascii.eqb c slash
  | EmptyString => false
  end.

Fixpoint ends_with_slash (p : string) : bool :=
  match p with
  | EmptyString => false
  | String c EmptyString => Ascii.eqb c slash
  | String _ p' => ends_with_slash p'
  end.

(** [os.path.join(a, b)] (posixpath). *)
Definition join (a b : string) : string :=
  if starts_with_slash b then b
  else if String.eqb a "" || ends_with_slash a then a ++ b
  else a ++ "/" ++ b.

(** One step of path resolution: empty components and [.] stay in place,
    any other component names an entry of the current directory. *)
Definition step (loc : list string) (c : string) : list string :=
  if String.eqb c "" || String.eqb c "." then loc else (loc ++ [c])%list.

Definition components (p : string) : list string :=
  map of_chars (PyText.split slash (chars p)).

(** The location a path names: the list of directory entries from the
    root. Relative paths start at the working directory [cwd]. Symbolic
    links and [..] components are outside the model (see [plain]). *)
Definition resolve (cwd : list string) (p : string) : list string :=
  fold_left step (components p) (if starts_with_slash p then [] else cwd).

(** The paths covered by the model: no component is [.] or [..]. *)
Definition plain (p : string) : Prop := ("." ∉ components p) /\ (".." ∉ components p).

(** A file name: not empty, not [.], no slash. *)
Definition plain_name (f : string) : bool :=
  negb (String.eqb f "") && negb (String.eqb f ".")
  && forallb (fun c => negb (Ascii.eqb c slash)) (chars f).

End PyPath.

Module FS.

Inductive Node : Type :=
| File (content : string)
| Dir.

(** A file system maps locations to nodes; the root is always a directory. *)
Definition node_at (fs : gmap (list string) Node) (loc : list string) : option Node :=
  match loc with
  | [] => Some Dir
  | _ => fs !! loc
  end.

Definition is_file (fs : gmap (list string) Node) (loc : list string) : bool :=
  match node_at fs loc with
  | Some (File _) => true
  | _ => false
  end.

(** The proper prefixes of a location, shortest first, then the location:
    the directories [os.makedirs] visits. *)
Fixpoint ancestors_and_self (loc : list string) : list (list string) :=
  match loc with
  | [] => []
  | c :: loc' => [c] :: map (cons c) (ancestors_and_self loc')
  end.

(** [below dir k]: [k] is an entry somewhere below directory [dir]. *)
Definition below (dir k : list string) : Prop := (dir `prefix_of` k) /\ k <> dir.

(** Well-formed file systems: every entry lies in directories. *)
Definition wf (fs : gmap (list string) Node) : Prop :=
  forall k n a, fs !! k = Some n -> below a k -> a <> [] -> fs !! a = Some Dir.

(** The same, decided entry by entry. *)
Definition wf_b (fs : gmap (list string) Node) : bool :=
  forallb (fun kv : list string * Node =>
             forallb (fun a => bool_decide (a = kv.1)
                               || match fs !! a with Some Dir => true | _ => false end)
                     (ancestors_and_self kv.1))
          (map_to_list fs).

(** [shutil.rmtree(path)]: the directory and everything below it go.
    [inl] is the exception raised. *)
Definition rmtree (fs : gmap (list string) Node) (loc : list string)
  : string + gmap (list string) Node :=
  match node_at fs loc with
  | None => inl "FileNotFoundError"
  | Some (File _) => inl "NotADirectoryError"
  | Some Dir => inr (filter (λ kv, ¬ (loc `prefix_of` kv.1)) fs)
  end.

(** [os.makedirs(path, exist_ok=True)]. *)
Definition makedirs (fs : gmap (list string) Node) (loc : list string)
  : string + gmap (list string) Node :=
  if existsb (is_file fs) (ancestors_and_self loc) then inl "FileExistsError"
  else inr (foldr (λ d m, <[d := Dir]> m) fs (ancestors_and_self loc)).

(** [open(path, "w")] followed by [write(content)] and the close. *)
Definition write_file (fs : gmap (list string) Node) (loc : list string) (content : string)
  : string + gmap (list string) Node :=
  match loc with
  | [] => inl "IsADirectoryError"
  | _ =>
      match node_at fs (removelast loc) with
      | Some Dir =>
          match fs !! loc with
          | Some Dir => inl "IsADirectoryError"
          | _ => inr (<[loc := File content]> fs)
          end
      | Some (File _) => inl "NotADirectoryError"
      | None => inl "FileNotFoundError"
      end
  end.

End FS.

(* ===================================================================== *)
(** * db_utils.py: the status store *)
(* ===================================================================== *)

Module Db.

(** A row of [request_status_logs]. *)
Record RequestRecord : Type := {
  log_id : Z;
  request_id : Z;
  user_id : string;
  status : string;
  duration_seconds : option Z;
  error_message : option string;
  created_at : Z;
  updated_at : Z
}.

(** A row of [request_resources]. *)
Record ResourceRecord : Type := {
  resource_id : Z;
  res_log_id : Z;
  resource_type : string;
  resource_name : string;
  resource_id_value : string;
  res_created_at : Z
}.

(** The two tables, in storage order, and the next values of the two
    autoincrement sequences. *)
Record Store : Type := {
  request_status_logs : list RequestRecord;
  request_resources : list ResourceRecord;
  log_id_seq : Z;
  resource_id_seq : Z
}.

Definition empty : Store :=
  {| request_status_logs := []; request_resources := [];
     log_id_seq := 1; resource_id_seq := 1 |}.

Definition rows_of (s : Store) (rid : Z) : list RequestRecord :=
  List.filter (fun r => request_id r =? rid) (request_status_logs s).

(** [select(log_id).where(request_id == rid)] followed by [.scalar()]:
    the key of the first matching row, [None] without one. *)
Definition select_log_id (s : Store) (rid : Z) : option Z :=
  match rows_of s rid with
  | r :: _ => Some (log_id r)
  | [] => None
  end.

(** Truth value of [log_id] in [if log_id:]. *)
Definition truthy (o : option Z) : bool :=
  match o with
  | Some l => negb (l =? 0)
  | None => false
  end.

Definition set_status (r : RequestRecord) (st : string) (dur : option Z)
           (err : option string) (now : Z) : RequestRecord :=
  {| log_id := log_id r; request_id := request_id r; user_id := user_id r;
     status := st; duration_seconds := dur; error_message := err;
     created_at := created_at r; updated_at := now |}.

(** [update().where(log_id == l).values(...)]. *)
Definition update_rows (l : Z) (st : string) (dur : option Z) (err : option string)
           (now : Z) (rows : list RequestRecord) : list RequestRecord :=
  map (fun r => if log_id r =? l then set_status r st dur err now else r) rows.

(** The transaction of [log_request]. [utcnow] is the reading of
    [datetime.utcnow()] and [db_now] the server's [now()], which fills
    [updated_at] of a new row. Returns [log_id] and the new store. *)
Definition log_request_tx (s : Store) (rid : Z) (user st : string)
           (dur : option Z) (err : option string) (created : option Z)
           (utcnow db_now : Z) : Z * Store :=
  let existing := select_log_id s rid in
  if truthy existing then
    let l := default 0 existing in
    (l, {| request_status_logs := update_rows l st dur err utcnow (request_status_logs s);
           request_resources := request_resources s;
           log_id_seq := log_id_seq s;
           resource_id_seq := resource_id_seq s |})
  else
    let l := log_id_seq s in
    let row := {| log_id := l; request_id := rid; user_id := user; status := st;
                  duration_seconds := dur; error_message := err;
                  created_at := default utcnow created; updated_at := db_now |} in
    (l, {| request_status_logs := (request_status_logs s ++ [row])%list;
           request_resources := request_resources s;
           log_id_seq := l + 1;
           resource_id_seq := resource_id_seq s |}).

(** The transaction of [log_resource]. *)
Definition log_resource_tx (s : Store) (l : Z) (rtype rname rvalue : string)
           (db_now : Z) : Store :=
  let row := {| resource_id := resource_id_seq s; res_log_id := l;
                resource_type := rtype; resource_name := rname;
                resource_id_value := rvalue; res_created_at := db_now |} in
  {| request_status_logs := request_status_logs s;
     request_resources := (request_resources s ++ [row])%list;
     log_id_seq := log_id_seq s;
     resource_id_seq := resource_id_seq s + 1 |}.

(** The transaction of [delete_resources_by_request_id]: child rows
    first, then the parent rows. *)
Definition delete_tx (s : Store) (rid : Z) : Store :=
  let keys := map log_id (rows_of s rid) in
  {| request_status_logs :=
       List.filter (fun r => negb (request_id r =? rid)) (request_status_logs s);
     request_resources :=
       List.filter (fun x => negb (existsb (Z.eqb (res_log_id x)) keys)) (request_resources s);
     log_id_seq := log_id_seq s;
     resource_id_seq := resource_id_seq s |}.

(** Well-formed stores: keys were handed out by the sequence, which
    starts at 1, and [log_id] is a primary key. *)
Record wf (s : Store) : Prop := {
  wf_seq : 0 < log_id_seq s;
  wf_keys : Forall (fun r => 0 < log_id r < log_id_seq s) (request_status_logs s);
  wf_pk : NoDup (map log_id (request_status_logs s))
}.

End Db.

(* ===================================================================== *)
(** * The world around one job *)
(* ===================================================================== *)

(** What a subprocess started by [_run_cmd] does: it exits with a return
    code and its decoded output, or it cannot be started. A subprocess
    that never ends is not represented, and neither is what the
    subprocess itself writes (terraform leaves [.terraform], a lock file
    and state in its working directory): [w_fs] records the calls of
    the Python code only, and a statement about the file system after a
    subprocess has run is about those calls, not about what terraform
    has added to its working directory. *)
Inductive ProcOutcome : Type :=
| Exited (returncode : Z) (stdout stderr : string)
| SpawnError (msg : string).

(** Everything the code does not decide. Each external interaction reads
    the oracle at the current [w_tick] of the world and advances it.
      - [env_db_fault t = Some msg]: the transaction started at tick [t]
        is rejected (connection loss, constraint or type violation) and
        rolled back; the call raises an exception with message [msg].
      - [env_cache_fault t]: the Redis write at tick [t] raises.
      - [env_fs_fault t = Some msg]: the file-system call at tick [t]
        raises (permission denied, disk full).
      - [env_proc t cmd cwd]: the outcome of the subprocess started at
        tick [t]. Its own effects on the file system are not modelled. *)
Record Env : Type := {
  runtime : Runtime;
  config : Config;
  cwd : list string;
  env_utcnow : nat -> Z;
  env_db_now : nat -> Z;
  env_db_fault : nat -> option string;
  env_cache_fault : nat -> bool;
  env_fs_fault : nat -> option string;
  env_proc : nat -> list string -> string -> ProcOutcome
}.

(** Calls recorded in program order, whether or not they complete. *)
Inductive Event : Type :=
| EvLogRequest (request_id : Z) (user_id status : string)
               (duration_seconds : option Z) (error_message : option string)
| EvLogResource (log_id : Z) (resource_type resource_name resource_id_value : string)
| EvRunCmd (cmd : list string) (cwd : string).

Record World : Type := {
  w_db : Db.Store;
  w_cache : gmap string string;
  w_fs : gmap (list string) FS.Node;
  w_trace : list Event;
  w_tick : nat
}.

Definition with_db (w : World) (d : Db.Store) : World :=
  {| w_db := d; w_cache := w_cache w; w_fs := w_fs w; w_trace := w_trace w; w_tick := w_tick w |}.

Definition with_cache (w : World) (c : gmap string string) : World :=
  {| w_db := w_db w; w_cache := c; w_fs := w_fs w; w_trace := w_trace w; w_tick := w_tick w |}.

Definition with_fs (w : World) (f : gmap (list string) FS.Node) : World :=
  {| w_db := w_db w; w_cache := w_cache w; w_fs := f; w_trace := w_trace w; w_tick := w_tick w |}.

Definition log_event (w : World) (e : Event) : World :=
  {| w_db := w_db w; w_cache := w_cache w; w_fs := w_fs w;
     w_trace := (w_trace w ++ [e])%list; w_tick := w_tick w |}.

Definition next_tick (w : World) : World :=
  {| w_db := w_db w; w_cache := w_cache w; w_fs := w_fs w;
     w_trace := w_trace w; w_tick := S (w_tick w) |}.

(** A call returns a value or raises an exception. *)
Inductive Outcome (A : Type) : Type :=
| Ret (a : A)
| Raise (msg : string).

Arguments Ret {A} a.
Arguments Raise {A} msg.

Definition M (A : Type) : Type := World -> Outcome A * World.

#[export] Instance M_ret : MRet M := fun A a w => (Ret a, w).

#[export] Instance M_bind : MBind M := fun A B k m w =>
  match m w with
  | (Ret a, w') => k a w'
  | (Raise e, w') => (Raise e, w')
  end.

(** [try: body  except Exception as e: handler(str(e))]. *)
Definition try_except {A : Type} (body : M A) (handler : string -> M A) : M A :=
  fun w =>
    match body w with
    | (Ret a, w') => (Ret a, w')
    | (Raise e, w') => handler e w'
    end.

(** The value a flow returns: [{"success": .., "output": .., "duration": ..}]. *)
Record JobResult : Type := {
  success : bool;
  output : string;
  duration : Z
}.

(* ===================================================================== *)
(** * The code *)
(* ===================================================================== *)

Section Code.

Variable env : Env.

(** ** Primitive interactions *)

Definition emit (e : Event) : M unit := fun w => (Ret tt, log_event w e).

(** [datetime.utcnow()]. *)
Definition utcnow : M Z := fun w => (Ret (env_utcnow env (w_tick w)), next_tick w).

(** [async with async_session() as session: async with session.begin(): tx]. *)
Definition transaction {A : Type} (tx : Z -> Z -> Db.Store -> A * Db.Store) : M A :=
  fun w =>
    let t := w_tick w in
    match env_db_fault env t with
    | Some msg => (Raise msg, next_tick w)
    | None =>
        let '(a, d) := tx (env_utcnow env t) (env_db_now env t) (w_db w) in
        (Ret a, next_tick (with_db w d))
    end.

Definition fs_call (op : gmap (list string) FS.Node -> string + gmap (list string) FS.Node)
  : M unit :=
  fun w =>
    let t := w_tick w in
    match env_fs_fault env t with
    | Some msg => (Raise msg, next_tick w)
    | None =>
        match op (w_fs w) with
        | inl e => (Raise e, next_tick w)
        | inr f => (Ret tt, next_tick (with_fs w f))
        end
    end.

Definition loc (path : string) : list string := PyPath.resolve (cwd env) path.

(** [os.path.exists(path)]; the empty path names nothing. *)
Definition os_path_exists (path : string) : M bool := fun w =>
  (Ret (negb (String.eqb path "") && bool_decide (is_Some (FS.node_at (w_fs w) (loc path)))), w).

Definition shutil_rmtree (path : string) : M unit :=
  fs_call (fun f => FS.rmtree f (loc path)).

Definition os_makedirs (path : string) : M unit :=
  fs_call (fun f => if String.eqb path "" then inl "FileNotFoundError"
                    else FS.makedirs f (loc path)).

Definition write_text (path content : string) : M unit :=
  fs_call (fun f => FS.write_file f (loc path) content).

(** ** db_utils.py *)

(** [cache_job_status(job_id, status)]: any exception is swallowed. *)
Definition cache_job_status (job_id status : string) : M unit := fun w =>
  if env_cache_fault env (w_tick w) then (Ret tt, next_tick w)
  else (Ret tt, next_tick (with_cache w (<["job:" ++ job_id := status]> (w_cache w)))).

(** [get_cached_job_status(job_id)]: any exception gives [None]. *)
Definition get_cached_job_status (job_id : string) : M (option string) := fun w =>
  if env_cache_fault env (w_tick w) then (Ret None, next_tick w)
  else (Ret (w_cache w !! ("job:" ++ job_id)), next_tick w).

(** [log_request(request_id, user_id, status, duration_seconds,
    error_message, created_at)]; omitted arguments are [None]. *)
Definition log_request (request_id : Z) (user_id status : string)
           (duration_seconds : option Z) (error_message : option string)
           (created_at : option Z) : M Z :=
  _ ← emit (EvLogRequest request_id user_id status duration_seconds error_message);
  log_id ← transaction (fun now db_now s =>
              Db.log_request_tx s request_id user_id status duration_seconds
                                error_message created_at now db_now);
  _ ← cache_job_status (PyText.str_of_Z request_id) status;
  mret log_id.

(** [log_resource(log_id, resource_type, resource_name, resource_id_value)]. *)
Definition log_resource (log_id : Z) (resource_type resource_name resource_id_value : string)
  : M unit :=
  _ ← emit (EvLogResource log_id resource_type resource_name resource_id_value);
  transaction (fun _ db_now s =>
    (tt, Db.log_resource_tx s log_id resource_type resource_name resource_id_value db_now)).

(** [delete_resources_by_request_id(request_id)]. *)
Definition delete_resources_by_request_id (request_id : Z) : M unit :=
  transaction (fun _ _ s => (tt, Db.delete_tx s request_id)).

(** ** terraform_utils.py *)

(** The loop [for filename, content in files.items()]. *)
Fixpoint write_files (path : string) (files : list (string * string)) : M unit :=
  match files with
  | [] => mret tt
  | (filename, content) :: rest =>
      _ ← write_text (PyPath.join path filename) (Templates.rendered content);
      write_files path rest
  end.

(** [generate_root_terraform_files(device_id, instance_name, path)]. *)
Definition generate_root_terraform_files (device_id instance_name path : string) : M unit :=
  present ← os_path_exists path;
  _ ← (if present : bool then shutil_rmtree path else mret tt);
  _ ← os_makedirs path;
  write_files path (Templates.files (config env) device_id instance_name).

(** [_run_cmd(cmd, cwd)]. *)
Definition _run_cmd (cmd : list string) (cwd : string) : M (Z * string * string) := fun w =>
  let w' := next_tick (log_event w (EvRunCmd cmd cwd)) in
  match env_proc env (w_tick w) cmd cwd with
  | Exited ret out err => (Ret (ret, out, err), w')
  | SpawnError msg => (Raise msg, w')
  end.

Definition init_cmd : list string := ["terraform"; "init"; "-input=false"].

Definition apply_cmd (device_id instance_name : string) : list string :=
  ["terraform"; "apply"; "-auto-approve"; "-input=false";
   "-var"; "device_id=" ++ device_id;
   "-var"; "instance_name=" ++ instance_name].

Definition output_cmd : list string := ["terraform"; "output"; "-json"].

Definition destroy_cmd (device_id instance_name : string) : list string :=
  ["terraform"; "destroy"; "-auto-approve"; "-input=false";
   "-var"; "device_id=" ++ device_id;
   "-var"; "instance_name=" ++ instance_name].

(** [run_terraform_commands(path, device_id, instance_name)]; returns
    [(success, "\n".join(logs), duration)]. *)
Definition run_terraform_commands (path device_id instance_name : string)
  : M (bool * string * Z) :=
  start ← utcnow;
  '(ret, out, err) ← _run_cmd init_cmd path;
  let logs := [out; err] in
  if negb (ret =? 0) then
    now ← utcnow;
    mret (false, PyText.join nl logs, now - start)
  else
    '(ret, out, err) ← _run_cmd (apply_cmd device_id instance_name) path;
    let logs := (logs ++ [out; err])%list in
    now ← utcnow;
    let duration := now - start in
    if negb (ret =? 0) then
      mret (false, PyText.join nl logs, duration)
    else
      logs ← try_except
                ('(ret2, out2, err2) ← _run_cmd output_cmd path;
                 mret (logs ++ [out2; err2])%list)
                (fun _ => mret logs);
      mret (true, PyText.join nl logs, duration).

(** [destroy_terraform_resources(path, device_id, instance_name)]. *)
Definition destroy_terraform_resources (path device_id instance_name : string)
  : M (bool * string * Z) :=
  start ← utcnow;
  '(ret, out, err) ← _run_cmd (destroy_cmd device_id instance_name) path;
  let logs := [out; err] in
  now ← utcnow;
  let duration := now - start in
  mret (ret =? 0, PyText.join nl logs, duration).

(** ** jobs.py *)

(** The [try] block of [create_server_job]. *)
Definition create_try (request_id log_id : Z) (device_id instance_name user device_path : string)
  : M JobResult :=
  _ ← generate_root_terraform_files device_id instance_name device_path;
  '(success, output, duration) ←
      run_terraform_commands device_path device_id instance_name;
  _ ← log_request request_id user
        (if success : bool then "success" else "failed")
        (Some duration)
        (if success : bool then None else Some output)
        None;
  _ ← (if success : bool then log_resource log_id "EC2" instance_name device_id
       else mret tt);
  mret {| success := success; output := output; duration := duration |}.

(** The [except Exception as e] block of [create_server_job]. *)
Definition create_except (request_id : Z) (user : string) (e : string) : M JobResult :=
  let error_text := "Unhandled error: " ++ e in
  _ ← log_request request_id user "error" None (Some error_text) None;
  mret {| success := false; output := error_text; duration := 0 |}.

(** [create_server_job(device_id, instance_name, user)]. *)
Definition create_server_job (device_id instance_name user : string) : M JobResult :=
  let request_id := normalize_request_id (runtime env) device_id in
  let device_path := PyPath.join (TERRAFORM_ROOT (config env)) device_id in
  log_id ← log_request request_id user "create_started" None None None;
  try_except
    (create_try request_id log_id device_id instance_name user device_path)
    (create_except request_id user).

(** The [try] block of [destroy_server_job]. *)
Definition destroy_try (request_id : Z) (device_id instance_name user device_path : string)
  : M JobResult :=
  '(success, output, duration) ←
      destroy_terraform_resources device_path device_id instance_name;
  _ ← log_request request_id user
        (if success : bool then "destroyed" else "destroy_failed")
        (Some duration)
        (if success : bool then None else Some output)
        None;
  mret {| success := success; output := output; duration := duration |}.

(** The [except Exception as e] block of [destroy_server_job]. *)
Definition destroy_except (request_id : Z) (user : string) (e : string) : M JobResult :=
  let error_text := "Destroy crashed: " ++ e in
  _ ← log_request request_id user "destroy_error" None (Some error_text) None;
  mret {| success := false; output := error_text; duration := 0 |}.

(** [destroy_server_job(device_id, instance_name, user)]. *)
Definition destroy_server_job (device_id instance_name user : string) : M JobResult :=
  let request_id := normalize_request_id (runtime env) device_id in
  let device_path := PyPath.join (TERRAFORM_ROOT (config env)) device_id in
  _ ← log_request request_id user "destroy_started" None None None;
  try_except
    (destroy_try request_id device_id instance_name user device_path)
    (destroy_except request_id user).

End Code.

(* ===================================================================== *)
(** * db_utils.py and main.py: start-up *)
(* ===================================================================== *)

Module Startup.

(** The lines printed, by the call that prints them. *)
Inductive Line : Type :=
| Attempt (number max_retries : nat)      (* startup_event, before init_db *)
| TablesCreated                           (* init_db, after create_all *)
| InitializationFailed (e : string)       (* init_db, in its except block *)
| Initialized                             (* startup_event, after init_db *)
| InitFailed (e : string).                (* startup_event, in its except block *)

(** What start-up leaves behind: the lines printed, the number of times
    [metadata.create_all] was run and the seconds slept. *)
Record Boot : Type := {
  printed : list Line;
  create_all_runs : nat;
  slept : nat
}.

Definition boot0 : Boot := {| printed := []; create_all_runs := 0; slept := 0 |}.

Definition B (A : Type) : Type := Boot -> Outcome A * Boot.

Definition print (l : Line) : B unit := fun b =>
  (Ret tt, {| printed := (printed b ++ [l])%list;
              create_all_runs := create_all_runs b; slept := slept b |}).

(** [await asyncio.sleep(seconds)]. *)
Definition sleep (seconds : nat) : B unit := fun b =>
  (Ret tt, {| printed := printed b; create_all_runs := create_all_runs b;
              slept := (slept b + seconds)%nat |}).

(** [async with engine.begin() as conn: await conn.run_sync(metadata.create_all)];
    [faults n = Some e]: the run numbered [n] raises an exception with
    message [e] (the database is not reachable yet). *)
Definition create_all (faults : nat -> option string) : B unit := fun b =>
  let b' := {| printed := printed b; create_all_runs := S (create_all_runs b);
               slept := slept b |} in
  match faults (create_all_runs b) with
  | Some e => (Raise e, b')
  | None => (Ret tt, b')
  end.

Definition bind {A C : Type} (m : B A) (k : A -> B C) : B C := fun b =>
  match m b with
  | (Ret a, b') => k a b'
  | (Raise e, b') => (Raise e, b')
  end.

Definition try_except {A : Type} (body : B A) (handler : string -> B A) : B A := fun b =>
  match body b with
  | (Ret a, b') => (Ret a, b')
  | (Raise e, b') => handler e b'
  end.

(** [init_db()]. *)
Definition init_db (faults : nat -> option string) : B unit :=
  try_except
    (bind (create_all faults) (fun _ => print TablesCreated))
    (fun e => print (InitializationFailed e)).

(** The loop [for attempt in range(max_retries)] of [startup_event], over
    the attempts that are left; the body returns [true] when it ends in
    [break]. *)
Fixpoint attempts (faults : nat -> option string) (max_retries : nat) (left : list nat)
  : B unit :=
  match left with
  | [] => fun b => (Ret tt, b)
  | attempt :: left' =>
      bind
        (try_except
           (bind (print (Attempt (attempt + 1) max_retries)) (fun _ =>
            bind (init_db faults) (fun _ =>
            bind (print Initialized) (fun _ =>
            fun b => (Ret true, b)))))
           (fun e =>
              bind (print (InitFailed e)) (fun _ =>
              bind (sleep 3) (fun _ =>
              fun b => (Ret false, b)))))
        (fun stop : bool => if stop then fun b => (Ret tt, b)
                            else attempts faults max_retries left')
  end.

(** [startup_event()]. *)
Definition startup_event (faults : nat -> option string) : B unit :=
  let max_retries := 10%nat in
  attempts faults max_retries (seq 0 max_retries).

End Startup.

(** The entries a workspace directory [dir] holds after the files of the
    dictionary [files] have been written. *)
Definition workspace_entries (dir : list string) (files : list (string * string))
  : gmap (list string) FS.Node :=
  list_to_map (map (fun f => ((dir ++ [f.1])%list, FS.File (Templates.rendered f.2))) files).

(* ===================================================================== *)
(** * Concrete settings used by the examples *)
(* ===================================================================== *)

(** A process started with [PYTHONHASHSEED=seed] and the default limit of
    4300 digits for [int]. *)
Definition rt_seed (seed : Z) : Runtime :=
  {| hash_secret := PyHash.secret_of_seed seed; int_max_str_digits := 4300 |}.

Definition cfg_example : Config :=
  {| AWS_REGION := "us-east-1"; TF_STATE_BUCKET := Some "tf-state"; DYNAMO_TABLE := Some "tf-lock";
     TERRAFORM_ROOT := "/app/terraform_templates" |}.

(** An environment in which nothing fails: every subprocess exits with
    code 0, the clock advances by one millisecond per interaction. *)
Definition env_ok : Env :=
  {| runtime := rt_seed 1;
     config := cfg_example;
     cwd := [];
     env_utcnow := fun t => 1000 * Z.of_nat t;
     env_db_now := fun t => 1000 * Z.of_nat t;
     env_db_fault := fun _ => None;
     env_cache_fault := fun _ => false;
     env_fs_fault := fun _ => None;
     env_proc := fun _ _ _ => Exited 0 "out" "err" |}.

(** [env_ok] with other subprocess outcomes, database faults and
    file-system faults. *)
Definition env_with (procs : nat -> list string -> string -> ProcOutcome)
           (db_faults fs_faults : nat -> option string) : Env :=
  {| runtime := runtime env_ok;
     config := config env_ok;
     cwd := cwd env_ok;
     env_utcnow := env_utcnow env_ok;
     env_db_now := env_db_now env_ok;
     env_db_fault := db_faults;
     env_cache_fault := env_cache_fault env_ok;
     env_fs_fault := fs_faults;
     env_proc := procs |}.

Definition no_fault : nat -> option string := fun _ => None.

(** A fault with message [msg] at the ticks listed. *)
Definition fault_at (ticks : list nat) (msg : string) : nat -> option string :=
  fun t => if existsb (Nat.eqb t) ticks then Some msg else None.

Definition world0 : World :=
  {| w_db := Db.empty; w_cache := ∅; w_fs := ∅; w_trace := []; w_tick := 0 |}.

(** The store after a first write for request 42, and after a second one
    that records a failure. *)
Definition w_started : World :=
  (log_request env_ok 42 "alice" "create_started" None None None world0).2.

Definition w_failed : World :=
  (log_request env_ok 42 "alice" "failed" (Some 3000) (Some "init failed") None w_started).2.

(** Four environments: every subprocess succeeds but the database
    rejects the terminal status write (the transaction at tick 12 of a
    create flow started in [world0]); the same with the write of the
    [except] block rejected as well; the disk is full when the workspace
    directory is created (tick 2); the database rejects the very first
    write (tick 0). *)
Definition env_terminal_write_fails : Env :=
  env_with (env_proc env_ok) (fault_at [12%nat] "db down") no_fault.

Definition env_db_stays_down : Env :=
  env_with (env_proc env_ok) (fault_at [12%nat; 13%nat] "db down") no_fault.

Definition env_disk_full : Env :=
  env_with (env_proc env_ok) no_fault (fault_at [2%nat] "disk full").

Definition env_db_down_at_start : Env :=
  env_with (env_proc env_ok) (fault_at [0%nat] "db down") no_fault.


(** A device id of two lines, [a] and [ b]. *)
Definition two_line_id : string := "a" ++ nl ++ " b".

(** A file system in which the workspace of device 42 holds the remains
    of an earlier run. *)
Definition fs_stale : gmap (list string) FS.Node :=
  list_to_map
    [ (["app"], FS.Dir);
      (["app"; "terraform_templates"], FS.Dir);
      (["app"; "terraform_templates"; "42"], FS.Dir);
      (["app"; "terraform_templates"; "42"; "main.tf"], FS.File "old");
      (["app"; "terraform_templates"; "42"; ".terraform"], FS.Dir);
      (["app"; "terraform_templates"; "42"; ".terraform"; "terraform.tfstate"], FS.File "{}") ].

Definition world_stale : World :=
  {| w_db := Db.empty; w_cache := ∅; w_fs := fs_stale; w_trace := []; w_tick := 0 |}.

(** The world after a create job for device 42 in which nothing failed:
    the store holds the record of request 42 with its resource row, the
    file system the workspace. *)
Definition w_created : World := (create_server_job env_ok "42" "web1" "alice" world0).2.

(** Subprocesses that exit with code 0, except that the one started at
    [tick] exits with code 1, respectively cannot be started. In a
    pipeline started at tick 0, [apply] is the interaction at tick 2 and
    [output] the one at tick 4; in a create flow started in [world0],
    [apply] is the interaction at tick 9. *)
Definition procs_failing_at (tick : nat) : nat -> list string -> string -> ProcOutcome :=
  fun t _ _ => if (t =? tick)%nat then Exited 1 "" "apply error" else Exited 0 "out" "err".

Definition procs_missing_at (tick : nat) : nat -> list string -> string -> ProcOutcome :=
  fun t _ _ => if (t =? tick)%nat then SpawnError "terraform not found"
               else Exited 0 "out" "err".

(** A file system in which a regular file stands where the directory
    [/app] should be. *)
Definition world_blocked : World :=
  {| w_db := Db.empty; w_cache := ∅; w_fs := {[ ["app"] := FS.File "not a directory" ]};
     w_trace := []; w_tick := 0 |}.

(* ===================================================================== *)
(** * Vocabulary of the statements *)
(* ===================================================================== *)

(** The value of a decimal numeral read after the prefix value [acc]. *)
Fixpoint uint_value (acc : Z) (u : Decimal.uint) : Z :=
  match u with
  | Decimal.Nil => acc
  | Decimal.D0 u' => uint_value (10 * acc + 0) u'
  | Decimal.D1 u' => uint_value (10 * acc + 1) u'
  | Decimal.D2 u' => uint_value (10 * acc + 2) u'
  | Decimal.D3 u' => uint_value (10 * acc + 3) u'
  | Decimal.D4 u' => uint_value (10 * acc + 4) u'
  | Decimal.D5 u' => uint_value (10 * acc + 5) u'
  | Decimal.D6 u' => uint_value (10 * acc + 6) u'
  | Decimal.D7 u' => uint_value (10 * acc + 7) u'
  | Decimal.D8 u' => uint_value (10 * acc + 8) u'
  | Decimal.D9 u' => uint_value (10 * acc + 9) u'
  end.

(** The [log_resource] calls recorded in a trace. *)
Definition is_log_resource (e : Event) : bool :=
  match e with
  | EvLogResource _ _ _ _ => true
  | _ => false
  end.

Definition log_resource_calls (tr : list Event) : list Event := List.filter is_log_resource tr.

(** [preserves I m]: every run of [m], returning or raising, takes a
    world in [I] to a world in [I]. *)
Definition preserves {A : Type} (I : World -> Prop) (m : M A) : Prop :=
  forall w r w', m w = (r, w') -> I w -> I w'.

(** Worlds whose resource table is [rows] and whose trace holds the
    [log_resource] calls [calls]. *)
Definition resources_are (rows : list Db.ResourceRecord) (calls : list Event) (w : World) : Prop :=
  Db.request_resources (w_db w) = rows /\ log_resource_calls (w_trace w) = calls.

(** Worlds whose store is well formed. *)
Definition store_wf (w : World) : Prop := Db.wf (w_db w).

(** The outcome of the [init] step of a pipeline started in world [w]:
    the subprocess is the interaction that follows the reading of the
    clock. *)
Definition init_outcome (env : Env) (w : World) (path : string) : ProcOutcome :=
  env_proc env (S (w_tick w)) init_cmd path.

(** The create flow started in [w] gets as far as the pipeline, which
    reports [(s, out, dur)] and leaves the world [w3]; [log_id] is the key
    returned by the [create_started] write. *)
Definition create_pipeline_reports (env : Env) (device_id instance_name user : string)
           (w : World)
           (s : bool) (log_id : Z) (out : string) (dur : Z) (w3 : World) : Prop :=
  let rid := normalize_request_id (runtime env) device_id in
  let path := PyPath.join (TERRAFORM_ROOT (config env)) device_id in
  exists w1 w2,
    log_request env rid user "create_started" None None None w = (Ret log_id, w1)
    /\ generate_root_terraform_files env device_id instance_name path w1 = (Ret tt, w2)
    /\ run_terraform_commands env path device_id instance_name w2 = (Ret (s, out, dur), w3).

(** The characters of the line that sets the key: eight blanks and the
    setting. *)
Definition key_indent : list ascii := chars "        ".

(** At most one record per request id. *)
Definition unique_requests (s : Db.Store) : Prop :=
  forall rid, (length (Db.rows_of s rid) <= 1)%nat.

(** The invariant of the status store: well-formed keys and at most one
    record per request id. *)
Definition store_invariant (w : World) : Prop :=
  Db.wf (w_db w) /\ unique_requests (w_db w).

(** [env] with another behaviour of the cache. *)
Definition with_cache_fault (env : Env) (faults : nat -> bool) : Env :=
  {| runtime := runtime env;
     config := config env;
     cwd := cwd env;
     env_utcnow := env_utcnow env;
     env_db_now := env_db_now env;
     env_db_fault := env_db_fault env;
     env_cache_fault := faults;
     env_fs_fault := env_fs_fault env;
     env_proc := env_proc env |}.

(** Worlds that differ in the cache only. *)
Definition same_but_cache (w1 w2 : World) : Prop :=
  w_db w1 = w_db w2 /\ w_fs w1 = w_fs w2 /\ w_trace w1 = w_trace w2 /\ w_tick w1 = w_tick w2.

(** Two computations that, from worlds that differ in the cache only,
    end alike in worlds that differ in the cache only. *)
Definition agree {A : Type} (m1 m2 : M A) : Prop :=
  forall w1 w2, same_but_cache w1 w2 ->
    (m1 w1).1 = (m2 w2).1 /\ same_but_cache (m1 w1).2 (m2 w2).2.

(** The outcomes of the [apply] and [output] steps of a pipeline started
    in world [w], and of the [destroy] step of a destroy pipeline: the
    pipeline reads the clock, runs [init] and [apply], reads the clock
    again and runs [output]. *)
Definition apply_outcome (env : Env) (w : World) (device_id instance_name path : string)
  : ProcOutcome :=
  env_proc env (S (S (w_tick w))) (apply_cmd device_id instance_name) path.

Definition output_outcome (env : Env) (w : World) (path : string) : ProcOutcome :=
  env_proc env (4 + w_tick w) output_cmd path.

Definition destroy_outcome (env : Env) (w : World) (device_id instance_name path : string)
  : ProcOutcome :=
  env_proc env (S (w_tick w)) (destroy_cmd device_id instance_name) path.

(** What a subprocess adds to [logs]. *)
Definition logged (o : ProcOutcome) : list string :=
  match o with
  | Exited _ out err => [out; err]
  | SpawnError _ => []
  end.

(** The subprocesses recorded in a trace. *)
Definition is_run_cmd (e : Event) : bool :=
  match e with
  | EvRunCmd _ _ => true
  | _ => false
  end.

Definition run_cmd_calls (tr : list Event) : list Event := List.filter is_run_cmd tr.

(** A device id that names one directory entry: not empty, without
    slash, and neither [.] nor [..]. *)
Definition simple_id (d : string) : bool :=
  PyPath.plain_name d && negb (String.eqb d "..").

(** The status writes recorded in a trace: request id, user and status
    of each [log_request] call, in program order. *)
Definition status_writes (tr : list Event) : list (Z * string * string) :=
  omap (fun e => match e with
                 | EvLogRequest rid user st _ _ => Some (rid, user, st)
                 | _ => None
                 end) tr.

(* ===================================================================== *)
(** * The request normalizer *)
(* ===================================================================== *)

Section Normalizer.

Example int_examples :
  map (PyInt.int 4300) ["42"; "  12 "; "+5"; "-5"; "1_000"; "007"; "-0"]
  = [Some 42; Some 12; Some 5; Some (-5); Some 1000; Some 7; Some 0]
  /\ map (PyInt.int 4300) [""; "-"; "_1"; "1_"; "1__0"; "+ 5"; "0x10"; "1.0"; "1 2"; "dev-A"]
     = [None; None; None; None; None; None; None; None; None; None].
Proof. split; reflexivity. Qed.

(** The values [hash] takes in CPython 3.11 under [PYTHONHASHSEED] 0, 1
    and 2. *)
Example hash_examples :
  map (fun seed => PyHash.hash (PyHash.secret_of_seed seed) "dev-A") [0; 1; 2]
  = [1255859181064403811; -4590129698990519452; -4717950214148298793]
  /\ PyHash.hash (PyHash.secret_of_seed 1) "abcdefghi" = 7871229953815684364
  /\ PyHash.hash (PyHash.secret_of_seed 1) "" = 0.
Proof. repeat split; vm_compute; reflexivity. Qed.

Lemma fallback_range (h : Z) : 0 <= Z.abs h mod 10 ^ 8 < 10 ^ 8.
Proof. apply Z.mod_pos_bound. reflexivity. Qed.

Lemma normalize_request_id_fallback (rt : Runtime) (d : string) :
  PyInt.int (int_max_str_digits rt) d = None ->
  normalize_request_id rt d = Z.abs (PyHash.hash (hash_secret rt) d) mod 10 ^ 8.
Proof. intros H. unfold normalize_request_id. rewrite H. reflexivity. Qed.

(** Within one process the fallback lies in [0, 10^8). *)
Lemma normalize_request_id_fallback_range (rt : Runtime) (d : string) :
  PyInt.int (int_max_str_digits rt) d = None ->
  0 <= normalize_request_id rt d < 10 ^ 8.
Proof.
  intros H. rewrite (normalize_request_id_fallback _ _ H). apply fallback_range.
Qed.

(** C5. For every device identifier [d] for which [int(d)] returns an
    integer [n], [normalize_request_id(d)] is that integer, sign included. *)
Theorem normalize_request_id_numeric (rt : Runtime) (d : string) (n : Z) :
  PyInt.int (int_max_str_digits rt) d = Some n ->
  normalize_request_id rt d = n.
Proof. intros H. unfold normalize_request_id. rewrite H. reflexivity. Qed.

Lemma normalize_request_id_numeric_witness :
  PyInt.int (int_max_str_digits (rt_seed 1)) "-5" = Some (-5)
  /\ normalize_request_id (rt_seed 1) "-5" = -5.
Proof.
  split; [reflexivity | apply (normalize_request_id_numeric (rt_seed 1) "-5" (-5)); reflexivity].
Defined.

(** C6. The fallback of [normalize_request_id] depends on the hash secret
    of the process: for the non-numeric identifier [dev-A], a process
    started with [PYTHONHASHSEED=1] and one started with
    [PYTHONHASHSEED=2] compute different request ids. *)
Theorem normalize_request_id_varies_between_processes :
  PyInt.int 4300 "dev-A" = None
  /\ normalize_request_id (rt_seed 1) "dev-A" = 90519452
  /\ normalize_request_id (rt_seed 2) "dev-A" = 48298793.
Proof. repeat split; vm_compute; reflexivity. Qed.

(** C9 as stated fails: a numeric identifier with a minus sign gives a
    negative request id. *)
Lemma normalize_request_id_negative :
  ~ (forall (rt : Runtime) (d : string), 0 <= normalize_request_id rt d).
Proof.
  intros H. specialize (H (rt_seed 1) "-5"). vm_compute in H. apply H. reflexivity.
Qed.

(** C9, amended. [normalize_request_id(d)] is nonnegative exactly when
    [d] does not denote a negative integer: the hash fallback always is,
    and a numeric identifier gives the integer it denotes. *)
Theorem normalize_request_id_nonnegative_iff (rt : Runtime) (d : string) :
  0 <= normalize_request_id rt d
  <-> (forall n, PyInt.int (int_max_str_digits rt) d = Some n -> 0 <= n).
Proof.
  unfold normalize_request_id.
  destruct (PyInt.int (int_max_str_digits rt) d) as [n|] eqn:E.
  - split.
    + intros H m Hm. injection Hm as <-. exact H.
    + intros H. apply H. reflexivity.
  - split.
    + intros _ n Hn. discriminate Hn.
    + intros _. apply fallback_range.
Qed.

End Normalizer.

(* ===================================================================== *)
(** * Decimal renderings are read back by [int] *)
(* ===================================================================== *)

Section Decimal.

Lemma scan_numeral (u : Decimal.uint) :
  forall acc n,
    PyInt.scan false acc n (chars (NilEmpty.string_of_uint u))
    = Some (uint_value acc u, (n + Decimal.nb_digits u)%nat, []).
Proof.
  induction u; intros acc n; simpl;
    rewrite ?IHu, ?Nat.add_succ_r; simpl; rewrite ?Nat.add_0_r; reflexivity.
Qed.

Lemma numeral_ascii (u : Decimal.uint) :
  forallb PyInt.is_ascii (chars (NilEmpty.string_of_uint u)) = true.
Proof. induction u; simpl; auto. Qed.

Lemma numeral_length (u : Decimal.uint) :
  String.length (NilEmpty.string_of_uint u) = Decimal.nb_digits u.
Proof. induction u; simpl; auto. Qed.

Lemma uint_value_acc (u : Decimal.uint) :
  forall acc : positive, uint_value (Z.pos acc) u = Z.pos (Pos.of_uint_acc u acc).
Proof.
  induction u; intros acc; simpl; rewrite ?Z.add_0_r; try reflexivity;
    try (rewrite <- IHu; f_equal; lia).
Qed.

Lemma uint_value_of_uint (u : Decimal.uint) :
  uint_value 0 u = Z.of_N (Pos.of_uint u).
Proof.
  induction u; simpl; try reflexivity; try exact IHu;
    apply (uint_value_acc u).
Qed.

Lemma int_of_numeral (lim : nat) (u : Decimal.uint) (negative : bool) :
  u <> Decimal.Nil ->
  lim = 0%nat \/ (Decimal.nb_digits u <= lim)%nat ->
  PyInt.from_string lim
    ((if negative then ["-"%char] else []) ++ chars (NilEmpty.string_of_uint u))
  = Some (if negative then - uint_value 0 u else uint_value 0 u).
Proof.
  intros Hu Hlim.
  assert (Hcheck : negb (lim =? 0)%nat && (lim <? Decimal.nb_digits u)%nat = false).
  { destruct Hlim as [->|Hle]; [reflexivity|].
    apply andb_false_iff. right. apply Nat.ltb_ge. exact Hle. }
  assert (Hnb : (Decimal.nb_digits u =? 0)%nat = false).
  { destruct u; [contradiction|..]; reflexivity. }
  pose proof (scan_numeral u 0 0) as Hscan. simpl in Hscan.
  unfold PyInt.from_string.
  destruct negative; destruct u; try contradiction; simpl in *;
    rewrite ?Hscan; simpl; rewrite ?Hcheck; reflexivity.
Qed.

(** [int(str(z)) = z]: the decimal rendering of an integer is read back. *)
Lemma int_str (lim : nat) (z : Z) :
  lim = 0%nat \/ (String.length (PyText.str_of_Z z) <= lim)%nat ->
  PyInt.int lim (PyText.str_of_Z z) = Some z.
Proof.
  intros Hlim. unfold PyInt.int, PyText.str_of_Z in *.
  destruct z as [|p|p].
  - simpl in *. unfold PyInt.from_string. simpl.
    destruct Hlim as [->|Hle]; [reflexivity|].
    destruct lim; [inversion Hle | reflexivity].
  - pose proof (Unsigned.to_uint_nonnil p) as Hnn.
    assert (Hs : NilZero.string_of_int (Z.to_int (Z.pos p))
                 = NilEmpty.string_of_uint (Pos.to_uint p)).
    { simpl. destruct (Pos.to_uint p); [contradiction|..]; reflexivity. }
    rewrite Hs in *. unfold PyInt.transform. rewrite numeral_ascii.
    assert (Hl : lim = 0%nat \/ (Decimal.nb_digits (Pos.to_uint p) <= lim)%nat)
      by (rewrite numeral_length in Hlim; exact Hlim).
    pose proof (int_of_numeral lim (Pos.to_uint p) false Hnn Hl) as H.
    cbn [app] in H. rewrite H.
    rewrite uint_value_of_uint, Unsigned.of_to. reflexivity.
  - pose proof (Unsigned.to_uint_nonnil p) as Hnn.
    assert (Hs : NilZero.string_of_int (Z.to_int (Z.neg p))
                 = String "-" (NilEmpty.string_of_uint (Pos.to_uint p))).
    { simpl. destruct (Pos.to_uint p); [contradiction|..]; reflexivity. }
    rewrite Hs in *. unfold PyInt.transform.
    change (chars (String "-" (NilEmpty.string_of_uint (Pos.to_uint p))))
      with ("-"%char :: chars (NilEmpty.string_of_uint (Pos.to_uint p))).
    cbn [forallb]. rewrite numeral_ascii.
    change (PyInt.is_ascii "-" && true) with true. cbv iota.
    assert (Hl : lim = 0%nat \/ (Decimal.nb_digits (Pos.to_uint p) <= lim)%nat).
    { simpl in Hlim. rewrite numeral_length in Hlim. destruct Hlim as [->|Hle]; [auto|].
      right. lia. }
    pose proof (int_of_numeral lim (Pos.to_uint p) true Hnn Hl) as H.
    cbn [app] in H. rewrite H.
    rewrite uint_value_of_uint, Unsigned.of_to. reflexivity.
Qed.

(** X1. A device id that is the decimal rendering of an integer, within
    the digit limit of [int], is normalized to that integer, negative
    ones included: [normalize_request_id(str(z)) = z]. *)
Lemma normalize_request_id_of_str (rt : Runtime) (z : Z) :
  int_max_str_digits rt = 0%nat
  \/ (String.length (PyText.str_of_Z z) <= int_max_str_digits rt)%nat ->
  normalize_request_id rt (PyText.str_of_Z z) = z.
Proof.
  intros Hlim. unfold normalize_request_id. rewrite (int_str _ _ Hlim). reflexivity.
Qed.

End Decimal.

(* ===================================================================== *)
(** * The status store *)
(* ===================================================================== *)

Section Store.

Import Db.

Lemma update_rows_keys l st dur err now rows :
  map log_id (update_rows l st dur err now rows) = map log_id rows.
Proof.
  induction rows as [|r rows IH]; simpl; [reflexivity|].
  rewrite IH. destruct (log_id r =? l); reflexivity.
Qed.

Lemma update_rows_other l st dur err now rows :
  Forall (fun r => log_id r <> l) rows ->
  update_rows l st dur err now rows = rows.
Proof.
  induction 1 as [|r rows Hr _ IH]; simpl; [reflexivity|].
  rewrite IH. destruct (Z.eqb_spec (log_id r) l); [contradiction | reflexivity].
Qed.

Lemma update_rows_app l st dur err now rows rows' :
  update_rows l st dur err now (rows ++ rows')
  = (update_rows l st dur err now rows ++ update_rows l st dur err now rows')%list.
Proof. apply map_app. Qed.

Lemma update_rows_filter l st dur err now rid rows :
  List.filter (fun r => request_id r =? rid) (update_rows l st dur err now rows)
  = update_rows l st dur err now (List.filter (fun r => request_id r =? rid) rows).
Proof.
  induction rows as [|r rows IH]; simpl; [reflexivity|].
  destruct (log_id r =? l) eqn:El; simpl;
    destruct (request_id r =? rid); simpl; rewrite ?El, IH; reflexivity.
Qed.

Lemma select_log_id_in s rid l :
  select_log_id s rid = Some l ->
  exists r, In r (request_status_logs s) /\ log_id r = l /\ request_id r = rid.
Proof.
  unfold select_log_id, rows_of.
  destruct (List.filter _ _) as [|r rows] eqn:E; [discriminate|].
  intros [= <-]. exists r.
  assert (Hin : In r (List.filter (fun r => request_id r =? rid) (request_status_logs s)))
    by (rewrite E; left; reflexivity).
  apply filter_In in Hin as [Hin Hrid]. apply Z.eqb_eq in Hrid. auto.
Qed.

Lemma wf_key_bounds s r :
  wf s -> In r (request_status_logs s) -> 0 < log_id r < log_id_seq s.
Proof.
  intros [_ Hkeys _] Hin. rewrite List.Forall_forall in Hkeys. apply Hkeys, Hin.
Qed.

(** In a well-formed store a key that was found is true in [if log_id:]. *)
Lemma truthy_select s rid l :
  wf s -> select_log_id s rid = Some l -> truthy (Some l) = true.
Proof.
  intros Hwf Hsel. apply select_log_id_in in Hsel as (r & Hin & <- & _).
  pose proof (wf_key_bounds _ _ Hwf Hin) as Hb. simpl.
  destruct (Z.eqb_spec (log_id r) 0); [lia | reflexivity].
Qed.

(** The update branch of [log_request]. *)
Lemma log_request_tx_update s rid user st dur err created now db_now l :
  wf s -> select_log_id s rid = Some l ->
  log_request_tx s rid user st dur err created now db_now
  = (l, {| request_status_logs := update_rows l st dur err now (request_status_logs s);
           request_resources := request_resources s;
           log_id_seq := log_id_seq s;
           resource_id_seq := resource_id_seq s |}).
Proof.
  intros Hwf Hsel. unfold log_request_tx.
  rewrite Hsel, (truthy_select _ _ _ Hwf Hsel). reflexivity.
Qed.

(** The insert branch of [log_request]. *)
Lemma log_request_tx_insert s rid user st dur err created now db_now :
  select_log_id s rid = None ->
  log_request_tx s rid user st dur err created now db_now
  = (log_id_seq s,
     {| request_status_logs :=
          (request_status_logs s ++
           [{| log_id := log_id_seq s; request_id := rid; user_id := user; status := st;
               duration_seconds := dur; error_message := err;
               created_at := default now created; updated_at := db_now |}])%list;
        request_resources := request_resources s;
        log_id_seq := log_id_seq s + 1;
        resource_id_seq := resource_id_seq s |}).
Proof. intros Hsel. unfold log_request_tx. rewrite Hsel. reflexivity. Qed.

Lemma select_log_id_None s rid : select_log_id s rid = None <-> rows_of s rid = [].
Proof.
  unfold select_log_id. destruct (rows_of s rid); split; intros H; congruence.
Qed.

(** Every transaction of the store keeps it well formed. *)
Lemma log_request_tx_wf s rid user st dur err created now db_now :
  wf s -> wf (log_request_tx s rid user st dur err created now db_now).2.
Proof.
  intros Hwf. destruct (select_log_id s rid) as [l|] eqn:Hsel.
  - rewrite (log_request_tx_update _ _ _ _ _ _ _ _ _ _ Hwf Hsel). simpl.
    destruct Hwf as [Hseq Hkeys Hpk]. constructor; simpl.
    + exact Hseq.
    + rewrite List.Forall_forall in *. intros r Hin.
      unfold update_rows in Hin. apply in_map_iff in Hin as (r0 & <- & Hin0).
      specialize (Hkeys r0 Hin0). destruct (log_id r0 =? l); exact Hkeys.
    + rewrite update_rows_keys. exact Hpk.
  - rewrite (log_request_tx_insert _ _ _ _ _ _ _ _ _ Hsel). simpl.
    destruct Hwf as [Hseq Hkeys Hpk]. constructor; simpl.
    + lia.
    + apply Forall_app. split.
      * eapply List.Forall_impl; [|exact Hkeys]. simpl. intros r Hr. lia.
      * constructor; [simpl; lia | constructor].
    + rewrite map_app. simpl. apply NoDup_app. split; [exact Hpk|]. split.
      * intros k Hk Hk'. apply list_elem_of_In in Hk, Hk'.
        destruct Hk' as [<-|[]].
        apply in_map_iff in Hk as (r & Hr & Hin).
        rewrite List.Forall_forall in Hkeys. specialize (Hkeys r Hin). lia.
      * apply NoDup_singleton.
Qed.

Lemma log_resource_tx_wf s l rtype rname rvalue db_now :
  wf s -> wf (log_resource_tx s l rtype rname rvalue db_now).
Proof. intros [Hseq Hkeys Hpk]. constructor; assumption. Qed.

Lemma delete_tx_wf s rid : wf s -> wf (delete_tx s rid).
Proof.
  intros [Hseq Hkeys Hpk]. constructor; simpl.
  - exact Hseq.
  - rewrite List.Forall_forall in *. intros r Hin.
    apply filter_In in Hin as [Hin _]. auto.
  - clear Hkeys. induction (request_status_logs s) as [|r rows IH]; simpl; [constructor|].
    inversion Hpk as [|? ? Hnotin Hnodup]; subst.
    destruct (request_id r =? rid); simpl; [auto|].
    constructor; [|auto].
    intros Hin. apply Hnotin. apply list_elem_of_In in Hin. apply list_elem_of_In.
    apply in_map_iff in Hin as (r' & Hr' & Hin). apply filter_In in Hin as [Hin _].
    apply in_map_iff. eauto.
Qed.

Lemma empty_wf : wf empty.
Proof. constructor; simpl; [lia | constructor | constructor]. Qed.

End Store.

(* ===================================================================== *)
(** * What one call does to the world *)
(* ===================================================================== *)

Section Calls.

Variable env : Env.

Lemma log_request_ret rid user st dur err created w k w' :
  log_request env rid user st dur err created w = (Ret k, w') ->
  env_db_fault env (w_tick w) = None
  /\ Db.log_request_tx (w_db w) rid user st dur err created
       (env_utcnow env (w_tick w)) (env_db_now env (w_tick w)) = (k, w_db w')
  /\ w_fs w' = w_fs w
  /\ w_trace w' = (w_trace w ++ [EvLogRequest rid user st dur err])%list
  /\ w_tick w' = S (S (w_tick w)).
Proof.
  unfold log_request, emit, transaction, cache_job_status, mbind, M_bind, mret, M_ret.
  simpl.
  destruct (env_db_fault env (w_tick w)) as [msg|]; [discriminate|].
  destruct (Db.log_request_tx _ _ _ _ _ _ _ _ _) as [l d]. simpl.
  destruct (env_cache_fault env _); intros [= <- <-]; simpl; auto.
Qed.

Lemma log_request_raise rid user st dur err created w msg w' :
  log_request env rid user st dur err created w = (Raise msg, w') ->
  env_db_fault env (w_tick w) = Some msg
  /\ w' = next_tick (log_event w (EvLogRequest rid user st dur err)).
Proof.
  unfold log_request, emit, transaction, cache_job_status, mbind, M_bind, mret, M_ret.
  simpl.
  destruct (env_db_fault env (w_tick w)) as [m|].
  - intros [= <- <-]. auto.
  - destruct (Db.log_request_tx _ _ _ _ _ _ _ _ _) as [l d]. simpl.
    destruct (env_cache_fault env _); discriminate.
Qed.

(** [log_request] returns whenever the database accepts the transaction. *)
Lemma log_request_returns rid user st dur err created w :
  env_db_fault env (w_tick w) = None ->
  exists k w', log_request env rid user st dur err created w = (Ret k, w').
Proof.
  intros Hok.
  unfold log_request, emit, transaction, cache_job_status, mbind, M_bind, mret, M_ret.
  simpl. rewrite Hok.
  destruct (Db.log_request_tx _ _ _ _ _ _ _ _ _) as [l d]. simpl.
  destruct (env_cache_fault env _); eauto.
Qed.

Lemma log_request_wf rid user st dur err created w r w' :
  log_request env rid user st dur err created w = (r, w') ->
  Db.wf (w_db w) -> Db.wf (w_db w').
Proof.
  intros Hrun Hwf. destruct r as [k|msg].
  - apply log_request_ret in Hrun as (_ & Htx & _).
    pose proof (log_request_tx_wf (w_db w) rid user st dur err created
                  (env_utcnow env (w_tick w)) (env_db_now env (w_tick w)) Hwf) as H.
    rewrite Htx in H. exact H.
  - apply log_request_raise in Hrun as [_ ->]. exact Hwf.
Qed.

Lemma log_resource_ret l rtype rname rvalue w w' :
  log_resource env l rtype rname rvalue w = (Ret tt, w') ->
  env_db_fault env (w_tick w) = None
  /\ w_db w' = Db.log_resource_tx (w_db w) l rtype rname rvalue (env_db_now env (w_tick w))
  /\ w_fs w' = w_fs w
  /\ w_trace w' = (w_trace w ++ [EvLogResource l rtype rname rvalue])%list.
Proof.
  unfold log_resource, emit, transaction, mbind, M_bind. simpl.
  destruct (env_db_fault env (w_tick w)) as [msg|]; [discriminate|].
  intros [= <-]. simpl. auto.
Qed.

Lemma log_resource_raise l rtype rname rvalue w msg w' :
  log_resource env l rtype rname rvalue w = (Raise msg, w') ->
  env_db_fault env (w_tick w) = Some msg
  /\ w' = next_tick (log_event w (EvLogResource l rtype rname rvalue)).
Proof.
  unfold log_resource, emit, transaction, mbind, M_bind. simpl.
  destruct (env_db_fault env (w_tick w)) as [m|]; [|discriminate].
  intros [= <- <-]. auto.
Qed.

End Calls.

(* ===================================================================== *)
(** * Upsert by request id *)
(* ===================================================================== *)

Section Upsert.

Import Db.

Variable env : Env.

(** Sequential writes never add a second row for a request id that has
    one. *)
Lemma log_request_tx_at_most_one s rid user st dur err created now db_now rid' :
  wf s ->
  (length (rows_of s rid') <= 1)%nat ->
  (length (rows_of (log_request_tx s rid user st dur err created now db_now).2 rid') <= 1)%nat.
Proof.
  intros Hwf Hlen. destruct (select_log_id s rid) as [l|] eqn:Hsel.
  - rewrite (log_request_tx_update _ _ _ _ _ _ _ _ _ _ Hwf Hsel). unfold rows_of. simpl.
    rewrite update_rows_filter. unfold update_rows. rewrite length_map. exact Hlen.
  - rewrite (log_request_tx_insert _ _ _ _ _ _ _ _ _ Hsel). unfold rows_of. simpl.
    rewrite List.filter_app, length_app. simpl.
    destruct (Z.eqb_spec rid rid') as [->|Hne]; simpl.
    + apply select_log_id_None in Hsel. unfold rows_of in Hsel. rewrite Hsel. simpl. lia.
    + unfold rows_of in Hlen. lia.
Qed.

(** C1. Starting from a store without a record for [rid], two calls of
    [log_request] with that request id that both return leave exactly one
    record for it: the first call appends a row and returns its key, the
    second call returns the same key and rewrites [status],
    [duration_seconds], [error_message] and [updated_at] of that row in
    place; the table has grown by one row only. *)
Theorem log_request_twice_one_record
        rid user1 st1 dur1 err1 created1 user2 st2 dur2 err2 created2 w k1 w1 k2 w2 :
  wf (w_db w) ->
  rows_of (w_db w) rid = [] ->
  log_request env rid user1 st1 dur1 err1 created1 w = (Ret k1, w1) ->
  log_request env rid user2 st2 dur2 err2 created2 w1 = (Ret k2, w2) ->
  let row1 := {| log_id := k1; request_id := rid; user_id := user1; status := st1;
                 duration_seconds := dur1; error_message := err1;
                 created_at := default (env_utcnow env (w_tick w)) created1;
                 updated_at := env_db_now env (w_tick w) |} in
  let row2 := {| log_id := k1; request_id := rid; user_id := user1; status := st2;
                 duration_seconds := dur2; error_message := err2;
                 created_at := default (env_utcnow env (w_tick w)) created1;
                 updated_at := env_utcnow env (w_tick w1) |} in
  k1 = log_id_seq (w_db w)
  /\ request_status_logs (w_db w1) = (request_status_logs (w_db w) ++ [row1])%list
  /\ k2 = k1
  /\ request_status_logs (w_db w2) = (request_status_logs (w_db w) ++ [row2])%list
  /\ rows_of (w_db w2) rid = [row2].
Proof.
  intros Hwf Hnone Hrun1 Hrun2 row1 row2.
  pose proof (log_request_wf _ _ _ _ _ _ _ _ _ _ Hrun1 Hwf) as Hwf1.
  apply log_request_ret in Hrun1 as (_ & Htx1 & _).
  apply log_request_ret in Hrun2 as (_ & Htx2 & _).
  rewrite log_request_tx_insert in Htx1 by (apply select_log_id_None; exact Hnone).
  injection Htx1 as Hk1 Hdb1.
  assert (Hrows1 : request_status_logs (w_db w1) = (request_status_logs (w_db w) ++ [row1])%list).
  { rewrite <- Hdb1. subst row1. rewrite <- Hk1. reflexivity. }
  assert (Hof1 : rows_of (w_db w1) rid = [row1]).
  { unfold rows_of in *. rewrite Hrows1, List.filter_app, Hnone. simpl.
    rewrite Z.eqb_refl. reflexivity. }
  assert (Hsel1 : select_log_id (w_db w1) rid = Some k1).
  { unfold select_log_id. rewrite Hof1. reflexivity. }
  rewrite (log_request_tx_update _ _ _ _ _ _ _ _ _ _ Hwf1 Hsel1) in Htx2.
  injection Htx2 as Hk2 Hdb2.
  assert (Hfresh : Forall (fun r => log_id r <> k1) (request_status_logs (w_db w))).
  { destruct Hwf as [_ Hkeys _]. eapply List.Forall_impl; [|exact Hkeys].
    simpl. intros r Hr. lia. }
  assert (Hrows2 : request_status_logs (w_db w2) = (request_status_logs (w_db w) ++ [row2])%list).
  { rewrite <- Hdb2. simpl. rewrite Hrows1, update_rows_app, (update_rows_other _ _ _ _ _ _ Hfresh).
    simpl. rewrite Z.eqb_refl. reflexivity. }
  repeat split; auto.
  unfold rows_of in *. rewrite Hrows2, List.filter_app, Hnone. simpl.
  rewrite Z.eqb_refl. reflexivity.
Qed.

(** The companion of the theorem above for a request id that already has
    its record [r0]: both calls update that record and return its key;
    the table keeps its length. *)
Lemma log_request_twice_existing_record
      rid user1 st1 dur1 err1 created1 user2 st2 dur2 err2 created2 w k1 w1 k2 w2 r0 :
  wf (w_db w) ->
  rows_of (w_db w) rid = [r0] ->
  log_request env rid user1 st1 dur1 err1 created1 w = (Ret k1, w1) ->
  log_request env rid user2 st2 dur2 err2 created2 w1 = (Ret k2, w2) ->
  k1 = log_id r0 /\ k2 = log_id r0
  /\ rows_of (w_db w2) rid
     = [{| log_id := log_id r0; request_id := request_id r0; user_id := user_id r0;
           status := st2; duration_seconds := dur2; error_message := err2;
           created_at := created_at r0; updated_at := env_utcnow env (w_tick w1) |}]
  /\ length (request_status_logs (w_db w2)) = length (request_status_logs (w_db w)).
Proof.
  intros Hwf Hone Hrun1 Hrun2.
  pose proof (log_request_wf _ _ _ _ _ _ _ _ _ _ Hrun1 Hwf) as Hwf1.
  apply log_request_ret in Hrun1 as (_ & Htx1 & _).
  apply log_request_ret in Hrun2 as (_ & Htx2 & _).
  assert (Hsel : select_log_id (w_db w) rid = Some (log_id r0)).
  { unfold select_log_id. rewrite Hone. reflexivity. }
  rewrite (log_request_tx_update _ _ _ _ _ _ _ _ _ _ Hwf Hsel) in Htx1.
  injection Htx1 as Hk1 Hdb1.
  assert (Hof1 : rows_of (w_db w1) rid
                 = [set_status r0 st1 dur1 err1 (env_utcnow env (w_tick w))]).
  { rewrite <- Hdb1. unfold rows_of in *. simpl. rewrite update_rows_filter, Hone. simpl.
    rewrite Z.eqb_refl. reflexivity. }
  assert (Hsel1 : select_log_id (w_db w1) rid = Some (log_id r0)).
  { unfold select_log_id. rewrite Hof1. reflexivity. }
  rewrite (log_request_tx_update _ _ _ _ _ _ _ _ _ _ Hwf1 Hsel1) in Htx2.
  injection Htx2 as Hk2 Hdb2.
  repeat split; try congruence.
  - rewrite <- Hdb2. unfold rows_of in *. simpl. rewrite update_rows_filter, Hof1. simpl.
    rewrite Z.eqb_refl. reflexivity.
  - rewrite <- Hdb2, <- Hdb1. simpl. unfold update_rows. rewrite !length_map. reflexivity.
Qed.

(** C10. When a record for [rid] exists, a returning [log_request]
    rewrites it with exactly the [duration_seconds] and [error_message]
    of this call, whatever was stored before; with the arguments omitted
    ([None]) the stored values are erased. *)
Theorem log_request_update_overwrites rid user st dur err created w k w' l :
  wf (w_db w) ->
  select_log_id (w_db w) rid = Some l ->
  log_request env rid user st dur err created w = (Ret k, w') ->
  k = l
  /\ request_status_logs (w_db w')
     = update_rows l st dur err (env_utcnow env (w_tick w)) (request_status_logs (w_db w))
  /\ (forall r, In r (request_status_logs (w_db w')) -> log_id r = l ->
        status r = st /\ duration_seconds r = dur /\ error_message r = err)
  /\ (exists r, In r (request_status_logs (w_db w')) /\ log_id r = l /\ request_id r = rid).
Proof.
  intros Hwf Hsel Hrun.
  apply log_request_ret in Hrun as (_ & Htx & _).
  rewrite (log_request_tx_update _ _ _ _ _ _ _ _ _ _ Hwf Hsel) in Htx.
  injection Htx as Hk Hdb. rewrite <- Hdb. simpl.
  split; [symmetry; exact Hk|]. split; [reflexivity|]. split.
  - intros r Hin Hl. unfold update_rows in Hin.
    apply in_map_iff in Hin as (r0 & Hr0 & _).
    destruct (Z.eqb_spec (log_id r0) l) as [_|Hne]; subst r.
    + repeat split.
    + contradiction.
  - apply select_log_id_in in Hsel as (r & Hin & Hl & Hrid).
    exists (set_status r st dur err (env_utcnow env (w_tick w))).
    split; [|split; assumption].
    unfold update_rows. apply in_map_iff. exists r. split; [|exact Hin].
    rewrite Hl, Z.eqb_refl. reflexivity.
Qed.

End Upsert.

Lemma log_request_twice_one_record_witness :
  Db.rows_of (w_db world0) 42 = []
  /\ Db.rows_of (w_db w_failed) 42
     = [{| Db.log_id := 1; Db.request_id := 42; Db.user_id := "alice"; Db.status := "failed";
           Db.duration_seconds := Some 3000; Db.error_message := Some "init failed";
           Db.created_at := 0; Db.updated_at := 2000 |}]
  /\ length (Db.request_status_logs (w_db w_failed)) = 1%nat.
Proof.
  pose proof (log_request_twice_one_record env_ok 42
                "alice" "create_started" None None None
                "alice" "failed" (Some 3000) (Some "init failed") None
                world0 1 w_started 1 w_failed
                empty_wf eq_refl eq_refl eq_refl) as (_ & _ & _ & Hrows & Hof).
  split; [reflexivity|]. split; [exact Hof|].
  rewrite Hrows. reflexivity.
Defined.

Lemma w_failed_wf : Db.wf (w_db w_failed).
Proof.
  apply (log_request_wf env_ok 42 "alice" "failed" (Some 3000) (Some "init failed") None
           w_started (Ret 1) w_failed eq_refl).
  apply (log_request_wf env_ok 42 "alice" "create_started" None None None
           world0 (Ret 1) w_started eq_refl).
  exact empty_wf.
Qed.

(** A later [create_started] write, which passes neither a duration nor
    an error message, erases the ones recorded by the failed run. *)
Lemma log_request_update_overwrites_witness :
  Db.select_log_id (w_db w_failed) 42 = Some 1
  /\ map (fun r => (Db.status r, Db.duration_seconds r, Db.error_message r))
         (Db.request_status_logs
            (w_db (log_request env_ok 42 "alice" "create_started" None None None w_failed).2))
     = [("create_started", None, None)].
Proof.
  pose proof (log_request_update_overwrites env_ok 42 "alice" "create_started" None None None
                w_failed 1
                (log_request env_ok 42 "alice" "create_started" None None None w_failed).2 1
                w_failed_wf eq_refl eq_refl) as (_ & Hrows & _).
  split; [reflexivity|]. rewrite Hrows. reflexivity.
Defined.

(* ===================================================================== *)
(** * Properties kept by every step of a computation *)
(* ===================================================================== *)

Section Preservation.

Variable env : Env.
Variable I : World -> Prop.

Lemma preserves_ret {A : Type} (a : A) : preserves I (mret a).
Proof. intros w r w' [= <- <-] H. exact H. Qed.

Lemma preserves_bind {A B : Type} (m : M A) (k : A -> M B) :
  preserves I m -> (forall a, preserves I (k a)) -> preserves I (m ≫= k).
Proof.
  intros Hm Hk w r w' Hrun Hw. unfold mbind, M_bind in Hrun.
  destruct (m w) as [[a|e] w1] eqn:E.
  - eapply Hk; [exact Hrun|]. eapply Hm; eauto.
  - injection Hrun as <- <-. eapply Hm; eauto.
Qed.

Lemma preserves_try {A : Type} (body : M A) (handler : string -> M A) :
  preserves I body -> (forall e, preserves I (handler e)) ->
  preserves I (try_except body handler).
Proof.
  intros Hb Hh w r w' Hrun Hw. unfold try_except in Hrun.
  destruct (body w) as [[a|e] w1] eqn:E.
  - injection Hrun as <- <-. eapply Hb; eauto.
  - eapply Hh; [exact Hrun|]. eapply Hb; eauto.
Qed.

(** What [I] must tolerate. *)
Hypothesis I_tick : forall w, I w -> I (next_tick w).

Lemma preserves_utcnow : preserves I (utcnow env).
Proof. intros w r w' [= <- <-] H. auto. Qed.

Hypothesis I_cache : forall w c, I w -> I (with_cache w c).

Lemma preserves_cache_job_status job_id st : preserves I (cache_job_status env job_id st).
Proof.
  intros w r w' Hrun H. unfold cache_job_status in Hrun.
  destruct (env_cache_fault env (w_tick w)); injection Hrun as <- <-; auto.
Qed.

Hypothesis I_fs : forall w f, I w -> I (with_fs w f).

Lemma preserves_fs_call op : preserves I (fs_call env op).
Proof.
  intros w r w' Hrun H. unfold fs_call in Hrun.
  destruct (env_fs_fault env (w_tick w)); [injection Hrun as <- <-; auto|].
  destruct (op (w_fs w)); injection Hrun as <- <-; auto.
Qed.

Lemma preserves_write_files path files : preserves I (write_files env path files).
Proof.
  induction files as [|[filename content] files IH]; simpl.
  - apply preserves_ret.
  - apply preserves_bind; [apply preserves_fs_call | intros _; exact IH].
Qed.

Lemma preserves_generate device_id instance_name path :
  preserves I (generate_root_terraform_files env device_id instance_name path).
Proof.
  unfold generate_root_terraform_files.
  apply preserves_bind.
  { intros w r w' [= <- <-] H. exact H. }
  intros present. apply preserves_bind.
  { destruct present; [apply preserves_fs_call | apply preserves_ret]. }
  intros _. apply preserves_bind; [apply preserves_fs_call|].
  intros _. apply preserves_write_files.
Qed.

Hypothesis I_run_cmd : forall w cmd cwd, I w -> I (log_event w (EvRunCmd cmd cwd)).

Lemma preserves_run_cmd cmd cwd : preserves I (_run_cmd env cmd cwd).
Proof.
  intros w r w' Hrun H. unfold _run_cmd in Hrun.
  destruct (env_proc env (w_tick w) cmd cwd); injection Hrun as <- <-; auto.
Qed.

Lemma preserves_run_terraform_commands path device_id instance_name :
  preserves I (run_terraform_commands env path device_id instance_name).
Proof.
  unfold run_terraform_commands.
  apply preserves_bind; [apply preserves_utcnow|]. intros start.
  apply preserves_bind; [apply preserves_run_cmd|]. intros [[ret out] err].
  destruct (negb (ret =? 0)).
  { apply preserves_bind; [apply preserves_utcnow | intros now; apply preserves_ret]. }
  apply preserves_bind; [apply preserves_run_cmd|]. intros [[ret' out'] err'].
  apply preserves_bind; [apply preserves_utcnow|]. intros now.
  destruct (negb (ret' =? 0)); [apply preserves_ret|].
  apply preserves_bind; [|intros logs; apply preserves_ret].
  apply preserves_try; [|intros _; apply preserves_ret].
  apply preserves_bind; [apply preserves_run_cmd|]. intros [[ret2 out2] err2].
  apply preserves_ret.
Qed.

Lemma preserves_destroy_terraform_resources path device_id instance_name :
  preserves I (destroy_terraform_resources env path device_id instance_name).
Proof.
  unfold destroy_terraform_resources.
  apply preserves_bind; [apply preserves_utcnow|]. intros start.
  apply preserves_bind; [apply preserves_run_cmd|]. intros [[ret out] err].
  apply preserves_bind; [apply preserves_utcnow|]. intros now.
  apply preserves_ret.
Qed.

End Preservation.

(* ===================================================================== *)
(** * The process runner *)
(* ===================================================================== *)

Section Pipeline.

Variable env : Env.

(** C4. If the [init] step exits with a nonzero code,
    [run_terraform_commands] returns [(False, out + "\n" + err, duration)]
    with the output of [init] alone, and [init] is the only subprocess it
    has started: neither [apply] nor [output] is invoked. *)
Theorem run_terraform_commands_init_failure path device_id instance_name w ret out err :
  init_outcome env w path = Exited ret out err ->
  ret <> 0 ->
  exists dur w',
    run_terraform_commands env path device_id instance_name w
    = (Ret (false, out ++ nl ++ err, dur), w')
    /\ w_trace w' = (w_trace w ++ [EvRunCmd init_cmd path])%list
    /\ w_db w' = w_db w
    /\ w_fs w' = w_fs w.
Proof.
  intros Hinit Hret. unfold init_outcome in Hinit.
  unfold run_terraform_commands, utcnow, _run_cmd, mbind, M_bind, mret, M_ret. simpl.
  rewrite Hinit. simpl.
  destruct (Z.eqb_spec ret 0) as [->|_]; [contradiction|]. simpl.
  eexists _, _. repeat split.
Qed.

(** When [init] and [apply] exit with code 0 the pipeline reports
    success, whatever the best-effort [output] step does. *)
Lemma run_terraform_commands_success path device_id instance_name w out1 err1 out2 err2 :
  init_outcome env w path = Exited 0 out1 err1 ->
  env_proc env (S (S (w_tick w))) (apply_cmd device_id instance_name) path = Exited 0 out2 err2 ->
  exists log dur w',
    run_terraform_commands env path device_id instance_name w = (Ret (true, log, dur), w').
Proof.
  intros Hinit Happly. unfold init_outcome in Hinit.
  unfold run_terraform_commands, try_except, utcnow, _run_cmd, mbind, M_bind, mret, M_ret. simpl.
  rewrite Hinit. simpl. rewrite Happly. simpl.
  destruct (env_proc env _ output_cmd path); eexists _, _, _; reflexivity.
Qed.

End Pipeline.

Lemma run_terraform_commands_init_failure_witness :
  exists dur w',
    run_terraform_commands (env_with (fun _ _ _ => Exited 1 "" "no backend") no_fault no_fault)
                           "/app/terraform_templates/42" "42" "web1" world0
    = (Ret (false, "" ++ nl ++ "no backend", dur), w')
    /\ w_trace w' = ([] ++ [EvRunCmd init_cmd "/app/terraform_templates/42"])%list
    /\ w_db w' = w_db world0
    /\ w_fs w' = w_fs world0.
Proof.
  apply (run_terraform_commands_init_failure
           (env_with (fun _ _ _ => Exited 1 "" "no backend") no_fault no_fault)
           "/app/terraform_templates/42" "42" "web1" world0 1 "" "no backend").
  - reflexivity.
  - lia.
Defined.

(* ===================================================================== *)
(** * The create and destroy flows *)
(* ===================================================================== *)

Lemma bind_inv {A B : Type} (m : M A) (k : A -> M B) w r w' :
  (m ≫= k) w = (r, w') ->
  (exists a w1, m w = (Ret a, w1) /\ k a w1 = (r, w'))
  \/ (exists e, m w = (Raise e, w') /\ r = Raise e).
Proof.
  unfold mbind, M_bind. destruct (m w) as [[a|e] w1].
  - intros H. left. eauto.
  - intros [= <- <-]. right. eauto.
Qed.

Lemma try_except_inv {A : Type} (body : M A) (handler : string -> M A) w r w' :
  try_except body handler w = (r, w') ->
  (exists a, body w = (Ret a, w') /\ r = Ret a)
  \/ (exists e w1, body w = (Raise e, w1) /\ handler e w1 = (r, w')).
Proof.
  unfold try_except. destruct (body w) as [[a|e] w1].
  - intros [= <- <-]. left. eauto.
  - intros H. right. eauto.
Qed.

Section Flows.

Variable env : Env.

Lemma log_request_tx_resources s rid user st dur err created now db_now :
  Db.request_resources (Db.log_request_tx s rid user st dur err created now db_now).2
  = Db.request_resources s.
Proof. unfold Db.log_request_tx. destruct (Db.truthy _); reflexivity. Qed.

Lemma filter_snoc_false {A : Type} (p : A -> bool) (l : list A) (x : A) :
  p x = false -> List.filter p (l ++ [x]) = List.filter p l.
Proof. intros H. rewrite List.filter_app. simpl. rewrite H. apply app_nil_r. Qed.

Lemma filter_snoc_true {A : Type} (p : A -> bool) (l : list A) (x : A) :
  p x = true -> List.filter p (l ++ [x]) = (List.filter p l ++ [x])%list.
Proof. intros H. rewrite List.filter_app. simpl. rewrite H. reflexivity. Qed.

Lemma preserves_resources_log_request rows calls rid user st dur err created :
  preserves (resources_are rows calls) (log_request env rid user st dur err created).
Proof.
  intros w [k|msg] w' Hrun [Hrows Hcalls].
  - apply log_request_ret in Hrun as (_ & Htx & _ & Htr & _).
    split.
    + pose proof (log_request_tx_resources (w_db w) rid user st dur err created
                    (env_utcnow env (w_tick w)) (env_db_now env (w_tick w))) as H.
      rewrite Htx in H. simpl in H. congruence.
    + rewrite Htr. unfold log_resource_calls. rewrite filter_snoc_false by reflexivity.
      exact Hcalls.
  - apply log_request_raise in Hrun as [_ ->]. split; [exact Hrows|].
    simpl. unfold log_resource_calls. rewrite filter_snoc_false by reflexivity. exact Hcalls.
Qed.

Lemma preserves_resources_generate rows calls device_id instance_name path :
  preserves (resources_are rows calls)
            (generate_root_terraform_files env device_id instance_name path).
Proof. apply preserves_generate; intros w; intros; assumption. Qed.

Lemma preserves_resources_run rows calls path device_id instance_name :
  preserves (resources_are rows calls)
            (run_terraform_commands env path device_id instance_name).
Proof.
  apply preserves_run_terraform_commands.
  - intros w H. exact H.
  - intros w cmd cwd [Hrows Hcalls]. split; [exact Hrows|].
    simpl. unfold log_resource_calls. rewrite filter_snoc_false by reflexivity. exact Hcalls.
Qed.

Lemma preserves_resources_destroy_pipeline rows calls path device_id instance_name :
  preserves (resources_are rows calls)
            (destroy_terraform_resources env path device_id instance_name).
Proof.
  apply preserves_destroy_terraform_resources.
  - intros w H. exact H.
  - intros w cmd cwd [Hrows Hcalls]. split; [exact Hrows|].
    simpl. unfold log_resource_calls. rewrite filter_snoc_false by reflexivity. exact Hcalls.
Qed.

Lemma preserves_resources_create_except rows calls rid user e :
  preserves (resources_are rows calls) (create_except env rid user e).
Proof.
  unfold create_except. apply preserves_bind.
  - apply preserves_resources_log_request.
  - intros _. apply preserves_ret.
Qed.

Lemma preserves_resources_destroy_except rows calls rid user e :
  preserves (resources_are rows calls) (destroy_except env rid user e).
Proof.
  unfold destroy_except. apply preserves_bind.
  - apply preserves_resources_log_request.
  - intros _. apply preserves_ret.
Qed.

(** A run of the [except] block never produces a successful result. *)
Lemma create_except_not_success rid user e w r w' :
  create_except env rid user e w = (r, w') ->
  forall jr, r = Ret jr -> success jr = false.
Proof.
  unfold create_except. intros Hrun jr ->.
  apply bind_inv in Hrun as [(k & w1 & _ & Hret) | (m & _ & Hr)]; [|discriminate].
  injection Hret as <- _. reflexivity.
Qed.

(** The outcome of the [except] block follows that of its status write. *)
Lemma create_except_run rid user e w r3 w3 :
  log_request env rid user "error" None (Some ("Unhandled error: " ++ e)) None w = (r3, w3) ->
  create_except env rid user e w
  = (match r3 with
     | Ret _ => Ret {| success := false; output := "Unhandled error: " ++ e; duration := 0 |}
     | Raise m => Raise m
     end, w3).
Proof.
  intros Hrun. unfold create_except, mbind, M_bind. rewrite Hrun.
  destruct r3; reflexivity.
Qed.

Lemma destroy_except_run rid user e w r3 w3 :
  log_request env rid user "destroy_error" None (Some ("Destroy crashed: " ++ e)) None w = (r3, w3) ->
  destroy_except env rid user e w
  = (match r3 with
     | Ret _ => Ret {| success := false; output := "Destroy crashed: " ++ e; duration := 0 |}
     | Raise m => Raise m
     end, w3).
Proof.
  intros Hrun. unfold destroy_except, mbind, M_bind. rewrite Hrun.
  destruct r3; reflexivity.
Qed.

Lemma preserves_wf_log_request rid user st dur err created :
  preserves store_wf (log_request env rid user st dur err created).
Proof. intros w r w' Hrun H. eapply log_request_wf; eauto. Qed.

Lemma preserves_wf_log_resource l rtype rname rvalue :
  preserves store_wf (log_resource env l rtype rname rvalue).
Proof.
  intros w [[]|msg] w' Hrun H; unfold store_wf in *.
  - apply log_resource_ret in Hrun as (_ & -> & _). apply log_resource_tx_wf, H.
  - apply log_resource_raise in Hrun as [_ ->]. exact H.
Qed.

Lemma preserves_wf_create_try rid log_id device_id instance_name user path :
  preserves store_wf (create_try env rid log_id device_id instance_name user path).
Proof.
  unfold create_try.
  apply preserves_bind; [apply preserves_generate; intros w; intros; assumption|].
  intros _. apply preserves_bind.
  { apply preserves_run_terraform_commands; intros w; intros; assumption. }
  intros [[s out] dur]. apply preserves_bind; [apply preserves_wf_log_request|].
  intros _. apply preserves_bind; [|intros _; apply preserves_ret].
  destruct s; [apply preserves_wf_log_resource | apply preserves_ret].
Qed.

(** A returning [log_request] leaves a row for the request id that holds
    the values of the call. *)
Lemma log_request_writes_row rid user st dur err created w k w' :
  Db.wf (w_db w) ->
  log_request env rid user st dur err created w = (Ret k, w') ->
  exists r, In r (Db.request_status_logs (w_db w'))
            /\ Db.log_id r = k /\ Db.request_id r = rid /\ Db.status r = st
            /\ Db.duration_seconds r = dur /\ Db.error_message r = err.
Proof.
  intros Hwf Hrun. destruct (Db.select_log_id (w_db w) rid) as [l|] eqn:Hsel.
  - apply log_request_ret in Hrun as (_ & Htx & _).
    rewrite (log_request_tx_update _ _ _ _ _ _ _ _ _ _ Hwf Hsel) in Htx.
    injection Htx as <- <-. simpl.
    apply select_log_id_in in Hsel as (r & Hin & Hl & Hrid).
    exists (Db.set_status r st dur err (env_utcnow env (w_tick w))).
    repeat split; auto.
    unfold Db.update_rows. apply in_map_iff. exists r. split; [|exact Hin].
    rewrite Hl, Z.eqb_refl. reflexivity.
  - apply log_request_ret in Hrun as (_ & Htx & _).
    rewrite (log_request_tx_insert _ _ _ _ _ _ _ _ _ Hsel) in Htx.
    injection Htx as <- <-. simpl.
    eexists. split; [apply in_or_app; right; left; reflexivity|]. simpl. auto.
Qed.

End Flows.

Section FlowRuns.

Variable env : Env.

(** The runs of the [try] block of [create_server_job], seen from the
    resource table: either the resource step is not reached and nothing
    changes, or the pipeline reported success, the terminal write
    returned and [log_resource] was called once. *)
Lemma create_try_runs rid log_id device_id instance_name user path rows calls w1 r w' :
  resources_are rows calls w1 ->
  create_try env rid log_id device_id instance_name user path w1 = (r, w') ->
  (resources_are rows calls w' /\ (forall jr, r = Ret jr -> success jr = false))
  \/ (exists w2 out dur w3 k w4,
         generate_root_terraform_files env device_id instance_name path w1 = (Ret tt, w2)
         /\ run_terraform_commands env path device_id instance_name w2 = (Ret (true, out, dur), w3)
         /\ log_request env rid user "success" (Some dur) None None w3 = (Ret k, w4)
         /\ resources_are rows calls w4
         /\ ((log_resource env log_id "EC2" instance_name device_id w4 = (Ret tt, w')
              /\ r = Ret {| success := true; output := out; duration := dur |})
             \/ (exists e, log_resource env log_id "EC2" instance_name device_id w4 = (Raise e, w')
                           /\ r = Raise e))).
Proof.
  intros Hres Hrun. unfold create_try in Hrun.
  apply bind_inv in Hrun as [([] & w2 & Hgen & Hrun) | (e & Hgen & ->)].
  2:{ left. split; [|discriminate]. eapply preserves_resources_generate; eauto. }
  pose proof (preserves_resources_generate env rows calls _ _ _ _ _ _ Hgen Hres) as Hres2.
  apply bind_inv in Hrun as [([[s out] dur] & w3 & Hpipe & Hrun) | (e & Hpipe & ->)].
  2:{ left. split; [|discriminate]. eapply preserves_resources_run; eauto. }
  pose proof (preserves_resources_run env rows calls _ _ _ _ _ _ Hpipe Hres2) as Hres3.
  apply bind_inv in Hrun as [(k & w4 & Hterm & Hrun) | (e & Hterm & ->)].
  2:{ left. split; [|discriminate]. eapply preserves_resources_log_request; eauto. }
  pose proof (preserves_resources_log_request env rows calls _ _ _ _ _ _ _ _ _ Hterm Hres3) as Hres4.
  destruct s.
  - right. exists w2, out, dur, w3, k, w4. repeat split; auto; try apply Hres4.
    apply bind_inv in Hrun as [([] & w5 & Hins & Hret) | (e & Hins & ->)].
    + injection Hret as <- <-. left. auto.
    + right. eauto.
  - left. apply bind_inv in Hrun as [([] & w5 & Hskip & Hret) | (e & Hskip & _)];
      [|discriminate].
    injection Hskip as <-. injection Hret as <- <-. split; [exact Hres4|].
    intros jr [= <-]. reflexivity.
Qed.

Lemma log_resource_ret_resources l rtype rname rvalue rows calls w w' :
  resources_are rows calls w ->
  log_resource env l rtype rname rvalue w = (Ret tt, w') ->
  exists row,
    Db.request_resources (w_db w') = (rows ++ [row])%list
    /\ Db.res_log_id row = l /\ Db.resource_type row = rtype
    /\ Db.resource_name row = rname /\ Db.resource_id_value row = rvalue
    /\ log_resource_calls (w_trace w') = (calls ++ [EvLogResource l rtype rname rvalue])%list.
Proof.
  intros [Hrows Hcalls] Hrun. apply log_resource_ret in Hrun as (_ & Hdb & _ & Htr).
  eexists. rewrite Hdb, Htr. simpl. rewrite Hrows. split; [reflexivity|]. simpl.
  repeat split. unfold log_resource_calls. rewrite filter_snoc_true by reflexivity.
  rewrite <- Hcalls. reflexivity.
Qed.

Lemma log_resource_raise_resources l rtype rname rvalue rows calls w e w' :
  resources_are rows calls w ->
  log_resource env l rtype rname rvalue w = (Raise e, w') ->
  resources_are rows (calls ++ [EvLogResource l rtype rname rvalue]) w'.
Proof.
  intros [Hrows Hcalls] Hrun. apply log_resource_raise in Hrun as [_ ->].
  split; [exact Hrows|]. simpl. unfold log_resource_calls.
  rewrite filter_snoc_true by reflexivity. rewrite <- Hcalls. reflexivity.
Qed.

Lemma preserves_resources_destroy_server_job rows calls device_id instance_name user :
  preserves (resources_are rows calls) (destroy_server_job env device_id instance_name user).
Proof.
  unfold destroy_server_job.
  apply preserves_bind; [apply preserves_resources_log_request|].
  intros _. apply preserves_try; [|apply preserves_resources_destroy_except].
  unfold destroy_try.
  apply preserves_bind; [apply preserves_resources_destroy_pipeline|].
  intros [[s out] dur].
  apply preserves_bind; [apply preserves_resources_log_request|].
  intros _. apply preserves_ret.
Qed.

(** C2, amended. In the create flow a resource record is inserted
    exactly when the flow returns a successful result, which requires the
    pipeline to have reported success; [log_resource] is called at most
    once, with type [EC2], the instance name and the device id, and only
    after the pipeline reported success; when the pipeline reports
    success and both the terminal status write and the insert return, the
    flow returns the successful result (and so has inserted exactly one
    record). The destroy flow never calls [log_resource] and never
    changes the resource table. *)
Theorem resource_record_only_on_success device_id instance_name user :
  (forall w r w',
      create_server_job env device_id instance_name user w = (r, w') ->
      (Db.request_resources (w_db w') = Db.request_resources (w_db w)
       /\ (forall jr, r = Ret jr -> success jr = false))
      \/ (exists log_id out dur w3 row,
             create_pipeline_reports env device_id instance_name user w true log_id out dur w3
             /\ r = Ret {| success := true; output := out; duration := dur |}
             /\ Db.request_resources (w_db w') = (Db.request_resources (w_db w) ++ [row])%list
             /\ Db.res_log_id row = log_id /\ Db.resource_type row = "EC2"
             /\ Db.resource_name row = instance_name
             /\ Db.resource_id_value row = device_id
             /\ log_resource_calls (w_trace w')
                = (log_resource_calls (w_trace w)
                   ++ [EvLogResource log_id "EC2" instance_name device_id])%list))
  /\ (forall w r w',
         create_server_job env device_id instance_name user w = (r, w') ->
         log_resource_calls (w_trace w') <> log_resource_calls (w_trace w) ->
         exists log_id out dur w3,
           create_pipeline_reports env device_id instance_name user w true log_id out dur w3
           /\ log_resource_calls (w_trace w')
              = (log_resource_calls (w_trace w)
                 ++ [EvLogResource log_id "EC2" instance_name device_id])%list)
  /\ (forall w log_id out dur w3 k w4 w5,
         create_pipeline_reports env device_id instance_name user w true log_id out dur w3 ->
         log_request env (normalize_request_id (runtime env) device_id) user
                     "success" (Some dur) None None w3 = (Ret k, w4) ->
         log_resource env log_id "EC2" instance_name device_id w4 = (Ret tt, w5) ->
         create_server_job env device_id instance_name user w
         = (Ret {| success := true; output := out; duration := dur |}, w5))
  /\ (forall w r w',
         destroy_server_job env device_id instance_name user w = (r, w') ->
         Db.request_resources (w_db w') = Db.request_resources (w_db w)
         /\ log_resource_calls (w_trace w') = log_resource_calls (w_trace w)).
Proof.
  split; [|split; [|split]].
  - intros w r w' Hrun. unfold create_server_job in Hrun.
    assert (Hres : resources_are (Db.request_resources (w_db w))
                                 (log_resource_calls (w_trace w)) w) by (split; reflexivity).
    apply bind_inv in Hrun as [(log_id & w1 & Hinit & Hrun) | (e & Hinit & ->)].
    2:{ left. split; [|discriminate].
        eapply (preserves_resources_log_request env); eauto. }
    pose proof (preserves_resources_log_request env _ _ _ _ _ _ _ _ _ _ _ Hinit Hres) as Hres1.
    apply try_except_inv in Hrun as [(jr & Hbody & ->) | (e & w2 & Hbody & Hh)].
    + destruct (create_try_runs _ _ _ _ _ _ _ _ _ _ _ Hres1 Hbody)
        as [[Hres' Hjr] | (w2 & out & dur & w3 & k & w4 & Hgen & Hpipe & Hterm & Hres4 & Hins)].
      * left. split; [apply Hres' | exact Hjr].
      * destruct Hins as [[Hins Hr] | (e & _ & Hr)]; [|discriminate].
        injection Hr as ->.
        destruct (log_resource_ret_resources _ _ _ _ _ _ _ _ Hres4 Hins)
          as (row & Hrows & Hl & Ht & Hn & Hv & Hcalls).
        right. exists log_id, out, dur, w3, row. repeat split; auto.
        exists w1, w2. auto.
    + left. split; [|eapply create_except_not_success; eauto].
      destruct (create_try_runs _ _ _ _ _ _ _ _ _ _ _ Hres1 Hbody)
        as [[Hres' _] | (w2' & out & dur & w3 & k & w4 & _ & _ & _ & Hres4 & Hins)].
      * eapply (preserves_resources_create_except env); eauto.
      * destruct Hins as [[_ Hr] | (e' & Hins & _)]; [discriminate|].
        pose proof (log_resource_raise_resources _ _ _ _ _ _ _ _ _ Hres4 Hins) as Hres5.
        eapply (preserves_resources_create_except env); eauto.
  - intros w r w' Hrun Hneq. unfold create_server_job in Hrun.
    assert (Hres : resources_are (Db.request_resources (w_db w))
                                 (log_resource_calls (w_trace w)) w) by (split; reflexivity).
    apply bind_inv in Hrun as [(log_id & w1 & Hinit & Hrun) | (e & Hinit & ->)].
    2:{ exfalso. apply Hneq. eapply (preserves_resources_log_request env); eauto. }
    pose proof (preserves_resources_log_request env _ _ _ _ _ _ _ _ _ _ _ Hinit Hres) as Hres1.
    apply try_except_inv in Hrun as [(jr & Hbody & ->) | (e & w2 & Hbody & Hh)].
    + destruct (create_try_runs _ _ _ _ _ _ _ _ _ _ _ Hres1 Hbody)
        as [[Hres' Hjr] | (w2 & out & dur & w3 & k & w4 & Hgen & Hpipe & Hterm & Hres4 & Hins)].
      * exfalso. apply Hneq. apply Hres'.
      * destruct Hins as [[Hins Hr] | (e & _ & Hr)]; [|discriminate].
        destruct (log_resource_ret_resources _ _ _ _ _ _ _ _ Hres4 Hins)
          as (row & _ & _ & _ & _ & _ & Hcalls).
        exists log_id, out, dur, w3. split; [exists w1, w2; auto | exact Hcalls].
    + destruct (create_try_runs _ _ _ _ _ _ _ _ _ _ _ Hres1 Hbody)
        as [[Hres' _] | (w2' & out & dur & w3 & k & w4 & Hgen & Hpipe & _ & Hres4 & Hins)].
      * exfalso. apply Hneq.
        eapply (preserves_resources_create_except env); eauto.
      * destruct Hins as [[_ Hr] | (e' & Hins & _)]; [discriminate|].
        pose proof (log_resource_raise_resources _ _ _ _ _ _ _ _ _ Hres4 Hins) as Hres5.
        exists log_id, out, dur, w3. split; [exists w1, w2'; auto|].
        pose proof (preserves_resources_create_except env _ _ _ _ _ _ _ _ Hh Hres5) as [_ Hc].
        exact Hc.
  - intros w log_id out dur w3 k w4 w5 (w1 & w2 & Hinit & Hgen & Hpipe) Hterm Hins.
    unfold create_server_job, create_try, try_except, mbind, M_bind.
    rewrite Hinit, Hgen, Hpipe, Hterm, Hins. reflexivity.
  - intros w r w' Hrun.
    assert (Hres : resources_are (Db.request_resources (w_db w))
                                 (log_resource_calls (w_trace w)) w) by (split; reflexivity).
    exact (preserves_resources_destroy_server_job _ _ _ _ _ _ _ _ Hrun Hres).
Qed.

End FlowRuns.

(** A run is determined by its outcome once the final world is named by
    projection; used to evaluate outcomes without comparing worlds. *)
Lemma run_eq {A : Type} (m : M A) (w : World) (r : Outcome A) :
  (m w).1 = r -> m w = (r, (m w).2).
Proof. destruct (m w). simpl. intros ->. reflexivity. Qed.

(** C2 as stated fails: the pipeline reports success, the terminal
    status write raises, and [log_resource] is never called. *)
Lemma resource_record_missing_after_pipeline_success :
  (exists log_id out dur w3,
      create_pipeline_reports env_terminal_write_fails "42" "web1" "alice" world0
                              true log_id out dur w3)
  /\ Db.request_resources
       (w_db (create_server_job env_terminal_write_fails "42" "web1" "alice" world0).2) = []
  /\ log_resource_calls
       (w_trace (create_server_job env_terminal_write_fails "42" "web1" "alice" world0).2) = [].
Proof.
  split; [|split; vm_compute; reflexivity].
  unfold create_pipeline_reports.
  exists 1, (PyText.join nl ["out"; "err"; "out"; "err"; "out"; "err"]), 3000.
  eexists _, _, _.
  split; [apply run_eq; vm_compute; reflexivity|].
  split; apply run_eq; vm_compute; reflexivity.
Qed.

Lemma resource_record_only_on_success_witness :
  (exists row,
      Db.request_resources (w_db (create_server_job env_ok "42" "web1" "alice" world0).2) = [row]
      /\ Db.resource_type row = "EC2" /\ Db.resource_name row = "web1"
      /\ Db.resource_id_value row = "42")
  /\ Db.request_resources (w_db (destroy_server_job env_ok "42" "web1" "alice" world0).2) = [].
Proof.
  destruct (resource_record_only_on_success env_ok "42" "web1" "alice")
    as (Hcreate & _ & _ & Hdestroy).
  split.
  - pose proof (Hcreate world0 _ _ (run_eq _ _ _ eq_refl)) as H.
    destruct H
      as [[_ Hfalse] | (log_id & out & dur & w3 & row & _ & _ & Hrows & _ & Ht & Hn & Hv & _)].
    + exfalso.
      assert (Hr : (create_server_job env_ok "42" "web1" "alice" world0).1
                   = Ret {| success := true;
                            output := PyText.join nl ["out"; "err"; "out"; "err"; "out"; "err"];
                            duration := 3000 |}) by (vm_compute; reflexivity).
      specialize (Hfalse _ Hr). discriminate Hfalse.
    + exists row. repeat split; assumption.
  - destruct (Hdestroy world0 _ _ (run_eq _ _ _ eq_refl)) as [Hrows _].
    exact Hrows.
Defined.

Section FlowErrors.

Variable env : Env.

(** C7. If the [create_started] write raises, [create_server_job] raises
    the same exception; the store is unchanged and the failed call is the
    only status write of the invocation. The same holds for
    [destroy_server_job] and its [destroy_started] write. *)
Theorem started_write_failure_propagates device_id instance_name user w msg w1 :
  let rid := normalize_request_id (runtime env) device_id in
  (log_request env rid user "create_started" None None None w = (Raise msg, w1) ->
   create_server_job env device_id instance_name user w = (Raise msg, w1)
   /\ w_db w1 = w_db w
   /\ w_trace w1 = (w_trace w ++ [EvLogRequest rid user "create_started" None None])%list)
  /\ (log_request env rid user "destroy_started" None None None w = (Raise msg, w1) ->
      destroy_server_job env device_id instance_name user w = (Raise msg, w1)
      /\ w_db w1 = w_db w
      /\ w_trace w1 = (w_trace w ++ [EvLogRequest rid user "destroy_started" None None])%list).
Proof.
  intros rid. split; intros Hrun.
  - split.
    + unfold create_server_job, mbind, M_bind. fold rid. rewrite Hrun. reflexivity.
    + apply log_request_raise in Hrun as [_ ->]. split; reflexivity.
  - split.
    + unfold destroy_server_job, mbind, M_bind. fold rid. rewrite Hrun. reflexivity.
    + apply log_request_raise in Hrun as [_ ->]. split; reflexivity.
Qed.

(** Each step of the [try] block of [create_server_job] that raises makes
    the block raise: the workspace build, the pipeline run, the terminal
    status write and the resource insert. *)
Lemma create_try_raises rid log_id device_id instance_name user path w1 e w2 :
  generate_root_terraform_files env device_id instance_name path w1 = (Raise e, w2)
  \/ (exists wa,
         generate_root_terraform_files env device_id instance_name path w1 = (Ret tt, wa)
         /\ (run_terraform_commands env path device_id instance_name wa = (Raise e, w2)
             \/ exists s out dur wb,
                 run_terraform_commands env path device_id instance_name wa
                 = (Ret (s, out, dur), wb)
                 /\ (log_request env rid user (if s then "success" else "failed") (Some dur)
                                 (if s then None else Some out) None wb = (Raise e, w2)
                     \/ exists k wc,
                         log_request env rid user (if s then "success" else "failed") (Some dur)
                                     (if s then None else Some out) None wb = (Ret k, wc)
                         /\ s = true
                         /\ log_resource env log_id "EC2" instance_name device_id wc
                            = (Raise e, w2)))) ->
  create_try env rid log_id device_id instance_name user path w1 = (Raise e, w2).
Proof.
  unfold create_try, mbind, M_bind.
  intros [Hgen | (wa & Hgen & [Hpipe | (s & out & dur & wb & Hpipe & [Hterm | Hins])])].
  - rewrite Hgen. reflexivity.
  - rewrite Hgen, Hpipe. reflexivity.
  - rewrite Hgen, Hpipe, Hterm. reflexivity.
  - destruct Hins as (k & wc & Hterm & -> & Hins).
    rewrite Hgen, Hpipe, Hterm, Hins. reflexivity.
Qed.

(** C3, amended. When the [create_started] write has returned and a step
    of the [try] block raises an exception with message [e], the flow
    calls [log_request] with status [error], no duration and the error
    message [Unhandled error: e]. If that write returns, the flow
    returns [{success: False, output: "Unhandled error: " + e,
    duration: 0}] and the store holds a record of the request with
    status [error] and that message; if that write raises, the flow
    raises its exception. *)
Theorem create_crash_is_reported device_id instance_name user w log_id w1 e w2 r3 w3 :
  let rid := normalize_request_id (runtime env) device_id in
  let path := PyPath.join (TERRAFORM_ROOT (config env)) device_id in
  let text := "Unhandled error: " ++ e in
  Db.wf (w_db w) ->
  log_request env rid user "create_started" None None None w = (Ret log_id, w1) ->
  create_try env rid log_id device_id instance_name user path w1 = (Raise e, w2) ->
  log_request env rid user "error" None (Some text) None w2 = (r3, w3) ->
  create_server_job env device_id instance_name user w
  = (match r3 with
     | Ret _ => Ret {| success := false; output := text; duration := 0 |}
     | Raise m => Raise m
     end, w3)
  /\ w_trace w3 = (w_trace w2 ++ [EvLogRequest rid user "error" None (Some text)])%list
  /\ (forall k, r3 = Ret k ->
        exists r, In r (Db.request_status_logs (w_db w3))
                  /\ Db.log_id r = k /\ Db.request_id r = rid /\ Db.status r = "error"
                  /\ Db.duration_seconds r = None /\ Db.error_message r = Some text).
Proof.
  intros rid path text Hwf Hinit Hbody Hwrite.
  split; [|split].
  - unfold create_server_job, try_except, mbind, M_bind. fold rid path.
    rewrite Hinit, Hbody. apply create_except_run. exact Hwrite.
  - destruct r3 as [k|m].
    + apply log_request_ret in Hwrite as (_ & _ & _ & Htr & _). exact Htr.
    + apply log_request_raise in Hwrite as [_ ->]. reflexivity.
  - intros k ->.
    assert (Hwf2 : Db.wf (w_db w2)).
    { eapply (preserves_wf_create_try env); [exact Hbody|].
      eapply (preserves_wf_log_request env); [exact Hinit | exact Hwf]. }
    destruct (log_request_writes_row env _ _ _ _ _ _ _ _ _ Hwf2 Hwrite)
      as (r & Hin & Hk & Hrid & Hst & Hdur & Herr).
    exists r. repeat split; assumption.
Qed.

End FlowErrors.

Lemma started_write_failure_propagates_witness :
  create_server_job env_db_down_at_start "42" "web1" "alice" world0
  = (Raise "db down",
     (log_request env_db_down_at_start 42 "alice" "create_started" None None None world0).2)
  /\ destroy_server_job env_db_down_at_start "42" "web1" "alice" world0
     = (Raise "db down",
        (log_request env_db_down_at_start 42 "alice" "destroy_started" None None None world0).2)
  /\ w_db (create_server_job env_db_down_at_start "42" "web1" "alice" world0).2 = Db.empty.
Proof.
  split; [|split].
  - apply (started_write_failure_propagates env_db_down_at_start "42" "web1" "alice" world0
             "db down" _).
    apply run_eq. vm_compute. reflexivity.
  - apply (started_write_failure_propagates env_db_down_at_start "42" "web1" "alice" world0
             "db down" _).
    apply run_eq. vm_compute. reflexivity.
  - vm_compute. reflexivity.
Defined.

(** The disk is full when the workspace directory is created: the flow
    reports the crash with the prefixed message and duration 0. *)
Lemma create_crash_is_reported_witness :
  create_server_job env_disk_full "42" "web1" "alice" world0
  = (Ret {| success := false; output := "Unhandled error: disk full"; duration := 0 |},
     (create_server_job env_disk_full "42" "web1" "alice" world0).2).
Proof.
  pose (w1 := (log_request env_disk_full 42 "alice" "create_started" None None None world0).2).
  pose (path := PyPath.join (TERRAFORM_ROOT (config env_disk_full)) "42").
  pose (w2 := (create_try env_disk_full 42 1 "42" "web1" "alice" path w1).2).
  pose (w3 := (log_request env_disk_full 42 "alice" "error" None
                           (Some "Unhandled error: disk full") None w2).2).
  assert (Hinit : log_request env_disk_full 42 "alice" "create_started" None None None world0
                  = (Ret 1, w1)) by (apply run_eq; vm_compute; reflexivity).
  assert (Hbody : create_try env_disk_full 42 1 "42" "web1" "alice" path w1
                  = (Raise "disk full", w2)) by (apply run_eq; vm_compute; reflexivity).
  assert (Hwrite : log_request env_disk_full 42 "alice" "error" None
                               (Some "Unhandled error: disk full") None w2
                   = (Ret 1, w3)) by (apply run_eq; vm_compute; reflexivity).
  destruct (create_crash_is_reported env_disk_full "42" "web1" "alice" world0 1 w1
              "disk full" w2 (Ret 1) w3 empty_wf Hinit Hbody Hwrite) as [Hrun _].
  rewrite Hrun. reflexivity.
Defined.

(** C3 as stated fails: the result does not carry the exception's
    message but the message prefixed with [Unhandled error: ]. *)
Lemma create_crash_output_is_prefixed :
  ~ (forall env device_id instance_name user w log_id w1 e w2,
        log_request env (normalize_request_id (runtime env) device_id) user
                    "create_started" None None None w = (Ret log_id, w1) ->
        create_try env (normalize_request_id (runtime env) device_id) log_id
                   device_id instance_name user
                   (PyPath.join (TERRAFORM_ROOT (config env)) device_id) w1 = (Raise e, w2) ->
        exists w3,
          create_server_job env device_id instance_name user w
          = (Ret {| success := false; output := e; duration := 0 |}, w3)).
Proof.
  intros H.
  destruct (H env_disk_full "42" "web1" "alice" world0 1 _ "disk full" _
              (run_eq _ _ _ eq_refl) (run_eq _ _ _ eq_refl)) as [w3 Hrun].
  apply (f_equal fst) in Hrun. vm_compute in Hrun. discriminate Hrun.
Qed.

(** When the database rejects the terminal status write and the write of
    the [except] block as well, the flow returns no result: the second
    exception leaves [create_server_job]. *)
Example create_crash_handler_write_raises :
  (create_server_job env_db_stays_down "42" "web1" "alice" world0).1 = Raise "db down".
Proof. vm_compute. reflexivity. Qed.

(* ===================================================================== *)
(** * Text: splitting, dedenting, stripping *)
(* ===================================================================== *)

Section Text.

Import PyText.

Lemma chars_app (a b : string) : chars (a ++ b) = (chars a ++ chars b)%list.
Proof. induction a as [|c a IH]; simpl; [reflexivity | rewrite IH; reflexivity]. Qed.

Lemma chars_of_chars (l : list ascii) : chars (of_chars l) = l.
Proof. induction l as [|c l IH]; simpl; [reflexivity | rewrite IH; reflexivity]. Qed.

Lemma of_chars_chars (s : string) : of_chars (chars s) = s.
Proof. induction s as [|c s IH]; simpl; [reflexivity | rewrite IH; reflexivity]. Qed.

Lemma split_nonempty sep l : split sep l <> [].
Proof.
  destruct l as [|c l]; simpl; [discriminate|].
  destruct (Ascii.eqb c sep); [discriminate|].
  destruct (split sep l); discriminate.
Qed.

(** Splitting distributes over a separator. *)
Lemma split_app_sep sep a b :
  split sep (a ++ sep :: b) = (split sep a ++ split sep b)%list.
Proof.
  induction a as [|c a IH]; simpl.
  - rewrite Ascii.eqb_refl. reflexivity.
  - destruct (Ascii.eqb c sep); [rewrite IH; reflexivity|].
    rewrite IH. destruct (split sep a) as [|p ps] eqn:E; [|reflexivity].
    exfalso. exact (split_nonempty _ _ E).
Qed.

Lemma split_no_sep sep l : sep ∉ l -> split sep l = [l].
Proof.
  induction l as [|c l IH]; intros Hnot; simpl; [reflexivity|].
  destruct (Ascii.eqb_spec c sep) as [->|_].
  - exfalso. apply Hnot. left.
  - rewrite IH; [reflexivity|]. intros Hin. apply Hnot. right. exact Hin.
Qed.

(** A piece of a joined text occurs in it. *)
Lemma unsplit_piece sep X p Y :
  exists A B, unsplit sep (X ++ p :: Y) = (A ++ p ++ B)%list.
Proof.
  induction X as [|x X IH]; simpl.
  - destruct Y as [|y Y]; [exists [], []; rewrite app_nil_r; reflexivity|].
    exists [], (sep :: unsplit sep (y :: Y)). reflexivity.
  - destruct IH as (A & B & IH).
    destruct (X ++ p :: Y)%list as [|z Z] eqn:E; [destruct X; discriminate|].
    rewrite IH. exists (x ++ sep :: A)%list, B.
    rewrite <- !app_assoc. reflexivity.
Qed.

Lemma common_prefix_l a b : common_prefix a b `prefix_of` a.
Proof.
  revert b. induction a as [|x a IH]; intros [|y b]; simpl; try apply prefix_nil.
  destruct (Ascii.eqb x y); [|apply prefix_nil].
  apply prefix_cons, IH.
Qed.

Lemma common_prefix_r a b : common_prefix a b `prefix_of` b.
Proof.
  revert b. induction a as [|x a IH]; intros [|y b]; simpl; try apply prefix_nil.
  destruct (Ascii.eqb_spec x y) as [->|]; [|apply prefix_nil].
  apply prefix_cons, IH.
Qed.

(** The margin is a prefix of the indentation of every line with text. *)
Lemma margin_loop_prefix lines :
  forall mo m,
    margin_loop mo lines = Some m ->
    (forall m0, mo = Some m0 -> m `prefix_of` m0)
    /\ (forall l, l ∈ lines -> forallb is_blank l = false -> m `prefix_of` take_blank l).
Proof.
  induction lines as [|l0 lines IH]; intros mo m Hm; simpl in Hm.
  - subst mo. split; [intros m0 [= ->]; reflexivity|].
    intros l Hl. inversion Hl.
  - destruct (forallb is_blank l0) eqn:Hb.
    + destruct (IH _ _ Hm) as [H1 H2]. split; [exact H1|].
      intros l Hl Hnb. apply elem_of_cons in Hl as [->|Hl]; [congruence | auto].
    + destruct mo as [m0|].
      * destruct (IH _ _ Hm) as [H1 H2]. specialize (H1 _ eq_refl). split.
        -- intros m1 [= <-]. etrans; [exact H1 | apply common_prefix_l].
        -- intros l Hl Hnb. apply elem_of_cons in Hl as [->|Hl]; [|auto].
           etrans; [exact H1 | apply common_prefix_r].
      * destruct (IH _ _ Hm) as [H1 H2]. specialize (H1 _ eq_refl). split.
        -- intros m1 [=].
        -- intros l Hl Hnb. apply elem_of_cons in Hl as [->|Hl]; [exact H1 | auto].
Qed.

Lemma strip_prefix_app m rest : strip_prefix m (m ++ rest) = Some rest.
Proof.
  induction m as [|x m IH]; simpl; [reflexivity|].
  rewrite Ascii.eqb_refl. exact IH.
Qed.

Lemma strip_prefix_Some m l r : strip_prefix m l = Some r -> l = (m ++ r)%list.
Proof.
  revert l. induction m as [|x m IH]; intros l; simpl.
  - intros [= ->]. reflexivity.
  - destruct l as [|y l]; [discriminate|].
    destruct (Ascii.eqb_spec x y) as [->|]; [|discriminate].
    intros H. rewrite (IH _ H). reflexivity.
Qed.

Lemma take_blank_app sp K :
  forallb is_blank sp = true ->
  match K with c :: _ => is_blank c = false | [] => True end ->
  take_blank (sp ++ K) = sp.
Proof.
  intros Hsp HK. induction sp as [|x sp IH]; simpl in *.
  - destruct K as [|c K]; [reflexivity|]. simpl. rewrite HK. reflexivity.
  - apply andb_prop in Hsp as [Hx Hsp]. rewrite Hx, IH; auto.
Qed.

(** Dedenting keeps the text of a line after its indentation: a line
    [sp ++ K] made of blanks [sp] and a text [K] that starts with a
    non-blank character still ends with [K]. *)
Lemma dedent_line_keeps lines sp K c K' :
  K = c :: K' -> is_blank c = false -> forallb is_blank sp = true ->
  (sp ++ K)%list ∈ lines ->
  forall g,
    g = match margin_loop None lines with
        | Some (x :: m) => remove_margin (x :: m)
        | _ => fun l => l
        end ->
    exists pre, g (sp ++ K)%list = (pre ++ K)%list.
Proof.
  intros -> Hc Hsp Hin g ->.
  destruct (margin_loop None lines) as [[|x m]|] eqn:Hm; try (exists sp; reflexivity).
  destruct (margin_loop_prefix _ _ _ Hm) as [_ Hpre].
  assert (Hnb : forallb is_blank (sp ++ c :: K') = false).
  { rewrite forallb_app. simpl. rewrite Hc. simpl. apply andb_false_r. }
  specialize (Hpre _ Hin Hnb).
  rewrite (take_blank_app sp (c :: K') Hsp Hc) in Hpre.
  destruct Hpre as [rest Hrest]. exists rest.
  unfold remove_margin. rewrite Hrest, <- app_assoc, strip_prefix_app. reflexivity.
Qed.

Lemma lstrip_keeps A K B c K' :
  K = c :: K' -> isspace c = false ->
  exists A', lstrip_chars (A ++ K ++ B) = (A' ++ K ++ B)%list.
Proof.
  intros -> Hc. induction A as [|a A IH]; simpl.
  - rewrite Hc. exists []. reflexivity.
  - destruct (isspace a); [exact IH|]. exists (a :: A). reflexivity.
Qed.

Lemma rstrip_keeps A K B c K' :
  rev K = c :: K' -> isspace c = false ->
  exists B', rstrip_chars (A ++ K ++ B) = (A ++ K ++ B')%list.
Proof.
  intros HK Hc. unfold rstrip_chars. rewrite !rev_app_distr, <- app_assoc.
  destruct (lstrip_keeps (rev B) (rev K) (rev A) c K' HK Hc) as [B' HB'].
  rewrite HB'. exists (rev B').
  rewrite !rev_app_distr, !rev_involutive, <- app_assoc. reflexivity.
Qed.

Lemma contains_chars_unfold K l :
  contains_chars K l
  = match strip_prefix K l with
    | Some _ => true
    | None => match l with [] => false | _ :: l' => contains_chars K l' end
    end.
Proof. destruct l; reflexivity. Qed.

Lemma contains_chars_app K A B : contains_chars K (A ++ K ++ B) = true.
Proof.
  induction A as [|a A IH]; rewrite contains_chars_unfold.
  - simpl. rewrite strip_prefix_app. reflexivity.
  - simpl. destruct (strip_prefix K (a :: A ++ K ++ B)); [reflexivity | exact IH].
Qed.

Lemma contains_chars_sound K l :
  contains_chars K l = true -> exists A B, l = (A ++ K ++ B)%list.
Proof.
  induction l as [|a l IH]; simpl.
  - destruct (strip_prefix K []) eqn:E; [|discriminate].
    intros _. exists [], l. apply strip_prefix_Some in E. exact E.
  - destruct (strip_prefix K (a :: l)) eqn:E.
    + intros _. exists [], l0. apply strip_prefix_Some in E. exact E.
    + intros H. destruct (IH H) as (A & B & ->). exists (a :: A), B. reflexivity.
Qed.

(** [contains] decides the substring relation ([sub in text]). *)
Lemma contains_iff sub text :
  contains sub text = true <-> exists a b, text = a ++ sub ++ b.
Proof.
  unfold contains. split.
  - intros H. apply contains_chars_sound in H as (A & B & H).
    exists (of_chars A), (of_chars B).
    rewrite <- (of_chars_chars text), H.
    rewrite <- (of_chars_chars (of_chars A ++ sub ++ of_chars B)).
    rewrite !chars_app, !chars_of_chars. reflexivity.
  - intros (a & b & ->). rewrite !chars_app. apply contains_chars_app.
Qed.

End Text.

(* ===================================================================== *)
(** * The generated provider file *)
(* ===================================================================== *)

Section ProviderFile.

Import PyText.

Lemma chars_join (parts : list string) :
  chars (join nl parts) = unsplit LF (map chars parts).
Proof.
  induction parts as [|p parts IH]; [reflexivity|].
  destruct parts as [|q parts]; [reflexivity|].
  change (join nl (p :: q :: parts)) with (p ++ nl ++ join nl (q :: parts)).
  change (unsplit LF (map chars (p :: q :: parts)))
    with (chars p ++ LF :: unsplit LF (map chars (q :: parts)))%list.
  rewrite !chars_app, IH. reflexivity.
Qed.

(** A piece without separator is one of the pieces found by [split] in
    the joined text. *)
Lemma split_unsplit_piece sep X p Y :
  sep ∉ p -> p ∈ split sep (unsplit sep (X ++ p :: Y)).
Proof.
  intros Hp. induction X as [|x X IH].
  - simpl. destruct Y as [|y Y].
    + rewrite (split_no_sep _ _ Hp). left.
    + rewrite split_app_sep, (split_no_sep _ _ Hp). left.
  - change ((x :: X) ++ p :: Y)%list with (x :: (X ++ p :: Y))%list.
    destruct (X ++ p :: Y)%list as [|z Z] eqn:E; [destruct X; discriminate|].
    change (unsplit sep (x :: z :: Z)) with (x ++ sep :: unsplit sep (z :: Z))%list.
    rewrite split_app_sep. apply elem_of_app. right. exact IH.
Qed.

Lemma no_line_feed_chars (s : string) :
  forallb (fun c => negb (Ascii.eqb c LF)) (chars s) = true -> LF ∉ chars s.
Proof.
  induction (chars s) as [|c l IH]; simpl; intros H Hin.
  - inversion Hin.
  - apply andb_prop in H as [Hc Hl]. apply elem_of_cons in Hin as [<-|Hin].
    + rewrite Ascii.eqb_refl in Hc. discriminate.
    + exact (IH Hl Hin).
Qed.

Lemma key_setting_chars (d : string) :
  chars (Templates.key_setting d)
  = (chars ("key            = " ++ dq ++ "state/") ++ chars d ++ chars (".tfstate" ++ dq))%list.
Proof.
  unfold Templates.key_setting. rewrite !chars_app. rewrite <- !app_assoc. reflexivity.
Qed.

Lemma key_line_no_line_feed (d : string) :
  LF ∉ chars d -> LF ∉ (key_indent ++ chars (Templates.key_setting d))%list.
Proof.
  intros Hd Hin. rewrite key_setting_chars in Hin.
  apply elem_of_app in Hin as [Hin|Hin].
  { revert Hin. apply (no_line_feed_chars "        "). reflexivity. }
  apply elem_of_app in Hin as [Hin|Hin].
  { revert Hin. apply (no_line_feed_chars ("key            = " ++ dq ++ "state/")). reflexivity. }
  apply elem_of_app in Hin as [Hin|Hin]; [exact (Hd Hin)|].
  revert Hin. apply (no_line_feed_chars (".tfstate" ++ dq)). reflexivity.
Qed.

(** The text of a line that survives [dedent] survives [strip] as well
    when it starts and ends with characters that are not white space. *)
Lemma rendered_keeps (content : string) (A K B : list ascii) c K' c' K'' :
  chars content = (A ++ K ++ B)%list ->
  K = c :: K' -> isspace c = false ->
  rev K = c' :: K'' -> isspace c' = false ->
  contains_chars K (chars (Templates.rendered content)) = true.
Proof.
  intros Hcontent HK Hc HrevK Hc'.
  unfold Templates.rendered, strip. rewrite chars_app, chars_of_chars, Hcontent.
  destruct (lstrip_keeps A K B c K' HK Hc) as [A' ->].
  destruct (rstrip_keeps A' K B c' K'' HrevK Hc') as [B' ->].
  rewrite <- !app_assoc. apply contains_chars_app.
Qed.

(** For a device id without line feed the provider file holds the line
    [key = "state/<device_id>.tfstate"]. *)
Lemma provider_file_key (cfg : Config) (d : string) :
  LF ∉ chars d ->
  contains (Templates.key_setting d)
           (Templates.rendered (dedent (Templates.provider_tf_raw cfg d))) = true.
Proof.
  intros Hd. set (K := chars (Templates.key_setting d)).
  assert (Hline : (key_indent ++ K)%list
                  ∈ map blank_line (split LF (chars (Templates.provider_tf_raw cfg d)))).
  { unfold Templates.provider_tf_raw. rewrite chars_join.
    assert (Hb : blank_line (key_indent ++ K) = (key_indent ++ K)%list).
    { unfold blank_line. rewrite forallb_app. subst K. rewrite key_setting_chars.
      simpl. reflexivity. }
    rewrite <- Hb. apply list_elem_of_fmap_2.
    set (X := map chars
                [ "";
                  "    terraform {";
                  "      required_version = " ++ dq ++ ">= 1.1.0" ++ dq;
                  "";
                  "      backend " ++ dq ++ "s3" ++ dq ++ " {";
                  "        bucket         = " ++ dq ++ fmt_opt (TF_STATE_BUCKET cfg) ++ dq ]).
    set (Y := map chars
                [ "        region         = " ++ dq ++ AWS_REGION cfg ++ dq;
                  "        dynamodb_table = " ++ dq ++ fmt_opt (DYNAMO_TABLE cfg) ++ dq;
                  "        encrypt        = true";
                  "      }";
                  "    }";
                  "";
                  "    provider " ++ dq ++ "aws" ++ dq ++ " {";
                  "      region = " ++ dq ++ AWS_REGION cfg ++ dq;
                  "    }";
                  "    " ]).
    assert (Hsplit : (key_indent ++ K)%list
                     ∈ split LF (unsplit LF (X ++ (key_indent ++ K)%list :: Y)))
      by (apply split_unsplit_piece, key_line_no_line_feed, Hd).
    exact Hsplit. }
  assert (Hk : exists c K', K = c :: K' /\ is_blank c = false /\ isspace c = false).
  { subst K. rewrite key_setting_chars. simpl. eexists _, _. repeat split. }
  destruct Hk as (c & K' & HK & Hcb & Hcs).
  assert (Hr : exists c' K'', rev K = c' :: K'' /\ isspace c' = false).
  { subst K. rewrite key_setting_chars, !rev_app_distr. simpl. eexists _, _. repeat split. }
  destruct Hr as (c' & K'' & HrevK & Hcs').
  set (lines := map blank_line (split LF (chars (Templates.provider_tf_raw cfg d)))) in *.
  set (g := match margin_loop None lines with
            | Some (x :: m) => remove_margin (x :: m)
            | _ => fun l => l
            end).
  destruct (dedent_line_keeps lines key_indent K c K' HK Hcb eq_refl Hline g eq_refl)
    as [pre Hpre].
  assert (Hded : dedent_chars (chars (Templates.provider_tf_raw cfg d)) = unsplit LF (map g lines)).
  { unfold dedent_chars. fold lines. subst g.
    destruct (margin_loop None lines) as [[|x m]|]; rewrite ?map_id; reflexivity. }
  apply list_elem_of_split in Hline as (L1 & L2 & HL).
  rewrite HL, map_app, map_cons, Hpre in Hded.
  destruct (unsplit_piece LF (map g L1) (pre ++ K) (map g L2)) as (A & B & HAB).
  rewrite HAB in Hded.
  unfold contains. fold K.
  apply (rendered_keeps _ (A ++ pre) K B c K' c' K''); auto.
  unfold dedent. rewrite chars_of_chars, Hded, <- !app_assoc. reflexivity.
Qed.

End ProviderFile.

(* ===================================================================== *)
(** * Paths and the file system *)
(* ===================================================================== *)

Section Paths.

Import PyPath.

Lemma components_app_slash (a b : list ascii) :
  map of_chars (PyText.split slash (a ++ slash :: b))
  = (map of_chars (PyText.split slash a) ++ map of_chars (PyText.split slash b))%list.
Proof. rewrite split_app_sep, map_app. reflexivity. Qed.

Lemma ends_with_slash_chars (p : string) :
  ends_with_slash p = true -> exists l, chars p = (l ++ [slash])%list.
Proof.
  induction p as [|c p IH]; simpl; [discriminate|].
  destruct p as [|c' p'].
  - intros H. apply Ascii.eqb_eq in H as ->. exists []. reflexivity.
  - intros H. destruct (IH H) as [l Hl]. exists (c :: l). rewrite Hl. reflexivity.
Qed.

Lemma plain_name_components (f : string) :
  plain_name f = true ->
  PyText.split slash (chars f) = [chars f] /\ starts_with_slash f = false
  /\ forall st, step st f = (st ++ [f])%list.
Proof.
  unfold plain_name. intros H.
  apply andb_prop in H as [H Hslash]. apply andb_prop in H as [He Hd].
  assert (Hnot : slash ∉ chars f).
  { clear He Hd. induction (chars f) as [|c l IH]; simpl in *; intros Hin.
    - inversion Hin.
    - apply andb_prop in Hslash as [Hc Hl]. apply elem_of_cons in Hin as [<-|Hin].
      + rewrite Ascii.eqb_refl in Hc. discriminate.
      + exact (IH Hl Hin). }
  split; [apply split_no_sep, Hnot|]. split.
  - destruct f as [|c f]; [reflexivity|]. simpl.
    destruct (Ascii.eqb_spec c slash) as [->|]; [|reflexivity].
    exfalso. apply Hnot. left.
  - intros st. unfold step.
    destruct (String.eqb f ""); [discriminate|].
    destruct (String.eqb f "."); [discriminate|]. reflexivity.
Qed.

(** Joining a file name to a directory path names the entry of that name
    in the directory. *)
Lemma resolve_join cwd (path f : string) :
  path <> "" -> plain_name f = true ->
  resolve cwd (join path f) = (resolve cwd path ++ [f])%list.
Proof.
  intros Hpath Hf. destruct (plain_name_components f Hf) as (Hsplit & Hstart & Hstep).
  unfold join. rewrite Hstart.
  destruct (String.eqb_spec path "") as [->|_]; [contradiction|]. simpl.
  assert (Hs : forall x, starts_with_slash (path ++ x) = starts_with_slash path).
  { intros x. destruct path; [contradiction|]. reflexivity. }
  destruct (ends_with_slash path) eqn:Hends.
  - destruct (ends_with_slash_chars _ Hends) as [l Hl].
    unfold resolve, components. rewrite Hs, chars_app, Hl, <- app_assoc.
    change ([slash] ++ chars f)%list with (slash :: chars f).
    change (l ++ [slash])%list with (l ++ slash :: [])%list.
    rewrite !components_app_slash, Hsplit, !fold_left_app.
    cbn [map fold_left PyText.split]. rewrite of_chars_chars, Hstep. reflexivity.
  - unfold resolve, components. rewrite Hs, !chars_app.
    change (chars "/" ++ chars f)%list with (slash :: chars f).
    rewrite components_app_slash, Hsplit, fold_left_app.
    cbn [map fold_left]. rewrite of_chars_chars, Hstep. reflexivity.
Qed.

End Paths.

Section FileSystem.

Import FS.

Lemma ancestors_and_self_prefix (dir a : list string) :
  a ∈ ancestors_and_self dir -> a `prefix_of` dir /\ a <> [].
Proof.
  revert a. induction dir as [|c dir IH]; simpl; intros a Ha.
  - inversion Ha.
  - apply elem_of_cons in Ha as [->|Ha].
    + split; [|discriminate]. exists dir. reflexivity.
    + apply list_elem_of_fmap in Ha as (a' & -> & Ha').
      destruct (IH _ Ha') as [Hp _]. split; [|discriminate].
      apply prefix_cons, Hp.
Qed.

Lemma ancestors_and_self_self (dir : list string) :
  dir <> [] -> dir ∈ ancestors_and_self dir.
Proof.
  induction dir as [|c dir IH]; [contradiction|]. intros _. simpl.
  destruct dir as [|c' dir'].
  - left.
  - right. apply list_elem_of_fmap. exists (c' :: dir'). split; [reflexivity|].
    apply IH. discriminate.
Qed.

Lemma lookup_make_dirs (fs : gmap (list string) Node) (l : list (list string)) k :
  foldr (λ d m, <[d := Dir]> m) fs l !! k
  = if decide (k ∈ l) then Some Dir else fs !! k.
Proof.
  induction l as [|d l IH]; simpl.
  - destruct (decide (k ∈ [])) as [H|_]; [inversion H | reflexivity].
  - destruct (decide (d = k)) as [->|Hne].
    + rewrite lookup_insert_eq. destruct (decide (k ∈ k :: l)) as [_|H]; [reflexivity|].
      exfalso. apply H. left.
    + rewrite lookup_insert_ne by exact Hne. rewrite IH.
      destruct (decide (k ∈ l)) as [Hin|Hnin].
      * destruct (decide (k ∈ d :: l)) as [_|H]; [reflexivity|]. exfalso. apply H. right. exact Hin.
      * destruct (decide (k ∈ d :: l)) as [H|_]; [|reflexivity].
        apply elem_of_cons in H as [->|H]; [contradiction Hne; reflexivity | contradiction].
Qed.

Lemma rmtree_ret (fs fs' : gmap (list string) Node) dir :
  rmtree fs dir = inr fs' ->
  (forall k, dir `prefix_of` k -> fs' !! k = None)
  /\ (forall k, ~ dir `prefix_of` k -> fs' !! k = fs !! k).
Proof.
  unfold rmtree. destruct (node_at fs dir) as [[c|]|]; try discriminate.
  intros [= <-]. split; intros k Hk.
  - apply map_lookup_filter_None. right. intros n _ Hp. exact (Hp Hk).
  - destruct (fs !! k) as [n|] eqn:E.
    + apply map_lookup_filter_Some. split; [exact E | exact Hk].
    + apply map_lookup_filter_None. left. exact E.
Qed.

Lemma makedirs_ret (fs fs' : gmap (list string) Node) dir :
  makedirs fs dir = inr fs' ->
  node_at fs' dir = Some Dir
  /\ (forall k, ~ k `prefix_of` dir -> fs' !! k = fs !! k).
Proof.
  unfold makedirs. destruct (existsb _ _); [discriminate|]. intros [= <-]. split.
  - destruct dir as [|c dir]; [reflexivity|]. unfold node_at.
    rewrite lookup_make_dirs.
    destruct (decide (c :: dir ∈ ancestors_and_self (c :: dir))) as [_|H]; [reflexivity|].
    exfalso. apply H, ancestors_and_self_self. discriminate.
  - intros k Hk. rewrite lookup_make_dirs.
    destruct (decide (k ∈ ancestors_and_self dir)) as [Hin|_]; [|reflexivity].
    exfalso. apply Hk. apply ancestors_and_self_prefix, Hin.
Qed.

Lemma write_file_ret (fs fs' : gmap (list string) Node) k content :
  write_file fs k content = inr fs' -> fs' = <[k := File content]> fs.
Proof.
  unfold write_file. destruct k as [|c k]; [discriminate|].
  destruct (node_at fs (removelast (c :: k))) as [[?|]|]; try discriminate.
  destruct (fs !! (c :: k)) as [[?|]|]; try discriminate; intros [= <-]; reflexivity.
Qed.

End FileSystem.

(* ===================================================================== *)
(** * The workspace builder *)
(* ===================================================================== *)

Section Workspace.

Variable env : Env.

Lemma fs_call_ret op w w' :
  fs_call env op w = (Ret tt, w') -> op (w_fs w) = inr (w_fs w').
Proof.
  unfold fs_call. destruct (env_fs_fault env (w_tick w)); [discriminate|].
  destruct (op (w_fs w)); [discriminate|]. intros [= <-]. reflexivity.
Qed.

Lemma write_text_ret path f content w w' :
  path <> "" -> PyPath.plain_name f = true ->
  write_text env (PyPath.join path f) content w = (Ret tt, w') ->
  w_fs w' = <[(loc env path ++ [f])%list := FS.File content]> (w_fs w).
Proof.
  intros Hpath Hf Hrun. apply fs_call_ret in Hrun.
  apply write_file_ret in Hrun. unfold loc in *.
  rewrite resolve_join in Hrun by assumption. exact Hrun.
Qed.

(** X29. When [generate_root_terraform_files] returns, for a target
    path without [.] or [..] components on a tree-shaped file system,
    the target directory exists and the entries below it are exactly the
    four files [main.tf], [variables.tf], [outputs.tf] and [provider.tf]
    with the generated contents, whatever the directory held before; the
    rest of the file system is as it was, apart from the directories
    leading to the target. For a device id without line feed the
    provider file contains the text [key = "state/<device_id>.tfstate"]. *)
Theorem generate_root_terraform_files_workspace device_id instance_name path w w' :
  PyPath.plain path ->
  FS.wf (w_fs w) ->
  generate_root_terraform_files env device_id instance_name path w = (Ret tt, w') ->
  let dir := loc env path in
  let files := Templates.files (config env) device_id instance_name in
  FS.node_at (w_fs w') dir = Some FS.Dir
  /\ (forall k, FS.below dir k -> w_fs w' !! k = workspace_entries dir files !! k)
  /\ size (workspace_entries dir files) = 4%nat
  /\ map fst files = ["main.tf"; "variables.tf"; "outputs.tf"; "provider.tf"]
  /\ (forall k, ~ dir `prefix_of` k -> ~ k `prefix_of` dir -> w_fs w' !! k = w_fs w !! k)
  /\ (LF ∉ chars device_id ->
      exists content,
        w_fs w' !! (dir ++ ["provider.tf"])%list = Some (FS.File content)
        /\ PyText.contains (Templates.key_setting device_id) content = true).
Proof.
  intros _ Hwf Hrun dir files.
  unfold generate_root_terraform_files in Hrun.
  apply bind_inv in Hrun as [(present & w0 & Hex & Hrun) | (e & Hex & _)];
    [|discriminate Hex].
  unfold os_path_exists in Hex. injection Hex as <- <-.
  apply bind_inv in Hrun as [([] & w1 & Hrm & Hrun) | (e & _ & Hr)]; [|discriminate Hr].
  apply bind_inv in Hrun as [([] & w2 & Hmk & Hrun) | (e & _ & Hr)]; [|discriminate Hr].
  apply fs_call_ret in Hmk.
  destruct (String.eqb_spec path "") as [->|Hpath]; [discriminate Hmk|].
  apply makedirs_ret in Hmk as [Hdir Hmk]. fold dir in Hdir, Hmk.
  (* nothing is left below the directory before the files are written *)
  assert (Hclean : (forall k, FS.below dir k -> w_fs w1 !! k = None)
                   /\ (forall k, ~ dir `prefix_of` k -> w_fs w1 !! k = w_fs w !! k)).
  { simpl in Hrm. fold dir in Hrm.
    destruct (bool_decide (is_Some (FS.node_at (w_fs w) dir))) eqn:Hpresent.
    - apply fs_call_ret, rmtree_ret in Hrm as [Hgone Hkept].
      split; [intros k [Hk _]; auto | exact Hkept].
    - injection Hrm as <-. split; [|reflexivity].
      apply bool_decide_eq_false in Hpresent.
      intros k Hk. destruct (w_fs w !! k) as [n|] eqn:E; [|reflexivity].
      exfalso. apply Hpresent.
      destruct dir as [|c dir']; [eexists; reflexivity|].
      exists FS.Dir. apply (Hwf k n (c :: dir') E Hk). discriminate. }
  destruct Hclean as [Hgone Hkept].
  (* the four writes *)
  unfold Templates.files in Hrun. cbn [write_files] in Hrun.
  apply bind_inv in Hrun as [([] & w3 & Hw1 & Hrun) | (e & _ & Hr)]; [|discriminate Hr].
  apply bind_inv in Hrun as [([] & w4 & Hw2 & Hrun) | (e & _ & Hr)]; [|discriminate Hr].
  apply bind_inv in Hrun as [([] & w5 & Hw3 & Hrun) | (e & _ & Hr)]; [|discriminate Hr].
  apply bind_inv in Hrun as [([] & w6 & Hw4 & Hrun) | (e & _ & Hr)]; [|discriminate Hr].
  injection Hrun as <-.
  apply write_text_ret in Hw1, Hw2, Hw3, Hw4; try assumption; try reflexivity.
  fold dir in Hw1, Hw2, Hw3, Hw4.
  assert (Hfs : forall k,
             w_fs w6 !! k
             = if decide (k = (dir ++ ["provider.tf"])%list) then
                 Some (FS.File (Templates.rendered
                                  (PyText.dedent (Templates.provider_tf_raw (config env) device_id))))
               else (workspace_entries dir files ∪ w_fs w2) !! k).
  { intros k. rewrite Hw4, Hw3, Hw2, Hw1. unfold workspace_entries, files, Templates.files.
    cbn [map list_to_map foldr fst snd uncurry].
    rewrite !lookup_insert. rewrite lookup_union, !lookup_insert, lookup_empty.
    repeat case_decide; simplify_eq; try reflexivity.
    all: try (destruct (w_fs w2 !! _); reflexivity). }
  split; [|split; [|split; [|split; [|split]]]].
  - destruct dir as [|c dir'] eqn:Edir; [reflexivity|].
    unfold FS.node_at. rewrite Hfs.
    case_decide as Hk; [apply (f_equal length) in Hk; rewrite length_app in Hk; simpl in Hk; lia|].
    rewrite lookup_union_r; [exact Hdir|].
    unfold workspace_entries, files, Templates.files.
    cbn [map list_to_map foldr fst snd uncurry].
    rewrite !lookup_insert, lookup_empty.
    repeat case_decide; try reflexivity;
      match goal with
      | H : (_ ++ _)%list = _ |- _ =>
          apply (f_equal length) in H; rewrite length_app in H; simpl in H; lia
      end.
  - intros k Hk. rewrite Hfs.
    case_decide as Hkey.
    + subst k. unfold workspace_entries, files, Templates.files.
      cbn [map list_to_map foldr fst snd uncurry].
      rewrite !lookup_insert. repeat case_decide; simplify_eq; reflexivity.
    + rewrite lookup_union.
      assert (Hnone : w_fs w2 !! k = None).
      { rewrite Hmk; [apply Hgone, Hk|]. intros Hp. destruct Hk as [Hk Hne].
        apply Hne. apply (anti_symm prefix); assumption. }
      rewrite Hnone. destruct (workspace_entries dir files !! k); reflexivity.
  - unfold workspace_entries, files, Templates.files.
    cbn [map list_to_map foldr fst snd uncurry].
    rewrite !map_size_insert_None, map_size_empty; [reflexivity| |  | |];
      rewrite ?lookup_insert, ?lookup_empty; repeat case_decide; simplify_eq; reflexivity.
  - reflexivity.
  - intros k Hnp Hnp'. rewrite Hfs.
    case_decide as Hkey; [exfalso; apply Hnp; subst k; apply prefix_app_r; reflexivity|].
    rewrite lookup_union_r.
    + rewrite Hmk by exact Hnp'. apply Hkept, Hnp.
    + unfold workspace_entries, files, Templates.files.
      cbn [map list_to_map foldr fst snd uncurry].
      rewrite !lookup_insert, lookup_empty.
      repeat case_decide; try reflexivity;
        exfalso; apply Hnp; subst k; apply prefix_app_r; reflexivity.
  - intros Hlf. eexists. split.
    + rewrite Hfs. rewrite decide_True by reflexivity. reflexivity.
    + apply provider_file_key, Hlf.
Qed.

End Workspace.

(** C8. The remote-state key is not always [state/<device_id>.tfstate]:
    for the device id of two lines [a] and [ b] the builder returns and
    the provider file it writes does not contain the key setting of
    that id. [dedent] is applied after the substitution, takes the
    single blank before [b] as the common margin and removes it, so the
    file holds [state/a], a line feed and [b.tfstate]: the blank that
    belongs to the device id is gone. *)
Lemma provider_file_key_garbled :
  let path := PyPath.join (TERRAFORM_ROOT (config env_ok)) two_line_id in
  let run := generate_root_terraform_files env_ok two_line_id "web1" path world0 in
  run.1 = Ret tt
  /\ exists content,
      w_fs run.2 !! ["app"; "terraform_templates"; two_line_id; "provider.tf"]
      = Some (FS.File content)
      /\ PyText.contains (Templates.key_setting two_line_id) content = false
      /\ PyText.contains ("state/a" ++ nl ++ "b.tfstate") content = true.
Proof.
  split; [vm_compute; reflexivity|].
  eexists. split; [vm_compute; reflexivity|].
  split; vm_compute; reflexivity.
Qed.

Section FileSystemChecks.

Import FS.

Lemma prefix_ancestors_and_self (k a : list string) :
  a `prefix_of` k -> a <> [] -> a ∈ ancestors_and_self k.
Proof.
  revert a. induction k as [|c k IH]; intros a [rest Hrest] Ha.
  - destruct a; [contradiction | discriminate].
  - destruct a as [|c' a]; [contradiction|]. injection Hrest as <- Hk. simpl.
    destruct a as [|c'' a'].
    + left.
    + right. apply list_elem_of_fmap. exists (c'' :: a'). split; [reflexivity|].
      apply IH; [exists rest; exact Hk | discriminate].
Qed.

Lemma wf_b_true (fs : gmap (list string) Node) : wf_b fs = true -> wf fs.
Proof.
  unfold wf_b. intros H k n a Hk [Hp Hne] Ha.
  rewrite forallb_forall in H.
  assert (Hin : In (k, n) (map_to_list fs)).
  { apply list_elem_of_In, elem_of_map_to_list. exact Hk. }
  specialize (H _ Hin). simpl in H. rewrite forallb_forall in H.
  specialize (H a). 
  assert (Ha' : In a (ancestors_and_self k)).
  { apply list_elem_of_In, prefix_ancestors_and_self; assumption. }
  specialize (H Ha'). apply orb_prop in H as [H|H].
  - apply bool_decide_eq_true in H. subst a. contradiction Hne; reflexivity.
  - destruct (fs !! a) as [[?|]|]; try discriminate. reflexivity.
Qed.

End FileSystemChecks.

Section TreeShape.

Import FS.

Lemma rmtree_wf (fs fs' : gmap (list string) Node) dir :
  wf fs -> rmtree fs dir = inr fs' -> wf fs'.
Proof.
  intros Hwf Hrm. apply rmtree_ret in Hrm as [Hgone Hkept].
  intros k n a Hk Hbelow Ha.
  assert (Hnp : ~ dir `prefix_of` k).
  { intros Hp. rewrite (Hgone _ Hp) in Hk. discriminate. }
  rewrite Hkept in Hk by exact Hnp.
  rewrite Hkept.
  - exact (Hwf k n a Hk Hbelow Ha).
  - intros Hp. apply Hnp. etrans; [exact Hp | apply Hbelow].
Qed.

Lemma makedirs_wf (fs fs' : gmap (list string) Node) dir :
  wf fs -> makedirs fs dir = inr fs' -> wf fs'.
Proof.
  unfold makedirs. intros Hwf. destruct (existsb _ _); [discriminate|]. intros [= <-].
  intros k n a Hk Hbelow Ha. rewrite lookup_make_dirs in *.
  destruct (decide (a ∈ ancestors_and_self dir)) as [_|Hout]; [reflexivity|].
  destruct (decide (k ∈ ancestors_and_self dir)) as [Hin|_].
  - exfalso. apply Hout. apply prefix_ancestors_and_self; [|exact Ha].
    etrans; [apply Hbelow | apply ancestors_and_self_prefix, Hin].
  - exact (Hwf k n a Hk Hbelow Ha).
Qed.

Lemma below_removelast (a k : list string) :
  below a k -> a `prefix_of` removelast k.
Proof.
  intros [[rest ->] Hne].
  destruct rest as [|c rest]; [rewrite app_nil_r in Hne; contradiction|].
  rewrite removelast_app by discriminate. apply prefix_app_r. reflexivity.
Qed.

Lemma write_file_wf (fs fs' : gmap (list string) Node) k content :
  wf fs -> write_file fs k content = inr fs' -> wf fs'.
Proof.
  intros Hwf Hw. unfold write_file in Hw.
  destruct k as [|c0 k0] eqn:Ek; [discriminate|]. rewrite <- Ek in *.
  destruct (node_at fs (removelast k)) as [[?|]|] eqn:Hparent; try discriminate.
  assert (Hnd : fs !! k <> Some Dir).
  { intros H. rewrite H in Hw. discriminate. }
  assert (Hfs' : fs' = <[k := File content]> fs).
  { destruct (fs !! k) as [[?|]|]; try (injection Hw as <-; reflexivity).
    contradiction Hnd; reflexivity. }
  subst fs'. clear Hw.
  intros k' n a Hk' Hbelow Ha.
  destruct (decide (a = k)) as [->|Hak].
  - exfalso. apply Hnd.
    rewrite lookup_insert_ne in Hk' by (intros ->; apply Hbelow; reflexivity).
    apply (Hwf k' n k Hk' Hbelow). rewrite Ek. discriminate.
  - rewrite lookup_insert_ne by congruence.
    destruct (decide (k' = k)) as [->|Hk'k].
    + pose proof (below_removelast _ _ Hbelow) as Hp.
      remember (removelast k) as p eqn:Ep.
      destruct (decide (a = p)) as [->|Hne].
      * destruct p; [exfalso; apply Ha; reflexivity | exact Hparent].
      * destruct p as [|c1 p1].
        -- destruct Hp as [rest Hrest]. destruct a; [exfalso; apply Ha; reflexivity | discriminate].
        -- apply (Hwf (c1 :: p1) Dir a Hparent); [split; [exact Hp | congruence] | exact Ha].
    + rewrite lookup_insert_ne in Hk' by congruence.
      exact (Hwf k' n a Hk' Hbelow Ha).
Qed.

End TreeShape.

Section TreeShapeKept.

Variable env : Env.

Lemma preserves_fs_wf_call op :
  (forall fs fs', FS.wf fs -> op fs = inr fs' -> FS.wf fs') ->
  preserves (fun w => FS.wf (w_fs w)) (fs_call env op).
Proof.
  intros Hop w r w' Hrun Hwf. unfold fs_call in Hrun.
  destruct (env_fs_fault env (w_tick w)); [injection Hrun as <- <-; exact Hwf|].
  destruct (op (w_fs w)) as [e|f] eqn:E; injection Hrun as <- <-; [exact Hwf|].
  simpl. eapply Hop; eauto.
Qed.

(** The workspace builder keeps the file system tree-shaped, whether it
    returns or raises. *)
Lemma generate_root_terraform_files_fs_wf device_id instance_name path :
  preserves (fun w => FS.wf (w_fs w))
            (generate_root_terraform_files env device_id instance_name path).
Proof.
  unfold generate_root_terraform_files.
  apply preserves_bind.
  { intros w r w' [= <- <-] H. exact H. }
  intros present. apply preserves_bind.
  { destruct present; [|apply preserves_ret].
    apply preserves_fs_wf_call. intros fs fs'. apply rmtree_wf. }
  intros _. apply preserves_bind.
  { apply preserves_fs_wf_call. intros fs fs' Hwf.
    destruct (String.eqb path ""); [discriminate|]. apply makedirs_wf, Hwf. }
  intros _. generalize (Templates.files (config env) device_id instance_name).
  intros files. induction files as [|[name content] files IH]; simpl.
  - apply preserves_ret.
  - apply preserves_bind; [|intros _; exact IH].
    apply preserves_fs_wf_call. intros fs fs'. apply write_file_wf.
Qed.

End TreeShapeKept.

Section WorkspaceReturns.

Import FS.

Variable env : Env.

Hypothesis no_fs_fault : forall t, env_fs_fault env t = None.

Lemma fs_call_run op w f :
  op (w_fs w) = inr f -> fs_call env op w = (Ret tt, next_tick (with_fs w f)).
Proof. intros H. unfold fs_call. rewrite no_fs_fault, H. reflexivity. Qed.

Lemma node_at_insert_child (fs : gmap (list string) Node) dir f n :
  node_at (<[(dir ++ [f])%list := n]> fs) dir = node_at fs dir.
Proof.
  destruct dir as [|c dir]; [reflexivity|]. unfold node_at.
  apply lookup_insert_ne. intros H. apply (f_equal length) in H.
  rewrite length_app in H. simpl in H. lia.
Qed.

Lemma write_file_child (fs : gmap (list string) Node) dir f content :
  node_at fs dir = Some Dir ->
  fs !! (dir ++ [f])%list <> Some Dir ->
  write_file fs (dir ++ [f]) content = inr (<[(dir ++ [f])%list := File content]> fs).
Proof.
  intros Hdir Hkey. unfold write_file.
  destruct (dir ++ [f])%list as [|c k] eqn:E; [destruct dir; discriminate|].
  rewrite <- E, removelast_last, Hdir.
  destruct (fs !! (dir ++ [f])%list) as [[?|]|] eqn:E'; try reflexivity.
  exfalso. apply Hkey. rewrite <- E. exact E'.
Qed.

Lemma write_files_returns path (files : list (string * string)) :
  path <> "" ->
  Forall (fun f => PyPath.plain_name f.1 = true) files ->
  forall w,
    node_at (w_fs w) (loc env path) = Some Dir ->
    Forall (fun f => w_fs w !! (loc env path ++ [f.1])%list <> Some Dir) files ->
    exists w', write_files env path files w = (Ret tt, w').
Proof.
  intros Hpath Hnames. induction Hnames as [|[name content] files Hname _ IH];
    intros w Hdir Hfree; simpl.
  - eexists. reflexivity.
  - inversion Hfree as [|? ? Hfirst Hrest]; subst. simpl in *.
    unfold mbind, M_bind, write_text.
    rewrite (fs_call_run _ w (<[(loc env path ++ [name])%list := File (Templates.rendered content)]>
                                (w_fs w))).
    2:{ unfold loc in *. rewrite resolve_join by assumption.
        apply write_file_child; assumption. }
    apply IH; simpl.
    + rewrite node_at_insert_child. exact Hdir.
    + eapply List.Forall_impl; [|exact Hrest]. simpl. intros f Hf.
      rewrite lookup_insert. case_decide; [discriminate | exact Hf].
Qed.

(** Without file-system faults the workspace builder returns whenever no
    regular file stands where the target directory or one of the
    directories leading to it should be. *)
Lemma generate_root_terraform_files_returns device_id instance_name path w :
  path <> "" ->
  wf (w_fs w) ->
  (forall a, a ∈ ancestors_and_self (loc env path) -> is_file (w_fs w) a = false) ->
  exists w', generate_root_terraform_files env device_id instance_name path w = (Ret tt, w').
Proof.
  intros Hpath Hwf Hnofile. set (dir := loc env path) in *.
  unfold generate_root_terraform_files, mbind, M_bind, os_path_exists.
  destruct (String.eqb_spec path "") as [->|_]; [contradiction|]. cbn [negb andb].
  fold dir.
  (* the world after the optional rmtree *)
  assert (Hstep1 : exists w1,
             (if bool_decide (is_Some (node_at (w_fs w) dir))
              then shutil_rmtree env path else mret ()) w = (Ret tt, w1)
             /\ (forall k, below dir k -> w_fs w1 !! k = None)
             /\ (forall a, a ∈ ancestors_and_self dir -> is_file (w_fs w1) a = false)).
  { destruct (bool_decide (is_Some (node_at (w_fs w) dir))) eqn:Hpresent.
    - apply bool_decide_eq_true in Hpresent as [n Hn].
      assert (Hn' : node_at (w_fs w) dir = Some Dir).
      { destruct n as [c|]; [|exact Hn]. exfalso.
        destruct dir as [|c0 dir'] eqn:E; [discriminate Hn|].
        specialize (Hnofile (c0 :: dir')). unfold is_file in Hnofile. rewrite Hn in Hnofile.
        discriminate Hnofile. apply ancestors_and_self_self. discriminate. }
      assert (Hrm : rmtree (w_fs w) dir
                    = inr (filter (λ kv, ¬ (dir `prefix_of` kv.1)) (w_fs w))).
      { unfold rmtree. rewrite Hn'. reflexivity. }
      eexists. split; [apply fs_call_run; exact Hrm|]. simpl.
      apply rmtree_ret in Hrm as [Hgone Hkept]. split.
      + intros k [Hk _]. auto.
      + intros a Ha. unfold is_file.
        destruct a as [|c a']; [reflexivity|]. unfold node_at.
        destruct (decide (dir `prefix_of` c :: a')) as [Hp|Hp].
        * rewrite Hgone by exact Hp. reflexivity.
        * rewrite Hkept by exact Hp. specialize (Hnofile _ Ha). exact Hnofile.
    - apply bool_decide_eq_false in Hpresent.
      eexists. split; [reflexivity|]. split; [|exact Hnofile].
      intros k Hk. destruct (w_fs w !! k) as [n|] eqn:E; [|reflexivity].
      exfalso. apply Hpresent.
      destruct dir as [|c dir']; [eexists; reflexivity|].
      exists Dir. apply (Hwf k n (c :: dir') E Hk). discriminate. }
  destruct Hstep1 as (w1 & -> & Hgone & Hnofile1).
  (* makedirs *)
  assert (Hmk : makedirs (w_fs w1) dir
                = inr (foldr (λ d m, <[d := Dir]> m) (w_fs w1) (ancestors_and_self dir))).
  { unfold makedirs.
    destruct (existsb (is_file (w_fs w1)) (ancestors_and_self dir)) eqn:Hex; [|reflexivity].
    apply existsb_exists in Hex as (a & Ha & Hfile).
    apply list_elem_of_In in Ha. rewrite (Hnofile1 _ Ha) in Hfile. discriminate. }
  unfold os_makedirs.
  rewrite (fs_call_run _ w1 (foldr (λ d m, <[d := Dir]> m) (w_fs w1) (ancestors_and_self dir))).
  2:{ destruct (String.eqb_spec path "") as [->|_]; [contradiction | exact Hmk]. }
  apply makedirs_ret in Hmk as [Hdir Hsame].
  apply write_files_returns.
  - exact Hpath.
  - unfold Templates.files. repeat constructor.
  - exact Hdir.
  - assert (Hfree : forall f, foldr (λ d m, <[d := Dir]> m) (w_fs w1) (ancestors_and_self dir)
                                !! (dir ++ [f])%list <> Some Dir).
    { intros f. rewrite Hsame.
      - rewrite Hgone; [discriminate|]. split; [apply prefix_app_r; reflexivity|].
        intros H. apply (f_equal length) in H. rewrite length_app in H. simpl in H. lia.
      - intros [rest H]. apply (f_equal length) in H. rewrite !length_app in H.
        simpl in H. lia. }
    unfold Templates.files. repeat constructor; apply Hfree.
Qed.

End WorkspaceReturns.

(** The stale workspace of device 42 is wiped: after the call the old
    state file is gone, [main.tf] is the generated one, and the provider
    file names the state of device 42. *)
Lemma generate_root_terraform_files_workspace_witness :
  let run := generate_root_terraform_files env_ok "42" "web1" "/app/terraform_templates/42"
                                           world_stale in
  run.1 = Ret tt
  /\ w_fs run.2 !! ["app"; "terraform_templates"; "42"; ".terraform"; "terraform.tfstate"] = None
  /\ w_fs run.2 !! ["app"; "terraform_templates"; "42"; ".terraform"] = None
  /\ (exists content,
         w_fs run.2 !! ["app"; "terraform_templates"; "42"; "provider.tf"]
         = Some (FS.File content)
         /\ PyText.contains (Templates.key_setting "42") content = true).
Proof.
  intros run.
  assert (Hret : run.1 = Ret tt) by (vm_compute; reflexivity).
  assert (Hplain : PyPath.plain "/app/terraform_templates/42").
  { split; intros H; vm_compute in H;
      repeat (apply elem_of_cons in H as [H|H]; [discriminate H|]); inversion H. }
  assert (Hwf : FS.wf (w_fs world_stale)) by (apply wf_b_true; vm_compute; reflexivity).
  destruct (generate_root_terraform_files_workspace env_ok "42" "web1"
              "/app/terraform_templates/42" world_stale run.2 Hplain Hwf
              (run_eq _ _ _ Hret))
    as (_ & Hbelow & _ & _ & _ & Hkey).
  split; [exact Hret|]. split; [|split].
  - rewrite Hbelow; [vm_compute; reflexivity|].
    split; [exists [".terraform"; "terraform.tfstate"]; vm_compute; reflexivity|].
    intros H. vm_compute in H. discriminate H.
  - rewrite Hbelow; [vm_compute; reflexivity|].
    split; [exists [".terraform"]; vm_compute; reflexivity|].
    intros H. vm_compute in H. discriminate H.
  - apply Hkey. intros H. vm_compute in H.
    repeat (apply elem_of_cons in H as [H|H]; [discriminate H|]). inversion H.
Defined.

(* ===================================================================== *)
(** * The status store: invariant, isolation, deletion *)
(* ===================================================================== *)

Section StoreInvariant.

Import Db.

Variable env : Env.

Lemma rows_of_delete_tx s rid rid' :
  rows_of (delete_tx s rid) rid' = if rid' =? rid then [] else rows_of s rid'.
Proof.
  unfold rows_of, delete_tx. simpl.
  induction (request_status_logs s) as [|r rows IH]; simpl.
  - destruct (rid' =? rid); reflexivity.
  - destruct (Z.eqb_spec (request_id r) rid) as [Hr|Hr]; simpl.
    + rewrite IH. destruct (Z.eqb_spec rid' rid) as [->|Hne]; [reflexivity|].
      destruct (Z.eqb_spec (request_id r) rid'); [congruence | reflexivity].
    + destruct (Z.eqb_spec (request_id r) rid') as [Hr'|Hr']; rewrite IH.
      * destruct (Z.eqb_spec rid' rid); [congruence | reflexivity].
      * reflexivity.
Qed.

Lemma primary_key_unique rows r r' :
  NoDup (map log_id rows) -> In r rows -> In r' rows -> log_id r = log_id r' -> r = r'.
Proof.
  induction rows as [|x rows IH]; simpl; [contradiction|].
  intros Hnd Hr Hr' Hk. apply NoDup_cons in Hnd as [Hx Hnd].
  destruct Hr as [<-|Hr], Hr' as [<-|Hr']; auto.
  - exfalso. apply Hx. rewrite Hk. apply list_elem_of_In, in_map, Hr'.
  - exfalso. apply Hx. rewrite <- Hk. apply list_elem_of_In, in_map, Hr.
Qed.

(** A write for one request id leaves the records of the others as they
    are. *)
Lemma log_request_tx_other s rid user st dur err created now db_now rid' :
  wf s -> rid' <> rid ->
  rows_of (log_request_tx s rid user st dur err created now db_now).2 rid' = rows_of s rid'.
Proof.
  intros Hwf Hne. destruct (select_log_id s rid) as [l|] eqn:Hsel.
  - rewrite (log_request_tx_update _ _ _ _ _ _ _ _ _ _ Hwf Hsel). unfold rows_of. simpl.
    rewrite update_rows_filter. apply update_rows_other.
    apply select_log_id_in in Hsel as (r & Hin & Hl & Hrid).
    apply List.Forall_forall. intros r' Hr' Hk.
    apply filter_In in Hr' as [Hin' Hrid']. apply Z.eqb_eq in Hrid'.
    destruct Hwf as [_ _ Hpk].
    assert (r' = r) by (apply (primary_key_unique _ _ _ Hpk Hin' Hin); congruence).
    subst r'. congruence.
  - rewrite (log_request_tx_insert _ _ _ _ _ _ _ _ _ Hsel). unfold rows_of. simpl.
    rewrite List.filter_app. simpl.
    destruct (Z.eqb_spec rid rid'); [congruence|]. apply app_nil_r.
Qed.

Lemma preserves_invariant_log_request rid user st dur err created :
  preserves store_invariant (log_request env rid user st dur err created).
Proof.
  intros w r w' Hrun [Hwf Huniq]. split; [eapply log_request_wf; eauto|].
  destruct r as [k|msg].
  - apply log_request_ret in Hrun as (_ & Htx & _). intros rid'.
    pose proof (log_request_tx_at_most_one (w_db w) rid user st dur err created
                  (env_utcnow env (w_tick w)) (env_db_now env (w_tick w)) rid' Hwf (Huniq rid'))
      as H.
    rewrite Htx in H. exact H.
  - apply log_request_raise in Hrun as [_ ->]. exact Huniq.
Qed.

Lemma preserves_invariant_log_resource l rtype rname rvalue :
  preserves store_invariant (log_resource env l rtype rname rvalue).
Proof.
  intros w r w' Hrun [Hwf Huniq]. destruct r as [[]|msg].
  - apply log_resource_ret in Hrun as (_ & Hdb & _). split.
    + rewrite Hdb. apply log_resource_tx_wf, Hwf.
    + intros rid'. rewrite Hdb. exact (Huniq rid').
  - apply log_resource_raise in Hrun as [_ ->]. split; assumption.
Qed.

Lemma delete_resources_by_request_id_run rid w r w' :
  delete_resources_by_request_id env rid w = (r, w') ->
  (r = Ret tt /\ w_db w' = delete_tx (w_db w) rid)
  \/ ((exists e, r = Raise e) /\ w_db w' = w_db w).
Proof.
  unfold delete_resources_by_request_id, transaction.
  destruct (env_db_fault env (w_tick w)) as [e|]; intros [= <- <-].
  - right. eauto.
  - left. auto.
Qed.

Lemma preserves_invariant_delete rid :
  preserves store_invariant (delete_resources_by_request_id env rid).
Proof.
  intros w r w' Hrun [Hwf Huniq].
  unfold store_invariant.
  apply delete_resources_by_request_id_run in Hrun as [[_ ->]|[_ ->]]; [|split; assumption].
  split; [apply delete_tx_wf, Hwf|].
  intros rid'. rewrite rows_of_delete_tx. destruct (rid' =? rid); [simpl; lia | apply Huniq].
Qed.

(** Both flows keep every property of the store that the status writes
    of their request id and the resource insert keep. *)
Lemma flows_preserve (P : Store -> Prop) device_id instance_name user :
  (forall st dur err created,
      preserves (fun w => P (w_db w))
                (log_request env (normalize_request_id (runtime env) device_id)
                             user st dur err created)) ->
  (forall l rtype rname rvalue,
      preserves (fun w => P (w_db w)) (log_resource env l rtype rname rvalue)) ->
  preserves (fun w => P (w_db w)) (create_server_job env device_id instance_name user)
  /\ preserves (fun w => P (w_db w)) (destroy_server_job env device_id instance_name user).
Proof.
  intros Hlog Hres. split.
  - unfold create_server_job.
    apply preserves_bind; [apply Hlog|]. intros log_id.
    apply preserves_try.
    + unfold create_try.
      apply preserves_bind; [apply preserves_generate; intros w; intros; assumption|].
      intros _. apply preserves_bind.
      { apply preserves_run_terraform_commands; intros w; intros; assumption. }
      intros [[s out] dur]. apply preserves_bind; [apply Hlog|].
      intros _. apply preserves_bind; [|intros _; apply preserves_ret].
      destruct s; [apply Hres | apply preserves_ret].
    + intros e. unfold create_except.
      apply preserves_bind; [apply Hlog|]. intros _. apply preserves_ret.
  - unfold destroy_server_job.
    apply preserves_bind; [apply Hlog|]. intros _.
    apply preserves_try.
    + unfold destroy_try.
      apply preserves_bind.
      { apply preserves_destroy_terraform_resources; intros w; intros; assumption. }
      intros [[s out] dur]. apply preserves_bind; [apply Hlog|].
      intros _. apply preserves_ret.
    + intros e. unfold destroy_except.
      apply preserves_bind; [apply Hlog|]. intros _. apply preserves_ret.
Qed.

(** X3. Whatever the database, the file system and the subprocesses do, a
    run of the create flow, of the destroy flow or of
    [delete_resources_by_request_id], returning or raising, takes a
    store with unique positive keys below the sequence and at most one
    record per request id to such a store. *)
Theorem flows_keep_store_invariant device_id instance_name user rid w :
  store_invariant w ->
  store_invariant (create_server_job env device_id instance_name user w).2
  /\ store_invariant (destroy_server_job env device_id instance_name user w).2
  /\ store_invariant (delete_resources_by_request_id env rid w).2.
Proof.
  intros Hinv.
  destruct (flows_preserve (fun s => wf s /\ unique_requests s) device_id instance_name user)
    as [Hc Hd].
  { intros. apply preserves_invariant_log_request. }
  { intros. apply preserves_invariant_log_resource. }
  split; [|split].
  - eapply Hc; [apply surjective_pairing | exact Hinv].
  - eapply Hd; [apply surjective_pairing | exact Hinv].
  - eapply preserves_invariant_delete; [apply surjective_pairing | exact Hinv].
Qed.

Lemma preserves_others_log_request rid' rows rid user st dur err created :
  rid' <> rid ->
  preserves (fun w => wf (w_db w) /\ rows_of (w_db w) rid' = rows)
            (log_request env rid user st dur err created).
Proof.
  intros Hne w r w' Hrun [Hwf Hrows]. split; [eapply log_request_wf; eauto|].
  destruct r as [k|msg].
  - apply log_request_ret in Hrun as (_ & Htx & _).
    pose proof (log_request_tx_other (w_db w) rid user st dur err created
                  (env_utcnow env (w_tick w)) (env_db_now env (w_tick w)) rid' Hwf Hne) as H.
    rewrite Htx in H. simpl in H. congruence.
  - apply log_request_raise in Hrun as [_ ->]. exact Hrows.
Qed.

Lemma preserves_others_log_resource rid' rows l rtype rname rvalue :
  preserves (fun w => wf (w_db w) /\ rows_of (w_db w) rid' = rows)
            (log_resource env l rtype rname rvalue).
Proof.
  intros w r w' Hrun [Hwf Hrows]. destruct r as [[]|msg].
  - apply log_resource_ret in Hrun as (_ & Hdb & _). rewrite Hdb. split.
    + apply log_resource_tx_wf, Hwf.
    + exact Hrows.
  - apply log_resource_raise in Hrun as [_ ->]. split; assumption.
Qed.

(** X4. A job for one device leaves the records of every other request id
    as they are: whatever fails, the rows of [request_status_logs] whose
    [request_id] differs from the normalized device id are the same
    after a run of the create flow or of the destroy flow, in a store
    whose [log_id] is a primary key. *)
Theorem flows_leave_other_requests device_id instance_name user rid' w :
  wf (w_db w) ->
  rid' <> normalize_request_id (runtime env) device_id ->
  rows_of (w_db (create_server_job env device_id instance_name user w).2) rid'
  = rows_of (w_db w) rid'
  /\ rows_of (w_db (destroy_server_job env device_id instance_name user w).2) rid'
     = rows_of (w_db w) rid'.
Proof.
  intros Hwf Hne.
  destruct (flows_preserve (fun s => wf s /\ rows_of s rid' = rows_of (w_db w) rid')
              device_id instance_name user) as [Hc Hd].
  { intros. apply preserves_others_log_request, Hne. }
  { intros. apply preserves_others_log_resource. }
  split.
  - eapply Hc; [apply surjective_pairing | split; [exact Hwf | reflexivity]].
  - eapply Hd; [apply surjective_pairing | split; [exact Hwf | reflexivity]].
Qed.

(** X13. [delete_resources_by_request_id] either commits or changes nothing.
    When it returns, the request id has no record left, the records of
    the other request ids are kept, and a resource row is kept exactly
    when its [log_id] is not the key of a deleted record; when it raises,
    the store is as before. The cache and the file system are never
    touched. *)
Theorem delete_resources_by_request_id_removes rid w r w' :
  delete_resources_by_request_id env rid w = (r, w') ->
  (r = Ret tt ->
     rows_of (w_db w') rid = []
     /\ (forall rid', rid' <> rid -> rows_of (w_db w') rid' = rows_of (w_db w) rid')
     /\ (forall x, In x (request_resources (w_db w')) <->
                   In x (request_resources (w_db w))
                   /\ forall r0, In r0 (rows_of (w_db w) rid) -> log_id r0 <> res_log_id x))
  /\ (forall e, r = Raise e -> w_db w' = w_db w)
  /\ w_cache w' = w_cache w /\ w_fs w' = w_fs w.
Proof.
  intros Hrun. split; [|split].
  - intros ->. apply delete_resources_by_request_id_run in Hrun as [[_ Hdb]|[[e [=]] _]].
    rewrite Hdb. split; [|split].
    + rewrite rows_of_delete_tx, Z.eqb_refl. reflexivity.
    + intros rid' Hne. rewrite rows_of_delete_tx.
      destruct (Z.eqb_spec rid' rid); [contradiction | reflexivity].
    + intros x. unfold delete_tx. simpl. rewrite filter_In. apply and_iff_compat_l.
      rewrite negb_true_iff, <- not_true_iff_false, existsb_exists. split.
      * intros Hno r0 Hr0 Hk. apply Hno. exists (log_id r0). split.
        -- apply in_map, Hr0.
        -- apply Z.eqb_eq. symmetry. exact Hk.
      * intros Hno (k & Hk & Heq). apply in_map_iff in Hk as (r0 & <- & Hr0).
        apply Z.eqb_eq in Heq. apply (Hno r0 Hr0). symmetry. exact Heq.
  - intros e ->. apply delete_resources_by_request_id_run in Hrun as [[[=] _]|[_ Hdb]].
    exact Hdb.
  - revert Hrun. unfold delete_resources_by_request_id, transaction.
    destruct (env_db_fault env (w_tick w)); intros [= <- <-]; split; reflexivity.
Qed.

(** X14. Keys are not handed out twice: after the record of a request id has
    been deleted, the next write for that id inserts a new record whose
    key is the value of the sequence, above the key of every record the
    store held before the deletion, the deleted ones included. *)
Theorem log_id_not_reused_after_delete rid user st dur err created w w1 k w2 :
  wf (w_db w) ->
  delete_resources_by_request_id env rid w = (Ret tt, w1) ->
  log_request env rid user st dur err created w1 = (Ret k, w2) ->
  k = log_id_seq (w_db w)
  /\ (forall r0, In r0 (request_status_logs (w_db w)) -> log_id r0 < k)
  /\ exists row, rows_of (w_db w2) rid = [row] /\ log_id row = k /\ status row = st.
Proof.
  intros Hwf Hdel Hlog.
  apply delete_resources_by_request_id_run in Hdel as [[_ Hdb]|[[e [=]] _]].
  apply log_request_ret in Hlog as (_ & Htx & _).
  assert (Hsel : select_log_id (w_db w1) rid = None).
  { apply select_log_id_None. rewrite Hdb, rows_of_delete_tx, Z.eqb_refl. reflexivity. }
  rewrite (log_request_tx_insert _ _ _ _ _ _ _ _ _ Hsel) in Htx.
  injection Htx as Hk Hst. rewrite <- Hst.
  assert (Hseq : log_id_seq (w_db w1) = log_id_seq (w_db w)) by (rewrite Hdb; reflexivity).
  split; [congruence|]. split.
  - intros r0 Hr0. rewrite <- Hk, Hseq. apply (wf_key_bounds _ _ Hwf Hr0).
  - eexists. split; [|split].
    + unfold rows_of at 1. simpl. rewrite filter_snoc_true by (simpl; apply Z.eqb_refl).
      apply select_log_id_None in Hsel. unfold rows_of in Hsel. rewrite Hsel. reflexivity.
    + simpl. exact Hk.
    + reflexivity.
Qed.

Lemma preserves_prefix_log_request keys rows rid user st dur err created :
  preserves (fun w => keys `prefix_of` map log_id (request_status_logs (w_db w))
                      /\ rows `prefix_of` request_resources (w_db w))
            (log_request env rid user st dur err created).
Proof.
  intros w r w' Hrun [Hk Hr]. destruct r as [k|msg].
  - apply log_request_ret in Hrun as (_ & Htx & _).
    assert (Hdb : w_db w' = (log_request_tx (w_db w) rid user st dur err created
                               (env_utcnow env (w_tick w)) (env_db_now env (w_tick w))).2)
      by (rewrite Htx; reflexivity).
    rewrite Hdb, log_request_tx_resources. split; [|exact Hr].
    unfold log_request_tx. destruct (truthy _); simpl.
    + rewrite update_rows_keys. exact Hk.
    + rewrite map_app. apply prefix_app_r, Hk.
  - apply log_request_raise in Hrun as [_ ->]. split; assumption.
Qed.

Lemma preserves_prefix_log_resource keys rows l rtype rname rvalue :
  preserves (fun w => keys `prefix_of` map log_id (request_status_logs (w_db w))
                      /\ rows `prefix_of` request_resources (w_db w))
            (log_resource env l rtype rname rvalue).
Proof.
  intros w r w' Hrun [Hk Hr]. destruct r as [[]|msg].
  - apply log_resource_ret in Hrun as (_ & Hdb & _). rewrite Hdb. simpl. split; [exact Hk|].
    apply prefix_app_r, Hr.
  - apply log_resource_raise in Hrun as [_ ->]. split; assumption.
Qed.

(** X5. Neither flow deletes anything, whatever fails: the keys of the
    status records before a run are the first keys after it, and the
    resource rows before the run are the first rows after it. In
    particular the destroy flow keeps the record and the resource rows
    of the request it destroys. *)
Theorem flows_never_delete device_id instance_name user w :
  let kept w' :=
    map log_id (request_status_logs (w_db w))
      `prefix_of` map log_id (request_status_logs (w_db w'))
    /\ request_resources (w_db w) `prefix_of` request_resources (w_db w') in
  kept (create_server_job env device_id instance_name user w).2
  /\ kept (destroy_server_job env device_id instance_name user w).2.
Proof.
  intros kept.
  destruct (flows_preserve
              (fun s => map log_id (request_status_logs (w_db w))
                          `prefix_of` map log_id (request_status_logs s)
                        /\ request_resources (w_db w) `prefix_of` request_resources s)
              device_id instance_name user) as [Hc Hd].
  { intros. apply preserves_prefix_log_request. }
  { intros. apply preserves_prefix_log_resource. }
  split.
  - eapply Hc; [apply surjective_pairing | split; reflexivity].
  - eapply Hd; [apply surjective_pairing | split; reflexivity].
Qed.

End StoreInvariant.

(* ===================================================================== *)
(** * The status cache *)
(* ===================================================================== *)

Section Cache.

Variable env : Env.

Lemma str_of_Z_inj (a b : Z) : PyText.str_of_Z a = PyText.str_of_Z b -> a = b.
Proof.
  intros H.
  pose proof (int_str 0 a (or_introl eq_refl)) as Ha.
  pose proof (int_str 0 b (or_introl eq_refl)) as Hb.
  rewrite H in Ha. congruence.
Qed.

(** X15. A status write that returns while the cache accepts the write makes
    the status readable in the cache under the decimal rendering of the
    request id, and changes the cached status of no other request id:
    [get_cached_job_status(str(rid'))] then gives the new status for
    [rid' = rid] and what the cache held before for every other id. *)
Theorem log_request_caches_status rid user st dur err created w k w' rid' :
  log_request env rid user st dur err created w = (Ret k, w') ->
  env_cache_fault env (S (w_tick w)) = false ->
  env_cache_fault env (w_tick w') = false ->
  (get_cached_job_status env (PyText.str_of_Z rid') w').1
  = Ret (if decide (rid' = rid) then Some st
         else w_cache w !! ("job:" ++ PyText.str_of_Z rid')).
Proof.
  intros Hrun Hc Hc'. unfold get_cached_job_status. rewrite Hc'. simpl. f_equal.
  revert Hrun. unfold log_request, emit, transaction, cache_job_status.
  unfold mbind, M_bind, mret, M_ret. simpl.
  destruct (env_db_fault env (w_tick w)); [discriminate|].
  destruct (Db.log_request_tx _ _ _ _ _ _ _ _ _) as [l d]. simpl.
  rewrite Hc. intros [= _ <-]. simpl.
  destruct (decide (rid' = rid)) as [->|Hne].
  - apply lookup_insert_eq.
  - apply lookup_insert_ne. intros [= H]. apply Hne. symmetry. apply str_of_Z_inj, H.
Qed.

End Cache.

Section CacheOutage.

Variable env : Env.
Variable faults : nat -> bool.

Lemma same_but_cache_refl w : same_but_cache w w.
Proof. repeat split. Qed.

Lemma agree_ret {A : Type} (a : A) : agree (mret a) (mret a).
Proof. intros w1 w2 H. split; [reflexivity | exact H]. Qed.

Lemma agree_bind {A B : Type} (m1 m2 : M A) (k1 k2 : A -> M B) :
  agree m1 m2 -> (forall a, agree (k1 a) (k2 a)) -> agree (m1 ≫= k1) (m2 ≫= k2).
Proof.
  intros Hm Hk w1 w2 H. destruct (Hm w1 w2 H) as [Hr Hw].
  unfold mbind, M_bind.
  destruct (m1 w1) as [[a|e] u1], (m2 w2) as [[a'|e'] u2]; simpl in *; try discriminate.
  - injection Hr as <-. apply Hk, Hw.
  - injection Hr as <-. split; [reflexivity | exact Hw].
Qed.

Lemma agree_try {A : Type} (b1 b2 : M A) (h1 h2 : string -> M A) :
  agree b1 b2 -> (forall e, agree (h1 e) (h2 e)) ->
  agree (try_except b1 h1) (try_except b2 h2).
Proof.
  intros Hb Hh w1 w2 H. destruct (Hb w1 w2 H) as [Hr Hw].
  unfold try_except.
  destruct (b1 w1) as [[a|e] u1], (b2 w2) as [[a'|e'] u2]; simpl in *; try discriminate.
  - split; [exact Hr | exact Hw].
  - injection Hr as <-. apply Hh, Hw.
Qed.

Lemma agree_emit ev : agree (emit ev) (emit ev).
Proof.
  intros w1 w2 (Hd & Hf & Ht & Hk). unfold emit. simpl.
  repeat split; try assumption. simpl. congruence.
Qed.

Lemma agree_utcnow : agree (utcnow (with_cache_fault env faults)) (utcnow env).
Proof.
  intros w1 w2 (Hd & Hf & Ht & Hk). unfold utcnow. simpl. rewrite Hk.
  repeat split; simpl; congruence.
Qed.

Lemma agree_transaction {A : Type} (tx : Z -> Z -> Db.Store -> A * Db.Store) :
  agree (transaction (with_cache_fault env faults) tx) (transaction env tx).
Proof.
  intros w1 w2 (Hd & Hf & Ht & Hk). unfold transaction. simpl. rewrite Hk, Hd.
  destruct (env_db_fault env (w_tick w2)).
  - repeat split; simpl; congruence.
  - destruct (tx _ _ _) as [a d]. repeat split; simpl; congruence.
Qed.

Lemma agree_fs_call op : agree (fs_call (with_cache_fault env faults) op) (fs_call env op).
Proof.
  intros w1 w2 (Hd & Hf & Ht & Hk). unfold fs_call. simpl. rewrite Hk, Hf.
  destruct (env_fs_fault env (w_tick w2)).
  - repeat split; simpl; congruence.
  - destruct (op (w_fs w2)); repeat split; simpl; congruence.
Qed.

Lemma agree_cache_job_status job_id st :
  agree (cache_job_status (with_cache_fault env faults) job_id st)
        (cache_job_status env job_id st).
Proof.
  intros w1 w2 (Hd & Hf & Ht & Hk). unfold cache_job_status. simpl.
  destruct (faults (w_tick w1)), (env_cache_fault env (w_tick w2));
    repeat split; simpl; congruence.
Qed.

Lemma agree_run_cmd cmd dir :
  agree (_run_cmd (with_cache_fault env faults) cmd dir) (_run_cmd env cmd dir).
Proof.
  intros w1 w2 (Hd & Hf & Ht & Hk). unfold _run_cmd. simpl. rewrite Hk.
  destruct (env_proc env (w_tick w2) cmd dir); repeat split; simpl; congruence.
Qed.

Lemma agree_log_request rid user st dur err created :
  agree (log_request (with_cache_fault env faults) rid user st dur err created)
        (log_request env rid user st dur err created).
Proof.
  unfold log_request.
  apply agree_bind; [apply agree_emit|]. intros _.
  apply agree_bind; [apply agree_transaction|]. intros l.
  apply agree_bind; [apply agree_cache_job_status|]. intros _.
  apply agree_ret.
Qed.

Lemma agree_log_resource l rtype rname rvalue :
  agree (log_resource (with_cache_fault env faults) l rtype rname rvalue)
        (log_resource env l rtype rname rvalue).
Proof.
  unfold log_resource.
  apply agree_bind; [apply agree_emit|]. intros _. apply agree_transaction.
Qed.

Lemma agree_write_files path files :
  agree (write_files (with_cache_fault env faults) path files) (write_files env path files).
Proof.
  induction files as [|[filename content] files IH]; simpl.
  - apply agree_ret.
  - apply agree_bind; [apply agree_fs_call | intros _; exact IH].
Qed.

Lemma agree_generate device_id instance_name path :
  agree (generate_root_terraform_files (with_cache_fault env faults) device_id instance_name path)
        (generate_root_terraform_files env device_id instance_name path).
Proof.
  unfold generate_root_terraform_files.
  apply agree_bind.
  { intros w1 w2 H. unfold os_path_exists. simpl.
    destruct H as (Hd & Hf & Ht & Hk). rewrite Hf. repeat split; assumption. }
  intros present. apply agree_bind.
  { destruct present; [apply agree_fs_call | apply agree_ret]. }
  intros _. apply agree_bind; [apply agree_fs_call|]. intros _.
  apply agree_write_files.
Qed.

Lemma agree_run_terraform_commands path device_id instance_name :
  agree (run_terraform_commands (with_cache_fault env faults) path device_id instance_name)
        (run_terraform_commands env path device_id instance_name).
Proof.
  unfold run_terraform_commands.
  apply agree_bind; [apply agree_utcnow|]. intros start.
  apply agree_bind; [apply agree_run_cmd|]. intros [[ret out] err].
  destruct (negb (ret =? 0)).
  { apply agree_bind; [apply agree_utcnow|]. intros now. apply agree_ret. }
  apply agree_bind; [apply agree_run_cmd|]. intros [[ret' out'] err'].
  apply agree_bind; [apply agree_utcnow|]. intros now.
  destruct (negb (ret' =? 0)); [apply agree_ret|].
  apply agree_bind; [|intros logs; apply agree_ret].
  apply agree_try; [|intros _; apply agree_ret].
  apply agree_bind; [apply agree_run_cmd|]. intros [[ret2 out2] err2]. apply agree_ret.
Qed.

Lemma agree_destroy_terraform_resources path device_id instance_name :
  agree (destroy_terraform_resources (with_cache_fault env faults) path device_id instance_name)
        (destroy_terraform_resources env path device_id instance_name).
Proof.
  unfold destroy_terraform_resources.
  apply agree_bind; [apply agree_utcnow|]. intros start.
  apply agree_bind; [apply agree_run_cmd|]. intros [[ret out] err].
  apply agree_bind; [apply agree_utcnow|]. intros now. apply agree_ret.
Qed.

(** X16. An outage of the cache changes no job: with any other behaviour of
    the cache, the create flow and the destroy flow started in the same
    world end with the same result or the same exception, the same
    store, the same file system and the same calls. *)
Theorem cache_outage_changes_no_job device_id instance_name user w :
  let same {A : Type} (run1 run2 : Outcome A * World) :=
    run1.1 = run2.1 /\ w_db run1.2 = w_db run2.2 /\ w_fs run1.2 = w_fs run2.2
    /\ w_trace run1.2 = w_trace run2.2 in
  same (create_server_job (with_cache_fault env faults) device_id instance_name user w)
       (create_server_job env device_id instance_name user w)
  /\ same (destroy_server_job (with_cache_fault env faults) device_id instance_name user w)
          (destroy_server_job env device_id instance_name user w).
Proof.
  intros same.
  assert (Hc : agree (create_server_job (with_cache_fault env faults) device_id instance_name user)
                     (create_server_job env device_id instance_name user)).
  { unfold create_server_job. simpl.
    apply agree_bind; [apply agree_log_request|]. intros log_id.
    apply agree_try.
    - unfold create_try.
      apply agree_bind; [apply agree_generate|]. intros _.
      apply agree_bind; [apply agree_run_terraform_commands|]. intros [[s out] dur].
      apply agree_bind; [apply agree_log_request|]. intros _.
      apply agree_bind; [|intros _; apply agree_ret].
      destruct s; [apply agree_log_resource | apply agree_ret].
    - intros e. unfold create_except.
      apply agree_bind; [apply agree_log_request|]. intros _. apply agree_ret. }
  assert (Hd : agree (destroy_server_job (with_cache_fault env faults) device_id instance_name user)
                     (destroy_server_job env device_id instance_name user)).
  { unfold destroy_server_job. simpl.
    apply agree_bind; [apply agree_log_request|]. intros _.
    apply agree_try.
    - unfold destroy_try.
      apply agree_bind; [apply agree_destroy_terraform_resources|]. intros [[s out] dur].
      apply agree_bind; [apply agree_log_request|]. intros _. apply agree_ret.
    - intros e. unfold destroy_except.
      apply agree_bind; [apply agree_log_request|]. intros _. apply agree_ret. }
  split.
  - destruct (Hc w w (same_but_cache_refl w)) as (Hr & Hdb & Hfs & Htr & _).
    repeat split; assumption.
  - destruct (Hd w w (same_but_cache_refl w)) as (Hr & Hdb & Hfs & Htr & _).
    repeat split; assumption.
Qed.

End CacheOutage.

(* ===================================================================== *)
(** * The pipelines, step by step *)
(* ===================================================================== *)

Section PipelineSteps.

Variable env : Env.

(** X17. If [init] exits with code 0 and [apply] with another code,
    [run_terraform_commands] returns [False] with the four outputs of
    the two steps joined by line feeds and the time from its start to
    the end of [apply]; [output] is not run. *)
Theorem run_terraform_commands_apply_failure path device_id instance_name w
        out1 err1 ret out2 err2 :
  init_outcome env w path = Exited 0 out1 err1 ->
  apply_outcome env w device_id instance_name path = Exited ret out2 err2 ->
  ret <> 0 ->
  exists w',
    run_terraform_commands env path device_id instance_name w
    = (Ret (false, out1 ++ nl ++ err1 ++ nl ++ out2 ++ nl ++ err2,
            env_utcnow env (3 + w_tick w) - env_utcnow env (w_tick w)), w')
    /\ w_trace w' = (w_trace w ++ [EvRunCmd init_cmd path;
                                   EvRunCmd (apply_cmd device_id instance_name) path])%list
    /\ w_db w' = w_db w
    /\ w_fs w' = w_fs w.
Proof.
  intros Hinit Happly Hret. unfold init_outcome in Hinit. unfold apply_outcome in Happly.
  unfold run_terraform_commands, utcnow, _run_cmd, mbind, M_bind, mret, M_ret. simpl.
  rewrite Hinit. simpl. rewrite Happly. simpl.
  destruct (Z.eqb_spec ret 0) as [->|_]; [contradiction|]. simpl.
  eexists. repeat split. simpl. rewrite <- app_assoc. reflexivity.
Qed.

(** X18. The [output] step is best effort: when [init] and [apply] exit with
    code 0 the pipeline returns [True] whatever [output] does, with the
    duration measured before [output] runs; the log ends with the two
    outputs of [output] when it could be started, whatever its return
    code, and with those of [apply] when it could not. *)
Theorem run_terraform_commands_output_best_effort path device_id instance_name w
        out1 err1 out2 err2 :
  init_outcome env w path = Exited 0 out1 err1 ->
  apply_outcome env w device_id instance_name path = Exited 0 out2 err2 ->
  exists w',
    run_terraform_commands env path device_id instance_name w
    = (Ret (true,
            PyText.join nl ([out1; err1; out2; err2] ++ logged (output_outcome env w path)),
            env_utcnow env (3 + w_tick w) - env_utcnow env (w_tick w)), w')
    /\ w_trace w' = (w_trace w ++ [EvRunCmd init_cmd path;
                                   EvRunCmd (apply_cmd device_id instance_name) path;
                                   EvRunCmd output_cmd path])%list.
Proof.
  intros Hinit Happly. unfold init_outcome in Hinit. unfold apply_outcome in Happly.
  unfold output_outcome.
  unfold run_terraform_commands, try_except, utcnow, _run_cmd, mbind, M_bind, mret, M_ret.
  simpl. rewrite Hinit. simpl. rewrite Happly. simpl.
  destruct (env_proc env _ output_cmd path); simpl; eexists; split; try reflexivity;
    simpl; rewrite <- !app_assoc; reflexivity.
Qed.

(** X19. [run_terraform_commands] raises exactly when [init] cannot be
    started, or [init] exits with code 0 and [apply] cannot be started;
    the exception is the one of the subprocess call. A failure to start
    [output] never leaves the function. *)
Theorem run_terraform_commands_raises_iff path device_id instance_name w e :
  (run_terraform_commands env path device_id instance_name w).1 = Raise e
  <-> init_outcome env w path = SpawnError e
      \/ (exists out err, init_outcome env w path = Exited 0 out err)
         /\ apply_outcome env w device_id instance_name path = SpawnError e.
Proof.
  unfold init_outcome, apply_outcome.
  unfold run_terraform_commands, try_except, utcnow, _run_cmd, mbind, M_bind, mret, M_ret.
  simpl.
  destruct (env_proc env (S (w_tick w)) init_cmd path) as [ret out err|e1]; simpl.
  - destruct (Z.eqb_spec ret 0) as [->|Hret]; simpl.
    + destruct (env_proc env (S (S (w_tick w))) _ path) as [ret2 out2 err2|e2]; simpl.
      * split.
        -- destruct (ret2 =? 0); simpl; [|discriminate].
           destruct (env_proc env _ output_cmd path); discriminate.
        -- intros [[=]|[_ [=]]].
      * split.
        -- intros [= ->]. right. eauto.
        -- intros [[=]|[_ [= ->]]]. reflexivity.
    + split; [discriminate|]. intros [[=]|[(o & e' & [= H]) _]]. contradiction.
  - split.
    + intros [= ->]. left. reflexivity.
    + intros [[= ->]|[(o & e' & [=]) _]]. reflexivity.
Qed.

(** X20. [destroy_terraform_resources] starts one subprocess, [terraform
    destroy] with the two variables. It returns [ret == 0] with the two
    outputs joined by a line feed and the time the call took, and it
    raises when the subprocess cannot be started. *)
Theorem destroy_terraform_resources_result path device_id instance_name w :
  let run := destroy_terraform_resources env path device_id instance_name w in
  run.1 = match destroy_outcome env w device_id instance_name path with
          | Exited ret out err =>
              Ret (ret =? 0, out ++ nl ++ err,
                   env_utcnow env (2 + w_tick w) - env_utcnow env (w_tick w))
          | SpawnError e => Raise e
          end
  /\ w_trace run.2 = (w_trace w ++ [EvRunCmd (destroy_cmd device_id instance_name) path])%list
  /\ w_db run.2 = w_db w /\ w_fs run.2 = w_fs w /\ w_cache run.2 = w_cache w.
Proof.
  unfold destroy_outcome.
  unfold destroy_terraform_resources, utcnow, _run_cmd, mbind, M_bind, mret, M_ret. simpl.
  destruct (env_proc env (S (w_tick w)) _ path); simpl; repeat split.
Qed.

End PipelineSteps.

(* ===================================================================== *)
(** * What a flow leaves in the store *)
(* ===================================================================== *)

Section FlowStatus.

Variable env : Env.

Lemma the_record s r rid :
  unique_requests s -> In r (Db.request_status_logs s) -> Db.request_id r = rid ->
  Db.rows_of s rid = [r].
Proof.
  intros Huniq Hin Hrid. specialize (Huniq rid).
  assert (Hr : In r (Db.rows_of s rid)).
  { apply filter_In. split; [exact Hin | apply Z.eqb_eq, Hrid]. }
  destruct (Db.rows_of s rid) as [|x [|y l]]; simpl in *; [contradiction| |lia].
  destruct Hr as [->|[]]. reflexivity.
Qed.

Lemma preserves_invariant_flows device_id instance_name user :
  preserves store_invariant (create_server_job env device_id instance_name user)
  /\ preserves store_invariant (destroy_server_job env device_id instance_name user).
Proof.
  apply (flows_preserve env (fun s => Db.wf s /\ unique_requests s)).
  - intros. apply preserves_invariant_log_request.
  - intros. apply preserves_invariant_log_resource.
Qed.

Lemma preserves_wf_flows_try rid log_id device_id instance_name user path :
  preserves store_wf (create_try env rid log_id device_id instance_name user path)
  /\ preserves store_wf (destroy_try env rid device_id instance_name user path).
Proof.
  split; [apply preserves_wf_create_try|].
  unfold destroy_try. apply preserves_bind.
  { apply preserves_destroy_terraform_resources; intros w; intros; assumption. }
  intros [[s out] dur]. apply preserves_bind; [apply preserves_wf_log_request|].
  intros _. apply preserves_ret.
Qed.

(** The last status write of a returning create flow. *)
Lemma create_server_job_last_write device_id instance_name user w jr w' :
  Db.wf (w_db w) ->
  create_server_job env device_id instance_name user w = (Ret jr, w') ->
  exists r, In r (Db.request_status_logs (w_db w'))
    /\ Db.request_id r = normalize_request_id (runtime env) device_id
    /\ Db.error_message r = (if success jr then None else Some (output jr))
    /\ (Db.status r = (if success jr then "success" else "failed")
        /\ Db.duration_seconds r = Some (duration jr)
        \/ success jr = false /\ Db.status r = "error" /\ Db.duration_seconds r = None
           /\ duration jr = 0).
Proof.
  intros Hwf Hrun. unfold create_server_job in Hrun.
  apply bind_inv in Hrun as [(k & w1 & Hstart & Hrun)|(e & _ & [=])].
  assert (Hwf1 : Db.wf (w_db w1)) by (eapply log_request_wf; eauto).
  apply try_except_inv in Hrun as [(a & Htry & [= <-])|(e & w2 & Htry & Hexc)].
  - unfold create_try in Htry.
    apply bind_inv in Htry as [([] & wa & Hgen & Htry)|(e & _ & [=])].
    apply bind_inv in Htry as [([[s out] dur] & wb & Hpipe & Htry)|(e & _ & [=])].
    apply bind_inv in Htry as [(k' & wc & Hterm & Htry)|(e & _ & [=])].
    apply bind_inv in Htry as [([] & wd & Hres & Htry)|(e & _ & [=])].
    injection Htry as <- <-.
    assert (Hwfb : Db.wf (w_db wb)).
    { eapply (preserves_run_terraform_commands env store_wf); try eassumption;
        try (intros w0; intros; assumption).
      eapply (preserves_generate env store_wf); try eassumption;
        try (intros w0; intros; assumption). }
    destruct (log_request_writes_row env _ _ _ _ _ _ _ _ _ Hwfb Hterm)
      as (r & Hin & _ & Hrid & Hst & Hdur & Herr).
    exists r. simpl. split; [|split; [exact Hrid | split; [exact Herr | left; split; assumption]]].
    destruct s.
    + apply log_resource_ret in Hres as (_ & -> & _). exact Hin.
    + injection Hres as <-. exact Hin.
  - assert (Hwf2 : Db.wf (w_db w2)).
    { eapply (proj1 (preserves_wf_flows_try _ _ _ _ _ _)); eassumption. }
    unfold create_except in Hexc.
    apply bind_inv in Hexc as [(k' & wc & Hlog & Hexc)|(e' & _ & [=])].
    injection Hexc as <- <-.
    destruct (log_request_writes_row env _ _ _ _ _ _ _ _ _ Hwf2 Hlog)
      as (r & Hin & _ & Hrid & Hst & Hdur & Herr).
    exists r. simpl. split; [exact Hin|]. split; [exact Hrid|]. split; [exact Herr|].
    right. auto.
Qed.

(** The last status write of a returning destroy flow. *)
Lemma destroy_server_job_last_write device_id instance_name user w jr w' :
  Db.wf (w_db w) ->
  destroy_server_job env device_id instance_name user w = (Ret jr, w') ->
  exists r, In r (Db.request_status_logs (w_db w'))
    /\ Db.request_id r = normalize_request_id (runtime env) device_id
    /\ Db.error_message r = (if success jr then None else Some (output jr))
    /\ (Db.status r = (if success jr then "destroyed" else "destroy_failed")
        /\ Db.duration_seconds r = Some (duration jr)
        \/ success jr = false /\ Db.status r = "destroy_error"
           /\ Db.duration_seconds r = None /\ duration jr = 0).
Proof.
  intros Hwf Hrun. unfold destroy_server_job in Hrun.
  apply bind_inv in Hrun as [(k & w1 & Hstart & Hrun)|(e & _ & [=])].
  assert (Hwf1 : Db.wf (w_db w1)) by (eapply log_request_wf; eauto).
  apply try_except_inv in Hrun as [(a & Htry & [= <-])|(e & w2 & Htry & Hexc)].
  - unfold destroy_try in Htry.
    apply bind_inv in Htry as [([[s out] dur] & wb & Hpipe & Htry)|(e & _ & [=])].
    apply bind_inv in Htry as [(k' & wc & Hterm & Htry)|(e & _ & [=])].
    injection Htry as <- <-.
    assert (Hwfb : Db.wf (w_db wb)).
    { eapply (preserves_destroy_terraform_resources env store_wf); try eassumption;
        try (intros w0; intros; assumption). }
    destruct (log_request_writes_row env _ _ _ _ _ _ _ _ _ Hwfb Hterm)
      as (r & Hin & _ & Hrid & Hst & Hdur & Herr).
    exists r. simpl. split; [exact Hin|]. split; [exact Hrid|]. split; [exact Herr|].
    left. split; assumption.
  - assert (Hwf2 : Db.wf (w_db w2)).
    { eapply (proj2 (preserves_wf_flows_try _ 0 _ _ _ _)); eassumption. }
    unfold destroy_except in Hexc.
    apply bind_inv in Hexc as [(k' & wc & Hlog & Hexc)|(e' & _ & [=])].
    injection Hexc as <- <-.
    destruct (log_request_writes_row env _ _ _ _ _ _ _ _ _ Hwf2 Hlog)
      as (r & Hin & _ & Hrid & Hst & Hdur & Herr).
    exists r. simpl. split; [exact Hin|]. split; [exact Hrid|]. split; [exact Herr|].
    right. auto.
Qed.

(** X7. The record of a request tells what its create job returned: when
    the flow returns a result, the request id has exactly one record; for
    success it has status [success], no error message and the duration
    of the result; otherwise its error message is the output of the
    result and it has either status [failed] and the duration of the
    result, or status [error], no duration and a result of duration 0. *)
Theorem create_server_job_terminal_status device_id instance_name user w jr w' :
  store_invariant w ->
  create_server_job env device_id instance_name user w = (Ret jr, w') ->
  exists r,
    Db.rows_of (w_db w') (normalize_request_id (runtime env) device_id) = [r]
    /\ Db.error_message r = (if success jr then None else Some (output jr))
    /\ (Db.status r = (if success jr then "success" else "failed")
        /\ Db.duration_seconds r = Some (duration jr)
        \/ success jr = false /\ Db.status r = "error" /\ Db.duration_seconds r = None
           /\ duration jr = 0).
Proof.
  intros Hinv Hrun.
  destruct (create_server_job_last_write _ _ _ _ _ _ (proj1 Hinv) Hrun)
    as (r & Hin & Hrid & Hrest).
  exists r. split; [|exact Hrest].
  apply the_record; [|exact Hin|exact Hrid].
  eapply (proj1 (preserves_invariant_flows _ _ _)); eassumption.
Qed.

(** X8. The same for the destroy flow, with the status [destroyed],
    [destroy_failed] or [destroy_error]. *)
Theorem destroy_server_job_terminal_status device_id instance_name user w jr w' :
  store_invariant w ->
  destroy_server_job env device_id instance_name user w = (Ret jr, w') ->
  exists r,
    Db.rows_of (w_db w') (normalize_request_id (runtime env) device_id) = [r]
    /\ Db.error_message r = (if success jr then None else Some (output jr))
    /\ (Db.status r = (if success jr then "destroyed" else "destroy_failed")
        /\ Db.duration_seconds r = Some (duration jr)
        \/ success jr = false /\ Db.status r = "destroy_error"
           /\ Db.duration_seconds r = None /\ duration jr = 0).
Proof.
  intros Hinv Hrun.
  destruct (destroy_server_job_last_write _ _ _ _ _ _ (proj1 Hinv) Hrun)
    as (r & Hin & Hrid & Hrest).
  exists r. split; [|exact Hrest].
  apply the_record; [|exact Hin|exact Hrid].
  eapply (proj2 (preserves_invariant_flows _ _ _)); eassumption.
Qed.

(** X10. While the database accepts every transaction a flow returns a
    result: the file system, the subprocesses and the cache cannot make
    [create_server_job] or [destroy_server_job] raise. *)
Theorem flows_return_while_db_up device_id instance_name user w :
  (forall t, env_db_fault env t = None) ->
  (exists jr w', create_server_job env device_id instance_name user w = (Ret jr, w'))
  /\ (exists jr w', destroy_server_job env device_id instance_name user w = (Ret jr, w')).
Proof.
  intros Hup.
  assert (Hlog : forall rid st dur err created w0, exists k w1,
             log_request env rid user st dur err created w0 = (Ret k, w1)).
  { intros. apply log_request_returns, Hup. }
  split.
  - unfold create_server_job.
    destruct (Hlog (normalize_request_id (runtime env) device_id) "create_started"
                None None None w) as (k & w1 & H1).
    unfold mbind at 1, M_bind at 1. rewrite H1. unfold try_except.
    destruct (create_try env _ k device_id instance_name user _ w1) as [[jr|e] w2] eqn:Htry.
    + eauto.
    + unfold create_except.
      destruct (Hlog (normalize_request_id (runtime env) device_id) "error" None
                  (Some ("Unhandled error: " ++ e)) None w2) as (k' & w3 & H3).
      unfold mbind, M_bind. rewrite H3. eauto.
  - unfold destroy_server_job.
    destruct (Hlog (normalize_request_id (runtime env) device_id) "destroy_started"
                None None None w) as (k & w1 & H1).
    unfold mbind at 1, M_bind at 1. rewrite H1. unfold try_except.
    destruct (destroy_try env _ device_id instance_name user _ w1) as [[jr|e] w2] eqn:Htry.
    + eauto.
    + unfold destroy_except.
      destruct (Hlog (normalize_request_id (runtime env) device_id) "destroy_error" None
                  (Some ("Destroy crashed: " ++ e)) None w2) as (k' & w3 & H3).
      unfold mbind, M_bind. rewrite H3. eauto.
Qed.

Lemma log_request_trace rid user st dur err created w r w' :
  log_request env rid user st dur err created w = (r, w') ->
  w_trace w' = (w_trace w ++ [EvLogRequest rid user st dur err])%list /\ w_fs w' = w_fs w.
Proof.
  intros Hrun. destruct r as [k|e].
  - apply log_request_ret in Hrun as (_ & _ & Hfs & Htr & _). auto.
  - apply log_request_raise in Hrun as [_ ->]. auto.
Qed.

Lemma log_request_run_cmd_calls rid user st dur err created w r w' :
  log_request env rid user st dur err created w = (r, w') ->
  run_cmd_calls (w_trace w') = run_cmd_calls (w_trace w) /\ w_fs w' = w_fs w.
Proof.
  intros Hrun. apply log_request_trace in Hrun as [-> ->]. split; [|reflexivity].
  unfold run_cmd_calls. rewrite List.filter_app. apply app_nil_r.
Qed.

Lemma destroy_terraform_resources_trace path device_id instance_name w r w' :
  destroy_terraform_resources env path device_id instance_name w = (r, w') ->
  w_trace w' = (w_trace w ++ [EvRunCmd (destroy_cmd device_id instance_name) path])%list
  /\ w_fs w' = w_fs w.
Proof.
  unfold destroy_terraform_resources, utcnow, _run_cmd, mbind, M_bind, mret, M_ret. simpl.
  destruct (env_proc env (S (w_tick w)) _ path); intros [= <- <-]; split; reflexivity.
Qed.

Lemma destroy_try_run_cmd_calls rid device_id instance_name user path w r w' :
  destroy_try env rid device_id instance_name user path w = (r, w') ->
  run_cmd_calls (w_trace w')
  = (run_cmd_calls (w_trace w) ++ [EvRunCmd (destroy_cmd device_id instance_name) path])%list
  /\ w_fs w' = w_fs w.
Proof.
  intros Hrun. unfold destroy_try in Hrun.
  apply bind_inv in Hrun as [([[s out] dur] & wb & Hpipe & Hrun)|(e & Hpipe & _)].
  - apply destroy_terraform_resources_trace in Hpipe as [Htr Hfs].
    assert (Hb : run_cmd_calls (w_trace wb)
                 = (run_cmd_calls (w_trace w)
                    ++ [EvRunCmd (destroy_cmd device_id instance_name) path])%list).
    { rewrite Htr. unfold run_cmd_calls. rewrite List.filter_app. reflexivity. }
    apply bind_inv in Hrun as [(k & wc & Hlog & Hrun)|(e & Hlog & _)].
    + injection Hrun as _ <-. apply log_request_run_cmd_calls in Hlog as [-> ->]. auto.
    + apply log_request_run_cmd_calls in Hlog as [-> ->]. auto.
  - apply destroy_terraform_resources_trace in Hpipe as [-> ->]. split; [|reflexivity].
    unfold run_cmd_calls. rewrite List.filter_app. reflexivity.
Qed.

(** X21. The destroy flow leaves every file where it is: it makes no
    file-system call, so the workspace of the device stays on disk,
    whatever the flow returns or raises. The only subprocess it starts
    is [terraform destroy] in the workspace, and it starts it unless
    the first status write raises. *)
Theorem destroy_server_job_keeps_files device_id instance_name user w :
  let run := destroy_server_job env device_id instance_name user w in
  let path := PyPath.join (TERRAFORM_ROOT (config env)) device_id in
  w_fs run.2 = w_fs w
  /\ run_cmd_calls (w_trace run.2)
     = (run_cmd_calls (w_trace w)
        ++ match env_db_fault env (w_tick w) with
           | Some _ => []
           | None => [EvRunCmd (destroy_cmd device_id instance_name) path]
           end)%list.
Proof.
  intros run path.
  destruct run as [r w'] eqn:Hrun. subst run. simpl.
  unfold destroy_server_job in Hrun. fold path in Hrun.
  apply bind_inv in Hrun as [(k & w1 & Hstart & Hrun)|(e & Hstart & _)].
  - pose proof (log_request_ret env _ _ _ _ _ _ _ _ _ Hstart) as (Hup & _).
    rewrite Hup. apply log_request_run_cmd_calls in Hstart as [<- <-].
    apply try_except_inv in Hrun as [(a & Htry & _)|(e & w2 & Htry & Hexc)].
    + apply destroy_try_run_cmd_calls in Htry as [-> ->]. auto.
    + apply destroy_try_run_cmd_calls in Htry as [<- <-].
      unfold destroy_except in Hexc.
      apply bind_inv in Hexc as [(k' & wc & Hlog & Hexc)|(e' & Hlog & _)].
      * injection Hexc as _ <-. apply log_request_run_cmd_calls in Hlog as [-> ->]. auto.
      * apply log_request_run_cmd_calls in Hlog as [-> ->]. auto.
  - pose proof (log_request_raise env _ _ _ _ _ _ _ _ _ Hstart) as (Hdown & _).
    rewrite Hdown, app_nil_r. apply log_request_run_cmd_calls in Hstart as [-> ->]. auto.
Qed.

End FlowStatus.

(* ===================================================================== *)
(** * The file system around a job *)
(* ===================================================================== *)

Section FileSystemFrame.

Import FS.

Variable env : Env.

Lemma preserves_lookup_fs_call k v op :
  (forall fs fs', op fs = inr fs' -> fs' !! k = fs !! k) ->
  preserves (fun w => w_fs w !! k = v) (fs_call env op).
Proof.
  intros Hop w r w' Hrun Hk. unfold fs_call in Hrun.
  destruct (env_fs_fault env (w_tick w)); [injection Hrun as <- <-; exact Hk|].
  destruct (op (w_fs w)) as [e|f] eqn:E; injection Hrun as <- <-; [exact Hk|].
  simpl. rewrite (Hop _ _ E). exact Hk.
Qed.

(** The workspace builder changes no entry outside the target directory
    and the directories leading to it, whether it returns or raises. *)
Lemma preserves_lookup_generate device_id instance_name path k v :
  ~ loc env path `prefix_of` k -> ~ k `prefix_of` loc env path ->
  preserves (fun w => w_fs w !! k = v)
            (generate_root_terraform_files env device_id instance_name path).
Proof.
  intros Hout Hout'. unfold generate_root_terraform_files.
  apply preserves_bind.
  { intros w r w' [= <- <-] H. exact H. }
  intros present. apply preserves_bind.
  { destruct present; [|apply preserves_ret].
    apply preserves_lookup_fs_call. intros fs fs' Hrm.
    apply rmtree_ret in Hrm as [_ Hkept]. apply Hkept, Hout. }
  intros _.
  destruct (String.eqb_spec path "") as [->|Hpath].
  { (* the empty path: [os.makedirs] raises *)
    intros w r w' Hrun Hk.
    apply bind_inv in Hrun as [([] & w1 & Hmk & _)|(e & Hmk & _)].
    - apply fs_call_ret in Hmk. discriminate Hmk.
    - revert Hmk. unfold os_makedirs, fs_call.
      destruct (env_fs_fault env (w_tick w)); simpl; intros [= _ <-]; exact Hk. }
  apply preserves_bind.
  { apply preserves_lookup_fs_call. intros fs fs' Hmk.
    apply String.eqb_neq in Hpath. rewrite Hpath in Hmk.
    apply makedirs_ret in Hmk as [_ Hkept]. apply Hkept, Hout'. }
  intros _.
  assert (Hnames : Forall (fun f => PyPath.plain_name f.1 = true)
                          (Templates.files (config env) device_id instance_name))
    by (unfold Templates.files; repeat constructor).
  induction Hnames as [|[name content] files Hname _ IH]; simpl.
  - apply preserves_ret.
  - apply preserves_bind; [|intros _; exact IH].
    apply preserves_lookup_fs_call. intros fs fs' Hwr.
    apply write_file_ret in Hwr. subst fs'. unfold loc in *.
    rewrite resolve_join by assumption.
    apply lookup_insert_ne. intros <-. apply Hout, prefix_app_r. reflexivity.
Qed.

Lemma preserves_fs_log_request (P : gmap (list string) Node -> Prop)
      rid user st dur err created :
  preserves (fun w => P (w_fs w)) (log_request env rid user st dur err created).
Proof.
  intros w r w' Hrun H. apply log_request_trace in Hrun as [_ ->]. exact H.
Qed.

Lemma preserves_fs_log_resource (P : gmap (list string) Node -> Prop) l rtype rname rvalue :
  preserves (fun w => P (w_fs w)) (log_resource env l rtype rname rvalue).
Proof.
  intros w r w' Hrun H. destruct r as [[]|e].
  - apply log_resource_ret in Hrun as (_ & _ & -> & _). exact H.
  - apply log_resource_raise in Hrun as [_ ->]. exact H.
Qed.

(** The create flow keeps every property of the file system that its
    workspace builder keeps. *)
Lemma create_server_job_preserves_fs (P : gmap (list string) Node -> Prop)
      device_id instance_name user :
  preserves (fun w => P (w_fs w))
            (generate_root_terraform_files env device_id instance_name
               (PyPath.join (TERRAFORM_ROOT (config env)) device_id)) ->
  preserves (fun w => P (w_fs w)) (create_server_job env device_id instance_name user).
Proof.
  intros Hgen. unfold create_server_job.
  apply preserves_bind; [apply preserves_fs_log_request|]. intros log_id.
  apply preserves_try.
  - unfold create_try.
    apply preserves_bind; [exact Hgen|]. intros _.
    apply preserves_bind.
    { apply preserves_run_terraform_commands; intros w; intros; assumption. }
    intros [[s out] dur]. apply preserves_bind; [apply preserves_fs_log_request|].
    intros _. apply preserves_bind; [|intros _; apply preserves_ret].
    destruct s; [apply preserves_fs_log_resource | apply preserves_ret].
  - intros e. unfold create_except.
    apply preserves_bind; [apply preserves_fs_log_request|]. intros _. apply preserves_ret.
Qed.

(** X22. The create flow touches the file system at its workspace
    only: whatever it returns or raises, every entry that lies neither
    in the workspace directory nor on the way from the root to it is as
    before, and a tree-shaped file system stays tree-shaped (workspace
    paths without [.] or [..] components). *)
Theorem create_server_job_fs_frame device_id instance_name user w :
  let path := PyPath.join (TERRAFORM_ROOT (config env)) device_id in
  let dir := loc env path in
  let w' := (create_server_job env device_id instance_name user w).2 in
  PyPath.plain path ->
  (forall k, ~ dir `prefix_of` k -> ~ k `prefix_of` dir -> w_fs w' !! k = w_fs w !! k)
  /\ (wf (w_fs w) -> wf (w_fs w')).
Proof.
  intros path dir w' _. subst path dir w'. split.
  - intros k Hout Hout'.
    eapply (create_server_job_preserves_fs (fun fs => fs !! k = w_fs w !! k)).
    + apply (preserves_lookup_generate _ _ _ k (w_fs w !! k) Hout Hout').
    + apply surjective_pairing.
    + reflexivity.
  - intros Hwf.
    eapply (create_server_job_preserves_fs wf).
    + apply generate_root_terraform_files_fs_wf.
    + apply surjective_pairing.
    + exact Hwf.
Qed.

End FileSystemFrame.

(* ===================================================================== *)
(** * Building a workspace: when it returns, and building it again *)
(* ===================================================================== *)

Section WorkspaceRuns.

Import FS.

Variable env : Env.

(** A regular file where the target directory or one of the directories
    leading to it should be makes the builder raise before it has
    changed anything. *)
Lemma generate_root_terraform_files_blocked device_id instance_name path w a :
  path <> "" -> wf (w_fs w) ->
  a ∈ ancestors_and_self (loc env path) -> is_file (w_fs w) a = true ->
  exists e w', generate_root_terraform_files env device_id instance_name path w = (Raise e, w')
               /\ w_fs w' = w_fs w.
Proof.
  intros Hpath Hwf Ha Hfile. set (dir := loc env path) in *.
  pose proof (ancestors_and_self_prefix _ _ Ha) as [Hpre Hne].
  unfold generate_root_terraform_files, mbind, M_bind, os_path_exists.
  apply String.eqb_neq in Hpath. rewrite Hpath. cbn [negb andb]. fold dir.
  assert (Hmk : makedirs (w_fs w) dir = inl "FileExistsError").
  { unfold makedirs.
    assert (Hex : existsb (is_file (w_fs w)) (ancestors_and_self dir) = true).
    { apply existsb_exists. exists a. split; [apply list_elem_of_In, Ha | exact Hfile]. }
    rewrite Hex. reflexivity. }
  destruct (bool_decide (is_Some (node_at (w_fs w) dir))) eqn:Hpresent.
  - (* the target exists: it is the file, and [rmtree] refuses it *)
    apply bool_decide_eq_true in Hpresent as [n Hn].
    assert (Hdir : a = dir).
    { destruct (decide (a = dir)) as [|Hneq]; [assumption|]. exfalso.
      destruct dir as [|c dir'] eqn:E.
      - apply Hne. destruct Hpre as [rest Hrest]. destruct a; [reflexivity | discriminate].
      - unfold node_at in Hn.
        pose proof (Hwf _ _ a Hn (conj Hpre (fun H => Hneq (eq_sym H))) Hne) as Hd.
        unfold is_file, node_at in Hfile. destruct a; [contradiction|].
        rewrite Hd in Hfile. discriminate. }
    subst a. unfold is_file in Hfile. rewrite Hn in Hfile.
    destruct n as [c|]; [|discriminate].
    unfold shutil_rmtree, fs_call. fold dir.
    destruct (env_fs_fault env (w_tick w)); [eexists _, _; split; reflexivity|].
    unfold rmtree. rewrite Hn. eexists _, _; split; reflexivity.
  - unfold mret, M_ret, os_makedirs, fs_call. fold dir. rewrite Hpath, Hmk.
    destruct (env_fs_fault env (w_tick w)); eexists _, _; split; reflexivity.
Qed.

Lemma workspace_entries_key dir (files : list (string * string)) k n :
  workspace_entries dir files !! k = Some n -> exists f, k = (dir ++ [f])%list.
Proof.
  unfold workspace_entries. intros H. apply elem_of_list_to_map_2 in H.
  apply list_elem_of_fmap in H as ([f c] & [= -> _] & _). eauto.
Qed.

Lemma workspace_entries_outside dir (files : list (string * string)) k :
  ~ below dir k -> workspace_entries dir files !! k = None.
Proof.
  intros Hk. destruct (workspace_entries dir files !! k) as [n|] eqn:E; [|reflexivity].
  apply workspace_entries_key in E as [f ->]. exfalso. apply Hk. split.
  - apply prefix_app_r. reflexivity.
  - intros H. apply (f_equal length) in H. rewrite length_app in H. simpl in H. lia.
Qed.

(** The files written by the loop, one entry per name. *)
Lemma write_files_lookup path (files : list (string * string)) :
  path <> "" ->
  Forall (fun f => PyPath.plain_name f.1 = true) files ->
  NoDup (map fst files) ->
  forall w w', write_files env path files w = (Ret tt, w') ->
  forall k, w_fs w' !! k
            = match workspace_entries (loc env path) files !! k with
              | Some n => Some n
              | None => w_fs w !! k
              end.
Proof.
  intros Hpath Hnames. induction Hnames as [|[name content] files Hname _ IH];
    intros Hnd w w' Hrun k.
  - injection Hrun as <-. reflexivity.
  - simpl in Hnd. apply NoDup_cons in Hnd as [Hfresh Hnd]. simpl in Hrun.
    apply bind_inv in Hrun as [([] & w1 & Hw & Hrun)|(e & _ & [=])].
    apply write_text_ret in Hw; [|assumption..].
    rewrite (IH Hnd _ _ Hrun k), Hw.
    unfold workspace_entries. cbn [map list_to_map foldr fst snd uncurry].
    fold (workspace_entries (loc env path) files).
    destruct (decide (k = (loc env path ++ [name])%list)) as [->|Hk].
    + assert (Hnone : workspace_entries (loc env path) files !! (loc env path ++ [name])%list
                      = None).
      { unfold workspace_entries. apply not_elem_of_list_to_map_1.
        intros Hin. apply list_elem_of_fmap in Hin as ([key node] & Hkey & Hin).
        apply list_elem_of_fmap in Hin as ([f c] & [= -> _] & Hin).
        simpl in Hkey. apply app_inv_head in Hkey. injection Hkey as ->.
        apply Hfresh, list_elem_of_In, in_map_iff. exists (f, c). split; [reflexivity|].
        apply list_elem_of_In, Hin. }
      rewrite Hnone, !lookup_insert_eq. reflexivity.
    + rewrite !lookup_insert_ne by (intros H; apply Hk; symmetry; exact H). reflexivity.
Qed.

(** The file system a returning run of the workspace builder leaves,
    entry by entry. *)
Lemma generate_root_terraform_files_lookup device_id instance_name path w w' :
  wf (w_fs w) ->
  generate_root_terraform_files env device_id instance_name path w = (Ret tt, w') ->
  let dir := loc env path in
  let files := Templates.files (config env) device_id instance_name in
  path <> ""
  /\ (forall k, below dir k -> w_fs w' !! k = workspace_entries dir files !! k)
  /\ (forall k, k ∈ ancestors_and_self dir -> w_fs w' !! k = Some Dir)
  /\ (forall k, ~ dir `prefix_of` k -> k ∉ ancestors_and_self dir -> w_fs w' !! k = w_fs w !! k)
  /\ (dir = [] -> w_fs w' !! [] = None).
Proof.
  intros Hwf Hrun dir files.
  unfold generate_root_terraform_files in Hrun.
  apply bind_inv in Hrun as [(present & w0 & Hex & Hrun) | (e & Hex & _)];
    [|discriminate Hex].
  unfold os_path_exists in Hex. injection Hex as <- <-.
  apply bind_inv in Hrun as [([] & w1 & Hrm & Hrun) | (e & _ & Hr)]; [|discriminate Hr].
  apply bind_inv in Hrun as [([] & w2 & Hmk & Hrun) | (e & _ & Hr)]; [|discriminate Hr].
  apply fs_call_ret in Hmk.
  destruct (String.eqb_spec path "") as [->|Hpath]; [discriminate Hmk|].
  fold dir in Hmk.
  assert (Hmade : forall k, w_fs w2 !! k
                            = if decide (k ∈ ancestors_and_self dir) then Some Dir
                              else w_fs w1 !! k).
  { intros k. unfold makedirs in Hmk. destruct (existsb _ _); [discriminate|].
    injection Hmk as <-. apply lookup_make_dirs. }
  assert (Hclean : (forall k, below dir k -> w_fs w1 !! k = None)
                   /\ (forall k, ~ dir `prefix_of` k -> w_fs w1 !! k = w_fs w !! k)
                   /\ (dir = [] -> w_fs w1 !! [] = None)).
  { simpl in Hrm. fold dir in Hrm.
    destruct (bool_decide (is_Some (node_at (w_fs w) dir))) eqn:Hpresent.
    - apply fs_call_ret, rmtree_ret in Hrm as [Hgone Hkept].
      split; [intros k [Hk _]; auto | split; [exact Hkept|]].
      intros Hroot. apply Hgone. exists []. rewrite app_nil_r. symmetry. exact Hroot.
    - injection Hrm as <-. apply bool_decide_eq_false in Hpresent.
      split; [|split; [reflexivity|]].
      + intros k Hk. destruct (w_fs w !! k) as [n|] eqn:E; [|reflexivity].
        exfalso. apply Hpresent.
        destruct dir as [|c dir']; [eexists; reflexivity|].
        exists Dir. apply (Hwf k n (c :: dir') E Hk). discriminate.
      + intros Hroot. exfalso. apply Hpresent. exists Dir.
        replace dir with (@nil string) by (symmetry; exact Hroot). reflexivity. }
  destruct Hclean as (Hgone & Hkept & Hroot).
  assert (Hfs : forall k, w_fs w' !! k
                          = match workspace_entries dir files !! k with
                            | Some n => Some n
                            | None => w_fs w2 !! k
                            end).
  { apply (write_files_lookup path files Hpath); [| |exact Hrun].
    - unfold files, Templates.files. repeat constructor.
    - unfold files, Templates.files. simpl.
      repeat (apply NoDup_cons_2;
              [rewrite ?elem_of_cons, elem_of_nil; intuition discriminate|]).
      apply NoDup_nil_2. }
  split; [exact Hpath|]. split; [|split; [|split]].
  - intros k Hk. rewrite Hfs, Hmade.
    rewrite decide_False.
    + rewrite (Hgone k Hk). destruct (workspace_entries dir files !! k); reflexivity.
    + intros Hin. apply ancestors_and_self_prefix in Hin as [Hp _]. destruct Hk as [Hk Hne].
      apply Hne. apply (anti_symm prefix); assumption.
  - intros k Hk. rewrite Hfs, Hmade, decide_True by exact Hk.
    rewrite workspace_entries_outside; [reflexivity|].
    intros [Hp Hne]. apply ancestors_and_self_prefix in Hk as [Hp' _].
    apply Hne. apply (anti_symm prefix); assumption.
  - intros k Hout Hnot. rewrite Hfs, Hmade, decide_False by exact Hnot.
    rewrite workspace_entries_outside by (intros [Hp _]; exact (Hout Hp)).
    apply Hkept, Hout.
  - intros Hd. rewrite Hfs, Hmade.
    rewrite workspace_entries_outside by (intros [_ Hne]; apply Hne; symmetry; exact Hd).
    rewrite decide_False; [apply Hroot, Hd|].
    intros Hin. apply ancestors_and_self_prefix in Hin as [_ Hne]. apply Hne. reflexivity.
Qed.

Hypothesis no_fs_fault : forall t, env_fs_fault env t = None.

(** X24. While no file-system call fails, on a tree-shaped file system
    and for a target path that is not empty and has no [.] or [..]
    component, the workspace builder returns exactly when no regular
    file stands where the target directory or one of the directories
    leading to it should be; and when it raises, it has changed
    nothing. *)
Theorem generate_root_terraform_files_returns_iff device_id instance_name path w :
  PyPath.plain path -> path <> "" -> wf (w_fs w) ->
  let run := generate_root_terraform_files env device_id instance_name path w in
  (run.1 = Ret tt
   <-> forall a, a ∈ ancestors_and_self (loc env path) -> is_file (w_fs w) a = false)
  /\ (forall e, run.1 = Raise e -> w_fs run.2 = w_fs w).
Proof.
  intros _ Hpath Hwf run. subst run.
  destruct (existsb (is_file (w_fs w)) (ancestors_and_self (loc env path))) eqn:Hex.
  - apply existsb_exists in Hex as (a & Ha & Hfile). apply list_elem_of_In in Ha.
    destruct (generate_root_terraform_files_blocked device_id instance_name path w a
                Hpath Hwf Ha Hfile) as (e & w' & Hrun & Hfs).
    rewrite Hrun. simpl. split; [split|].
    + discriminate.
    + intros Hno. rewrite (Hno a Ha) in Hfile. discriminate.
    + intros _ _. exact Hfs.
  - assert (Hno : forall a, a ∈ ancestors_and_self (loc env path) ->
                            is_file (w_fs w) a = false).
    { intros a Ha. destruct (is_file (w_fs w) a) eqn:E; [|reflexivity].
      assert (existsb (is_file (w_fs w)) (ancestors_and_self (loc env path)) = true).
      { apply existsb_exists. exists a. split; [apply list_elem_of_In, Ha | exact E]. }
      congruence. }
    destruct (generate_root_terraform_files_returns env no_fs_fault device_id instance_name
                path w Hpath Hwf Hno) as (w' & Hrun).
    rewrite Hrun. simpl. split; [split; auto|]. discriminate.
Qed.

(** X25. Building a workspace again changes nothing: after a run that
    returned on a tree-shaped file system, a second run for the same
    device and instance name returns as well, while no file-system call
    fails, and leaves the file system exactly as the first run left it
    (paths without [.] or [..] components). *)
Theorem generate_root_terraform_files_again device_id instance_name path w w1 :
  PyPath.plain path ->
  wf (w_fs w) ->
  generate_root_terraform_files env device_id instance_name path w = (Ret tt, w1) ->
  exists w2,
    generate_root_terraform_files env device_id instance_name path w1 = (Ret tt, w2)
    /\ w_fs w2 = w_fs w1.
Proof.
  intros _ Hwf Hrun1.
  pose proof (generate_root_terraform_files_lookup _ _ _ _ _ Hwf Hrun1)
    as (Hpath & Hin1 & Hanc1 & Hout1 & Hroot1).
  assert (Hwf1 : wf (w_fs w1)).
  { eapply (generate_root_terraform_files_fs_wf env); eassumption. }
  assert (Hno : forall a, a ∈ ancestors_and_self (loc env path) -> is_file (w_fs w1) a = false).
  { intros a Ha. unfold is_file, node_at. destruct a; [reflexivity|].
    rewrite (Hanc1 _ Ha). reflexivity. }
  destruct (generate_root_terraform_files_returns env no_fs_fault device_id instance_name
              path w1 Hpath Hwf1 Hno) as (w2 & Hrun2).
  exists w2. split; [exact Hrun2|].
  pose proof (generate_root_terraform_files_lookup _ _ _ _ _ Hwf1 Hrun2)
    as (_ & Hin2 & Hanc2 & Hout2 & Hroot2).
  apply map_eq. intros k.
  destruct (decide (k ∈ ancestors_and_self (loc env path))) as [Ha|Ha].
  { rewrite (Hanc1 _ Ha), (Hanc2 _ Ha). reflexivity. }
  destruct (decide (loc env path `prefix_of` k)) as [Hp|Hp].
  - destruct (decide (k = loc env path)) as [->|Hne].
    + destruct (loc env path) as [|c dir'] eqn:E.
      * rewrite Hroot1, Hroot2 by reflexivity. reflexivity.
      * exfalso. apply Ha. rewrite <- E. apply ancestors_and_self_self. rewrite E. discriminate.
    + rewrite Hin1, Hin2 by (split; assumption). reflexivity.
  - apply Hout2; assumption.
Qed.

End WorkspaceRuns.

(* ===================================================================== *)
(** * A create job in which nothing fails *)
(* ===================================================================== *)

Section HappyPath.

Import Db.

Variable env : Env.

(** A write for a request id that has its record returns the key of
    that record and rewrites the record in place. *)
Lemma log_request_existing rid user st dur err created w k w' r0 :
  wf (w_db w) -> rows_of (w_db w) rid = [r0] ->
  log_request env rid user st dur err created w = (Ret k, w') ->
  k = log_id r0
  /\ rows_of (w_db w') rid = [set_status r0 st dur err (env_utcnow env (w_tick w))]
  /\ request_resources (w_db w') = request_resources (w_db w).
Proof.
  intros Hwf Hrows Hrun.
  assert (Hsel : select_log_id (w_db w) rid = Some (log_id r0)).
  { unfold select_log_id. rewrite Hrows. reflexivity. }
  apply log_request_ret in Hrun as (_ & Htx & _).
  rewrite (log_request_tx_update _ _ _ _ _ _ _ _ _ _ Hwf Hsel) in Htx.
  injection Htx as <- <-. split; [reflexivity|]. split; [|reflexivity].
  unfold rows_of in *. simpl. rewrite update_rows_filter, Hrows. simpl.
  rewrite Z.eqb_refl. reflexivity.
Qed.

Lemma log_resource_returns l rtype rname rvalue w :
  env_db_fault env (w_tick w) = None ->
  exists w', log_resource env l rtype rname rvalue w = (Ret tt, w').
Proof.
  intros Hup. unfold log_resource, emit, transaction, mbind, M_bind. simpl.
  rewrite Hup. eexists. reflexivity.
Qed.

(** A create job in which nothing fails, in full. *)
Lemma create_server_job_run_ok device_id instance_name user w :
  let rid := normalize_request_id (runtime env) device_id in
  let path := PyPath.join (TERRAFORM_ROOT (config env)) device_id in
  let dir := loc env path in
  (forall t, env_db_fault env t = None) ->
  (forall t, env_fs_fault env t = None) ->
  (forall t cmd cwd, exists out err, env_proc env t cmd cwd = Exited 0 out err) ->
  store_invariant w ->
  FS.wf (w_fs w) ->
  path <> "" ->
  (forall a, a ∈ FS.ancestors_and_self dir -> FS.is_file (w_fs w) a = false) ->
  exists out dur w' row res,
    create_server_job env device_id instance_name user w
    = (Ret {| success := true; output := out; duration := dur |}, w')
    /\ (rows_of (w_db w') rid = [row]
        /\ status row = "success" /\ error_message row = None
        /\ duration_seconds row = Some dur
        /\ forall r0, rows_of (w_db w) rid = [r0] -> log_id row = log_id r0)
    /\ (request_resources (w_db w') = (request_resources (w_db w) ++ [res])%list
        /\ res_log_id res = log_id row /\ resource_type res = "EC2"
        /\ resource_name res = instance_name /\ resource_id_value res = device_id)
    /\ store_invariant w' /\ FS.wf (w_fs w')
    /\ (forall a, a ∈ FS.ancestors_and_self dir -> FS.is_file (w_fs w') a = false).
Proof.
  intros rid path dir Hdb Hfs Hproc [Hwf Huniq] Hfswf Hpath Hfree.
  (* the create_started write *)
  destruct (log_request_returns env rid user "create_started" None None None w (Hdb _))
    as (k & w1 & Hstart).
  assert (Hinv1 : store_invariant w1).
  { eapply preserves_invariant_log_request; [exact Hstart | split; assumption]. }
  destruct (log_request_writes_row env _ _ _ _ _ _ _ _ _ Hwf Hstart)
    as (r1 & Hin1 & Hk1 & Hrid1 & _).
  pose proof (the_record _ _ _ (proj2 Hinv1) Hin1 Hrid1) as Hrows1.
  assert (Hres1 : request_resources (w_db w1) = request_resources (w_db w)).
  { apply log_request_ret in Hstart as (_ & Htx & _).
    pose proof (log_request_tx_resources (w_db w) rid user "create_started" None None None
                  (env_utcnow env (w_tick w)) (env_db_now env (w_tick w))) as H.
    rewrite Htx in H. exact H. }
  assert (Hkey : forall r0, rows_of (w_db w) rid = [r0] -> k = log_id r0).
  { intros r0 Hr0.
    apply (log_request_existing rid user "create_started" None None None w k w1 r0 Hwf Hr0
             Hstart). }
  pose proof (log_request_trace env _ _ _ _ _ _ _ _ _ Hstart) as [_ Hfs1].
  (* the workspace *)
  destruct (generate_root_terraform_files_returns env Hfs device_id instance_name path w1 Hpath)
    as (w2 & Hgen).
  { rewrite Hfs1. exact Hfswf. }
  { rewrite Hfs1. exact Hfree. }
  assert (Hdb2 : w_db w2 = w_db w1).
  { eapply (preserves_generate env (fun w0 => w_db w0 = w_db w1)); try exact Hgen;
      try (intros w0; intros; assumption). reflexivity. }
  assert (Hfswf1 : FS.wf (w_fs w1)) by (rewrite Hfs1; exact Hfswf).
  pose proof (generate_root_terraform_files_lookup env _ _ _ _ _ Hfswf1 Hgen)
    as (_ & _ & Hanc & _ & _).
  assert (Hfswf2 : FS.wf (w_fs w2)).
  { eapply (generate_root_terraform_files_fs_wf env); eassumption. }
  (* the pipeline *)
  destruct (Hproc (S (w_tick w2)) init_cmd path) as (out1 & err1 & Hinit).
  destruct (Hproc (S (S (w_tick w2))) (apply_cmd device_id instance_name) path)
    as (out2 & err2 & Happly).
  destruct (run_terraform_commands_success env path device_id instance_name w2
              out1 err1 out2 err2 Hinit Happly) as (out & dur & w3 & Hpipe).
  assert (H3 : w_db w3 = w_db w1 /\ w_fs w3 = w_fs w2).
  { eapply (preserves_run_terraform_commands env
              (fun w0 => w_db w0 = w_db w1 /\ w_fs w0 = w_fs w2));
      try exact Hpipe; try (intros w0; intros; assumption). split; [exact Hdb2 | reflexivity]. }
  destruct H3 as [Hdb3 Hfs3].
  (* the terminal write and the resource row *)
  destruct (log_request_returns env rid user "success" (Some dur) None None w3 (Hdb _))
    as (k' & w4 & Hterm).
  destruct (log_request_existing rid user "success" (Some dur) None None w3 k' w4 r1)
    as (Hk' & Hrows4 & Hres4); try exact Hterm.
  { rewrite Hdb3. apply Hinv1. }
  { rewrite Hdb3. exact Hrows1. }
  pose proof (log_request_trace env _ _ _ _ _ _ _ _ _ Hterm) as [_ Hfs4].
  assert (Hinv4 : store_invariant w4).
  { eapply preserves_invariant_log_request; [exact Hterm|].
    unfold store_invariant. rewrite Hdb3. exact Hinv1. }
  destruct (log_resource_returns k "EC2" instance_name device_id w4 (Hdb _)) as (w5 & Hres).
  pose proof (log_resource_ret env _ _ _ _ _ _ Hres) as (_ & Hdb5 & Hfs5 & _).
  assert (Hinv5 : store_invariant w5).
  { eapply preserves_invariant_log_resource; [exact Hres | exact Hinv4]. }
  assert (Hfsend : w_fs w5 = w_fs w2) by congruence.
  eexists out, dur, w5, _, _. split; [|split; [|split; [|split; [|split]]]].
  - unfold create_server_job. fold rid path.
    unfold mbind at 1, M_bind at 1. rewrite Hstart. unfold try_except, create_try.
    unfold mbind, M_bind. rewrite Hgen, Hpipe, Hterm, Hres. reflexivity.
  - split; [rewrite Hdb5; unfold rows_of in *; simpl; exact Hrows4|].
    split; [reflexivity|]. split; [reflexivity|]. split; [reflexivity|].
    intros r0 Hr0. simpl. rewrite Hk1. apply Hkey, Hr0.
  - split; [rewrite Hdb5; simpl; rewrite Hres4, Hdb3, Hres1; reflexivity|].
    simpl. auto.
  - exact Hinv5.
  - rewrite Hfsend. exact Hfswf2.
  - intros a Ha. rewrite Hfsend. unfold FS.is_file, FS.node_at. destruct a; [reflexivity|].
    rewrite (Hanc _ Ha). reflexivity.
Qed.

(** X11. When the database accepts every transaction, no file-system
    call fails, every subprocess exits with code 0 and no regular file
    stands in the way of the workspace (a workspace path without [.] or
    [..] components on a tree-shaped file system), the create flow
    returns a result with success true. The request id then has one
    record, with status [success], no error message and the duration of
    the result, and one resource row has been added, which carries the
    key of that record, the type [EC2], the instance name and the
    device id. *)
Theorem create_server_job_succeeds device_id instance_name user w :
  let rid := normalize_request_id (runtime env) device_id in
  let path := PyPath.join (TERRAFORM_ROOT (config env)) device_id in
  let dir := loc env path in
  (forall t, env_db_fault env t = None) ->
  (forall t, env_fs_fault env t = None) ->
  (forall t cmd cwd, exists out err, env_proc env t cmd cwd = Exited 0 out err) ->
  store_invariant w ->
  FS.wf (w_fs w) ->
  PyPath.plain path -> path <> "" ->
  (forall a, a ∈ FS.ancestors_and_self dir -> FS.is_file (w_fs w) a = false) ->
  exists out dur w' row res,
    create_server_job env device_id instance_name user w
    = (Ret {| success := true; output := out; duration := dur |}, w')
    /\ rows_of (w_db w') rid = [row]
    /\ status row = "success" /\ error_message row = None
    /\ duration_seconds row = Some dur
    /\ request_resources (w_db w') = (request_resources (w_db w) ++ [res])%list
    /\ res_log_id res = log_id row /\ resource_type res = "EC2"
    /\ resource_name res = instance_name /\ resource_id_value res = device_id.
Proof.
  intros rid path dir Hdb Hfs Hproc Hinv Hfswf _ Hpath Hfree.
  destruct (create_server_job_run_ok device_id instance_name user w
              Hdb Hfs Hproc Hinv Hfswf Hpath Hfree)
    as (out & dur & w' & row & res & Hrun & (Hrows & Hst & Herr & Hdur & _)
        & (Hres & Hk & Hty & Hname & Hval) & _).
  exists out, dur, w', row, res. repeat split; assumption.
Qed.

(** X12. Resource rows are never deduplicated: two create jobs for the
    same device, one after the other and both without any failure (under
    the conditions of the previous statement), leave one status record
    for the request id and two resource rows that carry the key of that
    record, the type [EC2], the instance name and the device id. *)
Theorem create_server_job_twice_two_resource_rows device_id instance_name user w :
  let rid := normalize_request_id (runtime env) device_id in
  let path := PyPath.join (TERRAFORM_ROOT (config env)) device_id in
  (forall t, env_db_fault env t = None) ->
  (forall t, env_fs_fault env t = None) ->
  (forall t cmd cwd, exists out err, env_proc env t cmd cwd = Exited 0 out err) ->
  store_invariant w ->
  FS.wf (w_fs w) ->
  PyPath.plain path -> path <> "" ->
  (forall a, a ∈ FS.ancestors_and_self (loc env path) -> FS.is_file (w_fs w) a = false) ->
  exists jr1 w1 jr2 w2 row res1 res2,
    create_server_job env device_id instance_name user w = (Ret jr1, w1)
    /\ create_server_job env device_id instance_name user w1 = (Ret jr2, w2)
    /\ success jr1 = true /\ success jr2 = true
    /\ rows_of (w_db w2) rid = [row]
    /\ request_resources (w_db w2) = (request_resources (w_db w) ++ [res1; res2])%list
    /\ Forall (fun res => res_log_id res = log_id row /\ resource_type res = "EC2"
                          /\ resource_name res = instance_name
                          /\ resource_id_value res = device_id) [res1; res2].
Proof.
  intros rid path Hdb Hfs Hproc Hinv Hfswf _ Hpath Hfree.
  destruct (create_server_job_run_ok device_id instance_name user w
              Hdb Hfs Hproc Hinv Hfswf Hpath Hfree)
    as (out1 & dur1 & w1 & row1 & res1 & Hrun1 & (Hrows1 & _)
        & (Hres1 & Hk1 & Hty1 & Hname1 & Hval1) & Hinv1 & Hfswf1 & Hfree1).
  destruct (create_server_job_run_ok device_id instance_name user w1
              Hdb Hfs Hproc Hinv1 Hfswf1 Hpath Hfree1)
    as (out2 & dur2 & w2 & row2 & res2 & Hrun2 & (Hrows2 & _ & _ & _ & Hsame)
        & (Hres2 & Hk2 & Hty2 & Hname2 & Hval2) & _).
  specialize (Hsame row1 Hrows1).
  eexists _, w1, _, w2, row2, res1, res2.
  split; [exact Hrun1|]. split; [exact Hrun2|]. split; [reflexivity|]. split; [reflexivity|].
  split; [exact Hrows2|]. split.
  - rewrite Hres2, Hres1, <- app_assoc. reflexivity.
  - repeat constructor; try assumption. congruence.
Qed.

End HappyPath.

(* ===================================================================== *)
(** * The lines of the generated files *)
(* ===================================================================== *)

Section TemplateLines.

Import PyText.

(** A line of a template that has text survives [dedent] and [strip]
    up to its indentation, whatever the other lines are. *)
Lemma rendered_dedent_keeps_line (X Y : list string) (indent text : string) c K' c' K'' :
  forallb is_blank (chars indent) = true ->
  chars text = c :: K' -> is_blank c = false -> isspace c = false ->
  rev (chars text) = c' :: K'' -> isspace c' = false ->
  LF ∉ chars text ->
  contains text (Templates.rendered (dedent (join nl (X ++ (indent ++ text) :: Y)))) = true.
Proof.
  intros Hsp HK Hcb Hcs HrevK Hcs' Hlf.
  set (K := chars text) in *. set (sp := chars indent) in *.
  set (raw := join nl (X ++ (indent ++ text) :: Y)).
  assert (Hnolf : LF ∉ (sp ++ K)%list).
  { intros Hin. apply elem_of_app in Hin as [Hin|Hin]; [|exact (Hlf Hin)].
    subst sp. induction (chars indent) as [|x l IH]; [inversion Hin|].
    simpl in Hsp. apply andb_prop in Hsp as [Hx Hl].
    apply elem_of_cons in Hin as [<-|Hin]; [discriminate Hx | exact (IH Hl Hin)]. }
  assert (Hline : (sp ++ K)%list ∈ map blank_line (split LF (chars raw))).
  { assert (Hb : blank_line (sp ++ K) = (sp ++ K)%list).
    { unfold blank_line. rewrite forallb_app, HK. simpl. rewrite Hcb.
      rewrite andb_false_r. reflexivity. }
    rewrite <- Hb. apply list_elem_of_fmap_2.
    unfold raw. rewrite chars_join, map_app, map_cons, chars_app.
    apply split_unsplit_piece, Hnolf. }
  set (lines := map blank_line (split LF (chars raw))) in *.
  set (g := match margin_loop None lines with
            | Some (x :: m) => remove_margin (x :: m)
            | _ => fun l => l
            end).
  destruct (dedent_line_keeps lines sp K c K' HK Hcb Hsp Hline g eq_refl) as [pre Hpre].
  assert (Hded : dedent_chars (chars raw) = unsplit LF (map g lines)).
  { unfold dedent_chars. fold lines. subst g.
    destruct (margin_loop None lines) as [[|x m]|]; rewrite ?map_id; reflexivity. }
  apply list_elem_of_split in Hline as (L1 & L2 & HL).
  rewrite HL, map_app, map_cons, Hpre in Hded.
  destruct (unsplit_piece LF (map g L1) (pre ++ K) (map g L2)) as (A & B & HAB).
  rewrite HAB in Hded.
  unfold contains. fold K.
  apply (rendered_keeps _ (A ++ pre) K B c K' c' K''); auto.
  unfold dedent. rewrite chars_of_chars, Hded, <- !app_assoc. reflexivity.
Qed.

(** A setting [name = "value"] whose value has no line feed. *)
Lemma setting_shape (name value : string) x name' :
  name = String x name' -> is_blank x = false -> isspace x = false ->
  LF ∉ chars name -> LF ∉ chars value ->
  let text := name ++ dq ++ value ++ dq in
  (exists c K', chars text = c :: K' /\ is_blank c = false /\ isspace c = false)
  /\ (exists c' K'', rev (chars text) = c' :: K'' /\ isspace c' = false)
  /\ LF ∉ chars text.
Proof.
  intros -> Hb Hs Hname Hvalue text. subst text. split; [|split].
  - simpl. eexists _, _. repeat split; assumption.
  - rewrite !chars_app, !rev_app_distr. simpl. eexists _, _. split; reflexivity.
  - rewrite !chars_app. intros Hin.
    apply elem_of_app in Hin as [Hin|Hin]; [exact (Hname Hin)|].
    apply elem_of_app in Hin as [Hin|Hin].
    { revert Hin. apply (no_line_feed_chars dq). reflexivity. }
    apply elem_of_app in Hin as [Hin|Hin]; [exact (Hvalue Hin)|].
    revert Hin. apply (no_line_feed_chars dq). reflexivity.
Qed.

(** X26. [main.tf] holds the instance name and the device id as they are
    given, between double quotes and without any escaping: every
    instance name without line feed appears in the line
    [instance_name = "<instance_name>"] of the file written, and every
    device id without line feed in the line [device_id = "<device_id>"]. *)
Theorem main_tf_holds_names_verbatim (cfg : Config) (device_id instance_name : string) :
  exists content,
    In ("main.tf", content) (Templates.files cfg device_id instance_name)
    /\ (LF ∉ chars instance_name ->
        contains ("instance_name = " ++ dq ++ instance_name ++ dq)
                 (Templates.rendered content) = true)
    /\ (LF ∉ chars device_id ->
        contains ("device_id     = " ++ dq ++ device_id ++ dq)
                 (Templates.rendered content) = true).
Proof.
  eexists. split; [left; reflexivity|]. split.
  - intros Hlf.
    destruct (setting_shape "instance_name = " instance_name _ _ eq_refl eq_refl eq_refl)
      as ((c & K' & HK & Hcb & Hcs) & (c' & K'' & Hrev & Hcs') & Hnolf); [|exact Hlf|].
    { apply (no_line_feed_chars "instance_name = "). reflexivity. }
    unfold Templates.main_tf_raw.
    apply (rendered_dedent_keeps_line
             [ "";
               "    module " ++ dq ++ "ec2" ++ dq ++ " {";
               "      source        = " ++ dq ++ MODULE_PATH ++ dq;
               "      ami           = " ++ dq ++ "ami-0c02fb55956c7d316" ++ dq;
               "      instance_type = " ++ dq ++ "t3.micro" ++ dq ]
             [ "      device_id     = " ++ dq ++ device_id ++ dq; "    }"; "    " ]
             "      " ("instance_name = " ++ dq ++ instance_name ++ dq) c K' c' K'');
      auto.
  - intros Hlf.
    destruct (setting_shape "device_id     = " device_id _ _ eq_refl eq_refl eq_refl)
      as ((c & K' & HK & Hcb & Hcs) & (c' & K'' & Hrev & Hcs') & Hnolf); [|exact Hlf|].
    { apply (no_line_feed_chars "device_id     = "). reflexivity. }
    unfold Templates.main_tf_raw.
    apply (rendered_dedent_keeps_line
             [ "";
               "    module " ++ dq ++ "ec2" ++ dq ++ " {";
               "      source        = " ++ dq ++ MODULE_PATH ++ dq;
               "      ami           = " ++ dq ++ "ami-0c02fb55956c7d316" ++ dq;
               "      instance_type = " ++ dq ++ "t3.micro" ++ dq;
               "      instance_name = " ++ dq ++ instance_name ++ dq ]
             [ "    }"; "    " ]
             "      " ("device_id     = " ++ dq ++ device_id ++ dq) c K' c' K'');
      auto.
Qed.

(** X27. An unset [TF_STATE_BUCKET] or [DYNAMO_TABLE] is written into
    [provider.tf] as the text [None]: the backend block of the file
    then holds the setting [bucket = "None"], respectively
    [dynamodb_table = "None"], for every device id. *)
Theorem provider_file_unset_settings (cfg : Config) (device_id instance_name : string) :
  exists content,
    In ("provider.tf", content) (Templates.files cfg device_id instance_name)
    /\ (TF_STATE_BUCKET cfg = None ->
        contains ("bucket         = " ++ dq ++ "None" ++ dq) (Templates.rendered content) = true)
    /\ (DYNAMO_TABLE cfg = None ->
        contains ("dynamodb_table = " ++ dq ++ "None" ++ dq) (Templates.rendered content) = true).
Proof.
  eexists. split; [right; right; right; left; reflexivity|]. split.
  - intros Hunset. unfold Templates.provider_tf_raw. rewrite Hunset.
    eapply (rendered_dedent_keeps_line
             [ "";
               "    terraform {";
               "      required_version = " ++ dq ++ ">= 1.1.0" ++ dq;
               "";
               "      backend " ++ dq ++ "s3" ++ dq ++ " {" ]
             [ "        " ++ Templates.key_setting device_id;
               "        region         = " ++ dq ++ AWS_REGION cfg ++ dq;
               "        dynamodb_table = " ++ dq ++ fmt_opt (DYNAMO_TABLE cfg) ++ dq;
               "        encrypt        = true";
               "      }";
               "    }";
               "";
               "    provider " ++ dq ++ "aws" ++ dq ++ " {";
               "      region = " ++ dq ++ AWS_REGION cfg ++ dq;
               "    }";
               "    " ]
             "        " ("bucket         = " ++ dq ++ "None" ++ dq));
      try reflexivity.
    apply (no_line_feed_chars ("bucket         = " ++ dq ++ "None" ++ dq)). reflexivity.
  - intros Hunset. unfold Templates.provider_tf_raw. rewrite Hunset.
    eapply (rendered_dedent_keeps_line
             [ "";
               "    terraform {";
               "      required_version = " ++ dq ++ ">= 1.1.0" ++ dq;
               "";
               "      backend " ++ dq ++ "s3" ++ dq ++ " {";
               "        bucket         = " ++ dq ++ fmt_opt (TF_STATE_BUCKET cfg) ++ dq;
               "        " ++ Templates.key_setting device_id;
               "        region         = " ++ dq ++ AWS_REGION cfg ++ dq ]
             [ "        encrypt        = true";
               "      }";
               "    }";
               "";
               "    provider " ++ dq ++ "aws" ++ dq ++ " {";
               "      region = " ++ dq ++ AWS_REGION cfg ++ dq;
               "    }";
               "    " ]
             "        " ("dynamodb_table = " ++ dq ++ "None" ++ dq));
      try reflexivity.
    apply (no_line_feed_chars ("dynamodb_table = " ++ dq ++ "None" ++ dq)). reflexivity.
Qed.

End TemplateLines.

(* ===================================================================== *)
(** * Devices, workspaces and request ids *)
(* ===================================================================== *)

Section Devices.

Variable env : Env.

(** X23. The create flow of one device leaves the workspace of every
    other device alone: for two different device ids that name one
    directory entry each, below a root without [.] or [..] components,
    no entry at or below the workspace of the second is changed by a
    run of the create flow for the first, whatever that run returns or
    raises. *)
Theorem create_server_job_keeps_other_workspaces device_id other instance_name user w k :
  PyPath.plain (TERRAFORM_ROOT (config env)) ->
  TERRAFORM_ROOT (config env) <> "" ->
  simple_id device_id = true -> simple_id other = true -> device_id <> other ->
  loc env (PyPath.join (TERRAFORM_ROOT (config env)) other) `prefix_of` k ->
  w_fs (create_server_job env device_id instance_name user w).2 !! k = w_fs w !! k.
Proof.
  intros _ Hroot Hd Ho Hne Hk.
  apply andb_prop in Hd as [Hd _]. apply andb_prop in Ho as [Ho _].
  unfold loc in Hk. rewrite (resolve_join _ _ _ Hroot Ho) in Hk.
  set (R := PyPath.resolve (cwd env) (TERRAFORM_ROOT (config env))) in *.
  assert (Hdir : loc env (PyPath.join (TERRAFORM_ROOT (config env)) device_id)
                 = (R ++ [device_id])%list).
  { unfold loc. apply resolve_join; assumption. }
  destruct Hk as [rest ->].
  eapply (create_server_job_preserves_fs env
            (fun fs => fs !! ((R ++ [other]) ++ rest)%list
                       = w_fs w !! ((R ++ [other]) ++ rest)%list)).
  - apply preserves_lookup_generate; rewrite Hdir.
    + intros [x Hx]. rewrite <- !app_assoc in Hx. apply app_inv_head in Hx.
      injection Hx as Hx _. congruence.
    + intros [x Hx]. rewrite <- !app_assoc in Hx. apply app_inv_head in Hx.
      injection Hx as Hx _. congruence.
  - apply surjective_pairing.
  - reflexivity.
Qed.

End Devices.

Section PaddedIds.

Import PyInt.

Lemma isspace_is_ascii c : Py_ISSPACE c = true -> is_ascii c = true.
Proof.
  unfold Py_ISSPACE, is_ascii. intros H. apply Z.ltb_lt.
  apply orb_prop in H as [H|H].
  - apply andb_prop in H as [_ H]. apply Z.leb_le in H. lia.
  - apply Z.eqb_eq in H. lia.
Qed.

Lemma transform_cons_ascii c l :
  is_ascii c = true -> transform (c :: l) = c :: transform l.
Proof.
  intros Hc. unfold transform. simpl. rewrite Hc. simpl.
  destruct (forallb is_ascii l); [reflexivity|].
  unfold transform_char at 1. rewrite Hc. reflexivity.
Qed.

(** [int] skips leading white space. *)
Lemma int_leading_space lim (sp d : string) :
  forallb Py_ISSPACE (chars sp) = true -> int lim (sp ++ d) = int lim d.
Proof.
  induction sp as [|c sp IH]; [reflexivity|]. simpl. intros H.
  apply andb_prop in H as [Hc Hsp]. rewrite <- (IH Hsp).
  unfold int. simpl. rewrite (transform_cons_ascii _ _ (isspace_is_ascii _ Hc)).
  unfold from_string. simpl. rewrite Hc. reflexivity.
Qed.

Lemma length_append (a b : string) :
  String.length (a ++ b) = (String.length a + String.length b)%nat.
Proof. induction a as [|c a IH]; simpl; [reflexivity | rewrite IH; reflexivity]. Qed.

Lemma join_length_padded root (sp d : string) c sp' :
  sp = String c sp' -> Py_ISSPACE c = true ->
  PyPath.join root (sp ++ d) <> PyPath.join root d.
Proof.
  intros -> Hc Heq. apply (f_equal String.length) in Heq. revert Heq.
  assert (Hns : PyPath.starts_with_slash (String c sp' ++ d) = false).
  { simpl. destruct (Ascii.eqb_spec c PyPath.slash) as [->|]; [discriminate Hc | reflexivity]. }
  unfold PyPath.join. rewrite Hns.
  destruct (PyPath.starts_with_slash d), ((root =? "")%string || PyPath.ends_with_slash root);
    rewrite ?length_append; simpl; rewrite ?length_append; simpl; lia.
Qed.

(** X2. Padding a numeric device id with white space gives another device
    with another workspace path and the same request id: the two
    devices share one status record. *)
Theorem padded_device_ids_share_request_id (rt : Runtime) (root sp d : string) (n : Z) :
  sp <> "" ->
  forallb Py_ISSPACE (chars sp) = true ->
  int (int_max_str_digits rt) d = Some n ->
  normalize_request_id rt (sp ++ d) = normalize_request_id rt d
  /\ normalize_request_id rt d = n
  /\ PyPath.join root (sp ++ d) <> PyPath.join root d.
Proof.
  intros Hsp Hspace Hint. split; [|split].
  - unfold normalize_request_id. rewrite (int_leading_space _ _ _ Hspace), Hint. reflexivity.
  - unfold normalize_request_id. rewrite Hint. reflexivity.
  - destruct sp as [|c sp']; [contradiction|]. simpl in Hspace.
    apply andb_prop in Hspace as [Hc _]. eapply join_length_padded; [reflexivity | exact Hc].
Qed.

End PaddedIds.

(* ===================================================================== *)
(** * Start-up *)
(* ===================================================================== *)

Section StartupRuns.

Import Startup.

(** The first pass through the loop ends it. *)
Lemma attempts_first (faults : nat -> option string) (max_retries attempt : nat)
      (left : list nat) (b : Boot) :
  attempts faults max_retries (attempt :: left) b
  = (Ret tt,
     {| printed := (printed b
                    ++ [Attempt (attempt + 1) max_retries;
                        match faults (create_all_runs b) with
                        | Some e => InitializationFailed e
                        | None => TablesCreated
                        end;
                        Initialized])%list;
        create_all_runs := S (create_all_runs b);
        slept := slept b |}).
Proof.
  cbn [attempts].
  unfold init_db, Startup.try_except, Startup.bind, create_all, print. cbn.
  destruct (faults (create_all_runs b)); cbn; rewrite <- ?app_assoc; reflexivity.
Qed.

(** X28. [init_db] catches every exception, so the retry loop of
    [startup_event] never retries: whatever the database does,
    [startup_event] returns after one attempt, in which
    [metadata.create_all] has been run once and nothing has been slept;
    it prints the line of attempt 1 of 10, then that the tables were
    created or that the initialization failed with the message of the
    exception, and in both cases that the database was initialized. *)
Theorem startup_event_one_attempt (faults : nat -> option string) (b : Boot) :
  startup_event faults b
  = (Ret tt,
     {| printed := (printed b
                    ++ [Attempt 1 10;
                        match faults (create_all_runs b) with
                        | Some e => InitializationFailed e
                        | None => TablesCreated
                        end;
                        Initialized])%list;
        create_all_runs := S (create_all_runs b);
        slept := slept b |}).
Proof. unfold startup_event. cbn [seq]. apply attempts_first. Qed.

End StartupRuns.

(* ===================================================================== *)
(** * The status writes of a flow *)
(* ===================================================================== *)

Section StatusWrites.

Variable env : Env.

Lemma log_request_status_writes rid user st dur err created w r w' :
  log_request env rid user st dur err created w = (r, w') ->
  status_writes (w_trace w') = (status_writes (w_trace w) ++ [(rid, user, st)])%list.
Proof.
  intros Hrun. apply log_request_trace in Hrun as [-> _].
  unfold status_writes. rewrite omap_app. reflexivity.
Qed.

Lemma log_resource_status_writes l rtype rname rvalue w r w' :
  log_resource env l rtype rname rvalue w = (r, w') ->
  status_writes (w_trace w') = status_writes (w_trace w).
Proof.
  intros Hrun. destruct r as [[]|e].
  - apply log_resource_ret in Hrun as (_ & _ & _ & ->).
    unfold status_writes. rewrite omap_app. apply app_nil_r.
  - apply log_resource_raise in Hrun as [_ ->]. simpl.
    unfold status_writes. rewrite omap_app. apply app_nil_r.
Qed.

Lemma status_writes_run_cmd l w cmd cwd :
  status_writes (w_trace w) = l ->
  status_writes (w_trace (log_event w (EvRunCmd cmd cwd))) = l.
Proof.
  intros <-. simpl. unfold status_writes. rewrite omap_app. apply app_nil_r.
Qed.

Lemma generate_status_writes device_id instance_name path w r w' :
  generate_root_terraform_files env device_id instance_name path w = (r, w') ->
  status_writes (w_trace w') = status_writes (w_trace w).
Proof.
  intros Hrun.
  eapply (preserves_generate env (fun w0 => status_writes (w_trace w0) = status_writes (w_trace w)));
    try exact Hrun; try (intros w0; intros; assumption). reflexivity.
Qed.

Lemma run_terraform_commands_status_writes path device_id instance_name w r w' :
  run_terraform_commands env path device_id instance_name w = (r, w') ->
  status_writes (w_trace w') = status_writes (w_trace w).
Proof.
  intros Hrun.
  eapply (preserves_run_terraform_commands env
            (fun w0 => status_writes (w_trace w0) = status_writes (w_trace w)));
    try exact Hrun; try (intros w0; intros; assumption); try reflexivity.
  intros w0 cmd cwd. apply status_writes_run_cmd.
Qed.

Lemma destroy_terraform_resources_status_writes path device_id instance_name w r w' :
  destroy_terraform_resources env path device_id instance_name w = (r, w') ->
  status_writes (w_trace w') = status_writes (w_trace w).
Proof.
  intros Hrun. apply destroy_terraform_resources_trace in Hrun as [-> _].
  unfold status_writes. rewrite omap_app. apply app_nil_r.
Qed.

(** X6. The status writes of a flow, whatever fails: the create flow writes
    [create_started], then at most one of [success] and [failed], then
    at most one [error]; the destroy flow writes [destroy_started], then
    at most one of [destroyed] and [destroy_failed], then at most one
    [destroy_error]. All writes carry the normalized request id of the
    device and the user of the job; [error] can follow [success]. *)
Theorem flows_status_writes device_id instance_name user w :
  let rid := normalize_request_id (runtime env) device_id in
  let added (w' : World) (first : string) (rest : list string) :=
    status_writes (w_trace w')
    = (status_writes (w_trace w) ++ map (fun st => (rid, user, st)) (first :: rest))%list in
  (exists rest,
      added (create_server_job env device_id instance_name user w).2 "create_started" rest
      /\ In rest [[]; ["error"]; ["success"]; ["failed"];
                  ["success"; "error"]; ["failed"; "error"]])
  /\ (exists rest,
         added (destroy_server_job env device_id instance_name user w).2 "destroy_started" rest
         /\ In rest [[]; ["destroy_error"]; ["destroyed"]; ["destroy_failed"];
                     ["destroyed"; "destroy_error"]; ["destroy_failed"; "destroy_error"]]).
Proof.
  intros rid added. subst added. cbv beta. split.
  - destruct (create_server_job env device_id instance_name user w) as [r w'] eqn:Hrun.
    simpl. unfold create_server_job in Hrun. fold rid in Hrun.
    apply bind_inv in Hrun as [(k & w1 & Hstart & Hrun)|(e & Hstart & _)].
    2:{ exists []. rewrite (log_request_status_writes _ _ _ _ _ _ _ _ _ Hstart).
        split; [reflexivity | simpl; auto]. }
    apply log_request_status_writes in Hstart.
    assert (Hhandler : forall e w2 r' w3 sts,
               status_writes (w_trace w2)
               = (status_writes (w_trace w) ++ map (fun st => (rid, user, st))
                                                   ("create_started" :: sts))%list ->
               create_except env rid user e w2 = (r', w3) ->
               status_writes (w_trace w3)
               = (status_writes (w_trace w) ++ map (fun st => (rid, user, st))
                                                   ("create_started" :: sts ++ ["error"]))%list).
    { intros e w2 r' w3 sts H2 Hexc. unfold create_except in Hexc.
      assert (Hlog : exists r3, log_request env rid user "error" None
                                  (Some ("Unhandled error: " ++ e)) None w2 = (r3, w3)).
      { apply bind_inv in Hexc as [(k' & wc & Hlog & [= _ <-])|(e' & Hlog & _)]; eauto. }
      destruct Hlog as [r3 Hlog]. rewrite (log_request_status_writes _ _ _ _ _ _ _ _ _ Hlog), H2.
      rewrite <- app_assoc. simpl. rewrite map_app. reflexivity. }
    apply try_except_inv in Hrun as [(a & Htry & _)|(e & w2 & Htry & Hexc)].
    + (* the try block returns *)
      unfold create_try in Htry.
      apply bind_inv in Htry as [([] & wa & Hgen & Htry)|(e & _ & [=])].
      apply bind_inv in Htry as [([[s out] dur] & wb & Hpipe & Htry)|(e & _ & [=])].
      apply bind_inv in Htry as [(k' & wc & Hterm & Htry)|(e & _ & [=])].
      apply bind_inv in Htry as [([] & wd & Hres & [= _ <-])|(e & _ & [=])].
      apply generate_status_writes in Hgen.
      apply run_terraform_commands_status_writes in Hpipe.
      apply log_request_status_writes in Hterm.
      assert (Hd : status_writes (w_trace wd) = status_writes (w_trace wc)).
      { destruct s; [eapply log_resource_status_writes; exact Hres|].
        injection Hres as <-. reflexivity. }
      exists [if s then "success" else "failed"]. split.
      * rewrite Hd, Hterm, Hpipe, Hgen, Hstart, <- app_assoc. reflexivity.
      * destruct s; simpl; auto.
    + (* the try block raises *)
      assert (Hbody : exists sts,
                 status_writes (w_trace w2)
                 = (status_writes (w_trace w) ++ map (fun st => (rid, user, st))
                                                     ("create_started" :: sts))%list
                 /\ In sts [[]; ["success"]; ["failed"]]).
      { unfold create_try in Htry.
        apply bind_inv in Htry as [([] & wa & Hgen & Htry)|(e' & Hgen & _)].
        2:{ exists []. apply generate_status_writes in Hgen. rewrite Hgen, Hstart.
            split; [reflexivity | simpl; auto]. }
        apply generate_status_writes in Hgen.
        apply bind_inv in Htry as [([[s out] dur] & wb & Hpipe & Htry)|(e' & Hpipe & _)].
        2:{ exists []. apply run_terraform_commands_status_writes in Hpipe.
            rewrite Hpipe, Hgen, Hstart. split; [reflexivity | simpl; auto]. }
        apply run_terraform_commands_status_writes in Hpipe.
        apply bind_inv in Htry as [(k' & wc & Hterm & Htry)|(e' & Hterm & _)].
        2:{ exists [if s then "success" else "failed"].
            apply log_request_status_writes in Hterm.
            rewrite Hterm, Hpipe, Hgen, Hstart, <- app_assoc.
            split; [reflexivity | destruct s; simpl; auto]. }
        apply log_request_status_writes in Hterm.
        apply bind_inv in Htry as [([] & wd & Hres & [=])|(e' & Hres & _)].
        exists [if s then "success" else "failed"].
        assert (Hd : status_writes (w_trace w2) = status_writes (w_trace wc)).
        { destruct s; [eapply log_resource_status_writes; exact Hres | discriminate Hres]. }
        rewrite Hd, Hterm, Hpipe, Hgen, Hstart, <- app_assoc.
        split; [reflexivity | destruct s; simpl; auto]. }
      destruct Hbody as (sts & H2 & Hsts).
      exists (sts ++ ["error"])%list. split; [exact (Hhandler _ _ _ _ _ H2 Hexc)|].
      simpl in Hsts. destruct Hsts as [<-|[<-|[<-|[]]]]; simpl; auto 10.
  - destruct (destroy_server_job env device_id instance_name user w) as [r w'] eqn:Hrun.
    simpl. unfold destroy_server_job in Hrun. fold rid in Hrun.
    apply bind_inv in Hrun as [(k & w1 & Hstart & Hrun)|(e & Hstart & _)].
    2:{ exists []. rewrite (log_request_status_writes _ _ _ _ _ _ _ _ _ Hstart).
        split; [reflexivity | simpl; auto]. }
    apply log_request_status_writes in Hstart.
    apply try_except_inv in Hrun as [(a & Htry & _)|(e & w2 & Htry & Hexc)].
    + unfold destroy_try in Htry.
      apply bind_inv in Htry as [([[s out] dur] & wb & Hpipe & Htry)|(e & _ & [=])].
      apply bind_inv in Htry as [(k' & wc & Hterm & [= _ <-])|(e & _ & [=])].
      apply destroy_terraform_resources_status_writes in Hpipe.
      apply log_request_status_writes in Hterm.
      exists [if s then "destroyed" else "destroy_failed"]. split.
      * rewrite Hterm, Hpipe, Hstart, <- app_assoc. reflexivity.
      * destruct s; simpl; auto.
    + assert (Hbody : exists sts,
                 status_writes (w_trace w2)
                 = (status_writes (w_trace w) ++ map (fun st => (rid, user, st))
                                                     ("destroy_started" :: sts))%list
                 /\ In sts [[]; ["destroyed"]; ["destroy_failed"]]).
      { unfold destroy_try in Htry.
        apply bind_inv in Htry as [([[s out] dur] & wb & Hpipe & Htry)|(e' & Hpipe & _)].
        2:{ exists []. apply destroy_terraform_resources_status_writes in Hpipe.
            rewrite Hpipe, Hstart. split; [reflexivity | simpl; auto]. }
        apply destroy_terraform_resources_status_writes in Hpipe.
        apply bind_inv in Htry as [(k' & wc & Hterm & [=])|(e' & Hterm & _)].
        exists [if s then "destroyed" else "destroy_failed"].
        apply log_request_status_writes in Hterm.
        rewrite Hterm, Hpipe, Hstart, <- app_assoc.
        split; [reflexivity | destruct s; simpl; auto]. }
      destruct Hbody as (sts & H2 & Hsts).
      exists (sts ++ ["destroy_error"])%list. split.
      * unfold destroy_except in Hexc.
        assert (Hlog : exists r3, log_request env rid user "destroy_error" None
                                    (Some ("Destroy crashed: " ++ e)) None w2 = (r3, w')).
        { apply bind_inv in Hexc as [(k' & wc & Hlog & [= _ <-])|(e' & Hlog & _)]; eauto. }
        destruct Hlog as [r3 Hlog].
        rewrite (log_request_status_writes _ _ _ _ _ _ _ _ _ Hlog), H2.
        rewrite <- app_assoc. simpl. rewrite map_app. reflexivity.
      * simpl in Hsts. destruct Hsts as [<-|[<-|[<-|[]]]]; simpl; auto 10.
Qed.

(** X9. When [terraform destroy] cannot be started and the database accepts
    every transaction, the destroy flow returns success false with the
    output [Destroy crashed: ] followed by the message of the exception
    and duration 0, and the record of the request has status
    [destroy_error], that text as error message and no duration. *)
Theorem destroy_server_job_spawn_error device_id instance_name user w e :
  let rid := normalize_request_id (runtime env) device_id in
  let path := PyPath.join (TERRAFORM_ROOT (config env)) device_id in
  (forall t, env_db_fault env t = None) ->
  env_proc env (3 + w_tick w) (destroy_cmd device_id instance_name) path = SpawnError e ->
  store_invariant w ->
  exists w' r,
    destroy_server_job env device_id instance_name user w
    = (Ret {| success := false; output := "Destroy crashed: " ++ e; duration := 0 |}, w')
    /\ Db.rows_of (w_db w') rid = [r]
    /\ Db.status r = "destroy_error"
    /\ Db.error_message r = Some ("Destroy crashed: " ++ e)
    /\ Db.duration_seconds r = None.
Proof.
  intros rid path Hdb Hspawn Hinv.
  destruct (log_request_returns env rid user "destroy_started" None None None w (Hdb _))
    as (k & w1 & Hstart).
  assert (Hinv1 : store_invariant w1).
  { eapply preserves_invariant_log_request; [exact Hstart | exact Hinv]. }
  pose proof (log_request_ret env _ _ _ _ _ _ _ _ _ Hstart) as (_ & _ & _ & _ & Htick).
  assert (Htry : exists w2, destroy_try env rid device_id instance_name user path w1
                            = (Raise e, w2) /\ w_db w2 = w_db w1).
  { unfold destroy_try, destroy_terraform_resources, utcnow, _run_cmd, mbind, M_bind. simpl.
    rewrite Htick. change (S (S (S (w_tick w)))) with (3 + w_tick w)%nat. rewrite Hspawn.
    eexists. split; reflexivity. }
  destruct Htry as (w2 & Htry & Hdb2).
  destruct (log_request_returns env rid user "destroy_error" None
              (Some ("Destroy crashed: " ++ e)) None w2 (Hdb _)) as (k' & w3 & Hlog).
  assert (Hinv2 : store_invariant w2) by (unfold store_invariant; rewrite Hdb2; exact Hinv1).
  assert (Hinv3 : store_invariant w3).
  { eapply preserves_invariant_log_request; [exact Hlog | exact Hinv2]. }
  destruct (log_request_writes_row env _ _ _ _ _ _ _ _ _ (proj1 Hinv2) Hlog)
    as (r & Hin & _ & Hrid & Hst & Hdur & Herr).
  exists w3, r. split; [|split; [|split; [|split]]]; try assumption.
  - unfold destroy_server_job. fold rid path.
    unfold mbind at 1, M_bind at 1. rewrite Hstart. unfold try_except. rewrite Htry.
    unfold destroy_except, mbind, M_bind. rewrite Hlog. reflexivity.
  - apply the_record; [exact (proj2 Hinv3) | exact Hin | exact Hrid].
Qed.

End StatusWrites.

(* ===================================================================== *)
(** * The statements above at concrete runs *)
(* ===================================================================== *)

Lemma world0_invariant : store_invariant world0.
Proof. split; [exact empty_wf | intros rid; simpl; lia]. Qed.

Lemma w_failed_invariant : store_invariant w_failed.
Proof.
  apply (preserves_invariant_log_request env_ok 42 "alice" "failed" (Some 3000)
           (Some "init failed") None w_started (Ret 1) w_failed eq_refl).
  apply (preserves_invariant_log_request env_ok 42 "alice" "create_started" None None None
           world0 (Ret 1) w_started eq_refl).
  exact world0_invariant.
Qed.

Lemma w_created_invariant : store_invariant w_created.
Proof.
  apply (proj1 (preserves_invariant_flows env_ok "42" "web1" "alice") world0
           (create_server_job env_ok "42" "web1" "alice" world0).1 w_created).
  - unfold w_created. apply surjective_pairing.
  - exact world0_invariant.
Qed.

Lemma world0_fs_wf : FS.wf (w_fs world0).
Proof. apply wf_b_true. vm_compute. reflexivity. Qed.

Lemma world_stale_fs_wf : FS.wf (w_fs world_stale).
Proof. apply wf_b_true. vm_compute. reflexivity. Qed.

Lemma world_blocked_fs_wf : FS.wf (w_fs world_blocked).
Proof. apply wf_b_true. vm_compute. reflexivity. Qed.

Lemma env_ok_no_fs_fault : forall t, env_fs_fault env_ok t = None.
Proof. intros t. reflexivity. Qed.

Lemma workspace_42_plain : PyPath.plain "/app/terraform_templates/42".
Proof.
  split; intros H; vm_compute in H;
    repeat (apply elem_of_cons in H as [H|H]; [discriminate H|]); inversion H.
Qed.

Lemma root_plain : PyPath.plain (TERRAFORM_ROOT (config env_ok)).
Proof.
  split; intros H; vm_compute in H;
    repeat (apply elem_of_cons in H as [H|H]; [discriminate H|]); inversion H.
Qed.

Lemma flows_keep_store_invariant_witness :
  store_invariant w_failed
  /\ store_invariant (create_server_job env_ok "42" "web1" "alice" w_failed).2
  /\ store_invariant (destroy_server_job env_ok "42" "web1" "alice" w_failed).2
  /\ store_invariant (delete_resources_by_request_id env_ok 42 w_failed).2.
Proof.
  split; [exact w_failed_invariant|].
  exact (flows_keep_store_invariant env_ok "42" "web1" "alice" 42 w_failed w_failed_invariant).
Defined.

Lemma flows_leave_other_requests_witness :
  Db.wf (w_db w_failed)
  /\ 42 <> normalize_request_id (runtime env_ok) "7"
  /\ Db.rows_of (w_db (create_server_job env_ok "7" "web7" "bob" w_failed).2) 42
     = Db.rows_of (w_db w_failed) 42
  /\ Db.rows_of (w_db (destroy_server_job env_ok "7" "web7" "bob" w_failed).2) 42
     = Db.rows_of (w_db w_failed) 42.
Proof.
  assert (Hne : 42 <> normalize_request_id (runtime env_ok) "7").
  { intros H. vm_compute in H. discriminate H. }
  split; [exact w_failed_wf|]. split; [exact Hne|].
  exact (flows_leave_other_requests env_ok "7" "web7" "bob" 42 w_failed w_failed_wf Hne).
Defined.

Lemma delete_resources_by_request_id_removes_witness :
  let run := delete_resources_by_request_id env_ok 42 w_created in
  run.1 = Ret tt
  /\ length (Db.rows_of (w_db w_created) 42) = 1%nat
  /\ Db.rows_of (w_db run.2) 42 = []
  /\ Db.rows_of (w_db run.2) 7 = Db.rows_of (w_db w_created) 7.
Proof.
  intros run.
  assert (Hret : run.1 = Ret tt) by (vm_compute; reflexivity).
  destruct (delete_resources_by_request_id_removes env_ok 42 w_created (Ret tt) run.2
              (run_eq _ _ _ Hret)) as (Hgone & _).
  destruct (Hgone eq_refl) as (Hrows & Hothers & _).
  split; [exact Hret|]. split; [vm_compute; reflexivity|].
  split; [exact Hrows|]. apply Hothers. discriminate.
Defined.

Lemma log_id_not_reused_after_delete_witness :
  let w1 := (delete_resources_by_request_id env_ok 42 w_created).2 in
  let w2 := (log_request env_ok 42 "alice" "create_started" None None None w1).2 in
  Db.wf (w_db w_created)
  /\ 2 = Db.log_id_seq (w_db w_created)
  /\ (forall r0, In r0 (Db.request_status_logs (w_db w_created)) -> Db.log_id r0 < 2)
  /\ exists row, Db.rows_of (w_db w2) 42 = [row] /\ Db.log_id row = 2
                 /\ Db.status row = "create_started".
Proof.
  cbv zeta. split; [exact (proj1 w_created_invariant)|].
  apply (log_id_not_reused_after_delete env_ok 42 "alice" "create_started" None None None
           w_created (delete_resources_by_request_id env_ok 42 w_created).2 2
           (log_request env_ok 42 "alice" "create_started" None None None
              (delete_resources_by_request_id env_ok 42 w_created).2).2
           (proj1 w_created_invariant)).
  - apply (run_eq (delete_resources_by_request_id env_ok 42) w_created (Ret tt)).
    vm_compute. reflexivity.
  - apply (run_eq (log_request env_ok 42 "alice" "create_started" None None None)
             (delete_resources_by_request_id env_ok 42 w_created).2 (Ret 2)).
    vm_compute. reflexivity.
Defined.

Lemma log_request_caches_status_witness :
  log_request env_ok 42 "alice" "create_started" None None None world0 = (Ret 1, w_started)
  /\ (get_cached_job_status env_ok (PyText.str_of_Z 42) w_started).1
     = Ret (if decide (42 = 42) then Some "create_started"
            else w_cache world0 !! ("job:" ++ PyText.str_of_Z 42))
  /\ (get_cached_job_status env_ok (PyText.str_of_Z 7) w_started).1
     = Ret (if decide (7 = 42) then Some "create_started"
            else w_cache world0 !! ("job:" ++ PyText.str_of_Z 7)).
Proof.
  assert (Hrun : log_request env_ok 42 "alice" "create_started" None None None world0
                 = (Ret 1, w_started)) by (apply run_eq; vm_compute; reflexivity).
  split; [exact Hrun|]. split.
  - exact (log_request_caches_status env_ok 42 "alice" "create_started" None None None
             world0 1 w_started 42 Hrun eq_refl eq_refl).
  - exact (log_request_caches_status env_ok 42 "alice" "create_started" None None None
             world0 1 w_started 7 Hrun eq_refl eq_refl).
Defined.

Lemma run_terraform_commands_apply_failure_witness :
  let env := env_with (procs_failing_at 2) no_fault no_fault in
  let path := "/app/terraform_templates/42" in
  exists w',
    run_terraform_commands env path "42" "web1" world0
    = (Ret (false, "out" ++ nl ++ "err" ++ nl ++ "" ++ nl ++ "apply error",
            env_utcnow env (3 + w_tick world0) - env_utcnow env (w_tick world0)), w')
    /\ w_trace w' = (w_trace world0 ++ [EvRunCmd init_cmd path;
                                        EvRunCmd (apply_cmd "42" "web1") path])%list
    /\ w_db w' = w_db world0
    /\ w_fs w' = w_fs world0.
Proof.
  cbv zeta.
  apply (run_terraform_commands_apply_failure (env_with (procs_failing_at 2) no_fault no_fault)
           "/app/terraform_templates/42" "42" "web1" world0 "out" "err" 1 "" "apply error").
  - reflexivity.
  - reflexivity.
  - discriminate.
Defined.

Lemma run_terraform_commands_output_best_effort_witness :
  let env := env_with (procs_missing_at 4) no_fault no_fault in
  let path := "/app/terraform_templates/42" in
  output_outcome env world0 path = SpawnError "terraform not found"
  /\ exists w',
       run_terraform_commands env path "42" "web1" world0
       = (Ret (true,
               PyText.join nl (["out"; "err"; "out"; "err"]
                               ++ logged (output_outcome env world0 path)),
               env_utcnow env (3 + w_tick world0) - env_utcnow env (w_tick world0)), w')
       /\ w_trace w' = (w_trace world0 ++ [EvRunCmd init_cmd path;
                                           EvRunCmd (apply_cmd "42" "web1") path;
                                           EvRunCmd output_cmd path])%list.
Proof.
  cbv zeta. split; [reflexivity|].
  apply (run_terraform_commands_output_best_effort
           (env_with (procs_missing_at 4) no_fault no_fault)
           "/app/terraform_templates/42" "42" "web1" world0 "out" "err" "out" "err").
  - reflexivity.
  - reflexivity.
Defined.

Lemma create_server_job_terminal_status_witness :
  let env := env_with (procs_failing_at 9) no_fault no_fault in
  let jr := {| success := false;
               output := "out" ++ nl ++ "err" ++ nl ++ "" ++ nl ++ "apply error";
               duration := 3000 |} in
  let w' := (create_server_job env "42" "web1" "alice" world0).2 in
  store_invariant world0
  /\ create_server_job env "42" "web1" "alice" world0 = (Ret jr, w')
  /\ exists r,
       Db.rows_of (w_db w') (normalize_request_id (runtime env) "42") = [r]
       /\ Db.error_message r = (if success jr then None else Some (output jr))
       /\ (Db.status r = (if success jr then "success" else "failed")
           /\ Db.duration_seconds r = Some (duration jr)
           \/ success jr = false /\ Db.status r = "error" /\ Db.duration_seconds r = None
              /\ duration jr = 0).
Proof.
  cbv zeta.
  assert (Hrun : create_server_job
                   (env_with (procs_failing_at 9) no_fault no_fault)
                   "42" "web1" "alice" world0
                 = (Ret {| success := false;
                           output := "out" ++ nl ++ "err" ++ nl ++ "" ++ nl ++ "apply error";
                           duration := 3000 |},
                    (create_server_job
                       (env_with (procs_failing_at 9)
                                 no_fault no_fault)
                       "42" "web1" "alice" world0).2)).
  { apply (run_eq (create_server_job _ "42" "web1" "alice") world0). vm_compute. reflexivity. }
  split; [exact world0_invariant|]. split; [exact Hrun|].
  exact (create_server_job_terminal_status _ "42" "web1" "alice" world0 _ _
           world0_invariant Hrun).
Defined.

Lemma destroy_server_job_terminal_status_witness :
  let jr := {| success := true; output := "out" ++ nl ++ "err"; duration := 2000 |} in
  let w' := (destroy_server_job env_ok "42" "web1" "alice" w_created).2 in
  store_invariant w_created
  /\ destroy_server_job env_ok "42" "web1" "alice" w_created = (Ret jr, w')
  /\ exists r,
       Db.rows_of (w_db w') (normalize_request_id (runtime env_ok) "42") = [r]
       /\ Db.error_message r = (if success jr then None else Some (output jr))
       /\ (Db.status r = (if success jr then "destroyed" else "destroy_failed")
           /\ Db.duration_seconds r = Some (duration jr)
           \/ success jr = false /\ Db.status r = "destroy_error"
              /\ Db.duration_seconds r = None /\ duration jr = 0).
Proof.
  cbv zeta.
  assert (Hrun : destroy_server_job env_ok "42" "web1" "alice" w_created
                 = (Ret {| success := true; output := "out" ++ nl ++ "err"; duration := 2000 |},
                    (destroy_server_job env_ok "42" "web1" "alice" w_created).2)).
  { apply (run_eq (destroy_server_job env_ok "42" "web1" "alice") w_created).
    vm_compute. reflexivity. }
  split; [exact w_created_invariant|]. split; [exact Hrun|].
  exact (destroy_server_job_terminal_status env_ok "42" "web1" "alice" w_created _ _
           w_created_invariant Hrun).
Defined.

Lemma flows_return_while_db_up_witness :
  (forall t, env_db_fault env_disk_full t = None)
  /\ (exists jr w', create_server_job env_disk_full "42" "web1" "alice" world0 = (Ret jr, w'))
  /\ (exists jr w', destroy_server_job env_disk_full "42" "web1" "alice" world0 = (Ret jr, w')).
Proof.
  assert (Hup : forall t, env_db_fault env_disk_full t = None) by (intros t; reflexivity).
  split; [exact Hup|].
  exact (flows_return_while_db_up env_disk_full "42" "web1" "alice" world0 Hup).
Defined.

Lemma env_ok_procs_succeed :
  forall t cmd cwd, exists out err, env_proc env_ok t cmd cwd = Exited 0 out err.
Proof. intros t cmd cwd. exists "out", "err". reflexivity. Qed.

Lemma world0_nothing_in_the_way :
  forall a,
    a ∈ FS.ancestors_and_self (loc env_ok (PyPath.join (TERRAFORM_ROOT (config env_ok)) "42")) ->
    FS.is_file (w_fs world0) a = false.
Proof. intros a _. destruct a; reflexivity. Qed.

Lemma create_server_job_succeeds_witness :
  let env := env_ok in
  let rid := normalize_request_id (runtime env) "42" in
  exists out dur w' row res,
    create_server_job env "42" "web1" "alice" world0
    = (Ret {| success := true; output := out; duration := dur |}, w')
    /\ Db.rows_of (w_db w') rid = [row]
    /\ Db.status row = "success" /\ Db.error_message row = None
    /\ Db.duration_seconds row = Some dur
    /\ Db.request_resources (w_db w') = (Db.request_resources (w_db world0) ++ [res])%list
    /\ Db.res_log_id res = Db.log_id row /\ Db.resource_type res = "EC2"
    /\ Db.resource_name res = "web1" /\ Db.resource_id_value res = "42".
Proof.
  cbv zeta.
  apply (create_server_job_succeeds env_ok "42" "web1" "alice" world0).
  - intros t. reflexivity.
  - exact env_ok_no_fs_fault.
  - exact env_ok_procs_succeed.
  - exact world0_invariant.
  - exact world0_fs_wf.
  - exact workspace_42_plain.
  - discriminate.
  - exact world0_nothing_in_the_way.
Defined.

Lemma create_server_job_twice_two_resource_rows_witness :
  let env := env_ok in
  let rid := normalize_request_id (runtime env) "42" in
  exists jr1 w1 jr2 w2 row res1 res2,
    create_server_job env "42" "web1" "alice" world0 = (Ret jr1, w1)
    /\ create_server_job env "42" "web1" "alice" w1 = (Ret jr2, w2)
    /\ success jr1 = true /\ success jr2 = true
    /\ Db.rows_of (w_db w2) rid = [row]
    /\ Db.request_resources (w_db w2)
       = (Db.request_resources (w_db world0) ++ [res1; res2])%list
    /\ Forall (fun res => Db.res_log_id res = Db.log_id row /\ Db.resource_type res = "EC2"
                          /\ Db.resource_name res = "web1"
                          /\ Db.resource_id_value res = "42") [res1; res2].
Proof.
  cbv zeta.
  apply (create_server_job_twice_two_resource_rows env_ok "42" "web1" "alice" world0).
  - intros t. reflexivity.
  - exact env_ok_no_fs_fault.
  - exact env_ok_procs_succeed.
  - exact world0_invariant.
  - exact world0_fs_wf.
  - exact workspace_42_plain.
  - discriminate.
  - exact world0_nothing_in_the_way.
Defined.

Lemma generate_root_terraform_files_returns_iff_witness :
  let path := "/app/terraform_templates/42" in
  let run := generate_root_terraform_files env_ok "42" "web1" path world_blocked in
  FS.is_file (w_fs world_blocked) ["app"] = true
  /\ (exists e, run.1 = Raise e)
  /\ ((run.1 = Ret tt
       <-> forall a, a ∈ FS.ancestors_and_self (loc env_ok path) ->
                     FS.is_file (w_fs world_blocked) a = false)
      /\ (forall e, run.1 = Raise e -> w_fs run.2 = w_fs world_blocked)).
Proof.
  cbv zeta. split; [reflexivity|]. split; [eexists; vm_compute; reflexivity|].
  apply (generate_root_terraform_files_returns_iff env_ok env_ok_no_fs_fault "42" "web1"
           "/app/terraform_templates/42" world_blocked).
  - exact workspace_42_plain.
  - discriminate.
  - exact world_blocked_fs_wf.
Defined.

Lemma generate_root_terraform_files_again_witness :
  let path := "/app/terraform_templates/42" in
  let w1 := (generate_root_terraform_files env_ok "42" "web1" path world_stale).2 in
  generate_root_terraform_files env_ok "42" "web1" path world_stale = (Ret tt, w1)
  /\ exists w2,
       generate_root_terraform_files env_ok "42" "web1" path w1 = (Ret tt, w2)
       /\ w_fs w2 = w_fs w1.
Proof.
  cbv zeta.
  assert (Hrun : generate_root_terraform_files env_ok "42" "web1" "/app/terraform_templates/42"
                   world_stale
                 = (Ret tt, (generate_root_terraform_files env_ok "42" "web1"
                               "/app/terraform_templates/42" world_stale).2)).
  { apply (run_eq (generate_root_terraform_files env_ok "42" "web1"
                     "/app/terraform_templates/42") world_stale).
    vm_compute. reflexivity. }
  split; [exact Hrun|].
  exact (generate_root_terraform_files_again env_ok env_ok_no_fs_fault "42" "web1"
           "/app/terraform_templates/42" world_stale _ workspace_42_plain world_stale_fs_wf
           Hrun).
Defined.

Lemma create_server_job_keeps_other_workspaces_witness :
  let k := ["app"; "terraform_templates"; "42"; "main.tf"] in
  w_fs world_stale !! k = Some (FS.File "old")
  /\ w_fs (create_server_job env_ok "7" "web7" "bob" world_stale).2 !! k
     = w_fs world_stale !! k.
Proof.
  cbv zeta. split; [vm_compute; reflexivity|].
  apply (create_server_job_keeps_other_workspaces env_ok "7" "42" "web7" "bob" world_stale).
  - exact root_plain.
  - discriminate.
  - reflexivity.
  - reflexivity.
  - discriminate.
  - exists ["main.tf"]. vm_compute. reflexivity.
Defined.

Lemma padded_device_ids_share_request_id_witness :
  normalize_request_id (rt_seed 1) (" " ++ "42") = normalize_request_id (rt_seed 1) "42"
  /\ normalize_request_id (rt_seed 1) "42" = 42
  /\ PyPath.join "/app/terraform_templates" (" " ++ "42")
     <> PyPath.join "/app/terraform_templates" "42".
Proof.
  apply (padded_device_ids_share_request_id (rt_seed 1) "/app/terraform_templates" " " "42" 42).
  - discriminate.
  - reflexivity.
  - reflexivity.
Defined.

Lemma normalize_request_id_of_str_witness :
  (String.length (PyText.str_of_Z (-17)) <= int_max_str_digits (rt_seed 1))%nat
  /\ normalize_request_id (rt_seed 1) (PyText.str_of_Z (-17)) = -17.
Proof.
  assert (Hlen : (String.length (PyText.str_of_Z (-17)) <= int_max_str_digits (rt_seed 1))%nat).
  { vm_compute. lia. }
  split; [exact Hlen|].
  exact (normalize_request_id_of_str (rt_seed 1) (-17) (or_intror Hlen)).
Defined.

Lemma create_server_job_fs_frame_witness :
  let path := PyPath.join (TERRAFORM_ROOT (config env_ok)) "42" in
  let dir := loc env_ok path in
  let w' := (create_server_job env_ok "42" "web1" "alice" world_stale).2 in
  PyPath.plain path
  /\ (forall k, ~ dir `prefix_of` k -> ~ k `prefix_of` dir -> w_fs w' !! k = w_fs world_stale !! k)
  /\ (FS.wf (w_fs world_stale) -> FS.wf (w_fs w')).
Proof.
  cbv zeta. split; [exact workspace_42_plain|].
  exact (create_server_job_fs_frame env_ok "42" "web1" "alice" world_stale workspace_42_plain).
Defined.

Lemma destroy_server_job_spawn_error_witness :
  let env := env_with (procs_missing_at 3) no_fault no_fault in
  let rid := normalize_request_id (runtime env) "42" in
  store_invariant world0
  /\ exists w' r,
       destroy_server_job env "42" "web1" "alice" world0
       = (Ret {| success := false; output := "Destroy crashed: " ++ "terraform not found";
                 duration := 0 |}, w')
       /\ Db.rows_of (w_db w') rid = [r]
       /\ Db.status r = "destroy_error"
       /\ Db.error_message r = Some ("Destroy crashed: " ++ "terraform not found")
       /\ Db.duration_seconds r = None.
Proof.
  cbv zeta. split; [exact world0_invariant|].
  apply (destroy_server_job_spawn_error (env_with (procs_missing_at 3) no_fault no_fault)
           "42" "web1" "alice" world0 "terraform not found").
  - intros t. reflexivity.
  - reflexivity.
  - exact world0_invariant.
Defined.
